(** * The paper relevance / consensus scoring pipeline

    A shallow embedding of the scoring core of the ML research assistant:

    - [models/paper.py]                      the [Paper] record,
    - [config/settings.py]                   thresholds and keyword lists,
    - [services/ml_processor.py]             [MLPaperProcessor.process_papers],
    - [services/summarization_service.py]    [MLSummarizationService.generate_ml_consensus]
                                             and [_ml_sentiment_analysis].

    Conventions of the embedding.

    - Python floats are idealised as exact rationals ([Q]); equalities between
      numbers are stated with [==].  Where rounding matters (the threshold
      [HIGH_CONFIDENCE_THRESHOLD - 0.1], a cosine just above 1) the binary64
      value is computed with the kernel's floats in [Binary64].
    - Python strings are [string]s of ASCII characters; [len] is [length] and
      [str.lower] maps [A-Z] to [a-z].
    - Paper objects live in a store ([heap]); a paper list is a list of
      references ([loc]), so in-place mutation, aliasing and in-place sorting
      read as in the source.
    - The three scikit-learn entry points ([TfidfVectorizer.fit_transform],
      [cosine_similarity], [KMeans.fit_predict]) and [numpy.tanh] are library
      code: they are fields of a [Backend] record, each returning either a
      value or an exception.
    - [try] / [except Exception] is modelled by a small state-and-exception
      monad: state changes made before a [raise] persist, as in Python. *)

From Stdlib Require Import ZArith QArith Qminmax Qround Qabs Lqa Lia.
From Stdlib Require Import List String Ascii DecimalString Bool Permutation Sorted.
From Stdlib Require Import Reals Lra.
From Stdlib Require Floats.
Import ListNotations.

Local Open Scope Z_scope.
Local Open Scope Q_scope.

(* ===================================================================== *)
(** ** Numeric helpers (Python / numpy built-ins) *)
(* ===================================================================== *)

Module Num.

(** [x < y] as a boolean. *)
Definition Qlt_bool (x y : Q) : bool := negb (Qle_bool y x).

(** Python's [sum] over a list of numbers. *)
Definition sum (l : list Q) : Q := fold_left Qplus l 0.

(** [numpy.mean] of a non-empty list: the sum divided by the length. *)
Definition np_mean (l : list Q) : Q := sum l / inject_Z (Z.of_nat (List.length l)).

(** Python's [round(x, ndigits)]: round half to even on the scaled value. *)
Definition round_half_even (y : Q) : Z :=
  let f := Qfloor y in
  let r := y - inject_Z f in
  if Qlt_bool r (1#2) then f
  else if Qlt_bool (1#2) r then (f + 1)%Z
  else if Z.even f then f else (f + 1)%Z.

Definition round (x : Q) (ndigits : nat) : Q :=
  let scale := inject_Z (10 ^ Z.of_nat ndigits) in
  inject_Z (round_half_even (x * scale)) / scale.

End Num.

(* ===================================================================== *)
(** ** String helpers ([str.lower], [in], [" ".join]) *)
(* ===================================================================== *)

Module Str.

Local Open Scope string_scope.

Definition lower_ascii (c : ascii) : ascii :=
  let n := nat_of_ascii c in
  if (Nat.leb 65 n && Nat.leb n 90)%bool then ascii_of_nat (n + 32) else c.

(** [s.lower()] *)
Fixpoint lower (s : string) : string :=
  match s with
  | EmptyString => EmptyString
  | String c s' => String (lower_ascii c) (lower s')
  end.

(** [needle in hay]: substring test. *)
Fixpoint contains (needle hay : string) : bool :=
  if String.prefix needle hay then true
  else match hay with
       | EmptyString => false
       | String _ hay' => contains needle hay'
       end.


(** [sep.join(l)] *)
Fixpoint join (sep : string) (l : list string) : string :=
  match l with
  | [] => EmptyString
  | [x] => x
  | x :: l' => x ++ sep ++ join sep l'
  end.

End Str.

(* ===================================================================== *)
(** ** config/settings.py *)
(* ===================================================================== *)

Module Config.

Local Open Scope string_scope.

Definition MAX_TF_IDF_FEATURES : Z := 1000.
Definition NGRAM_RANGE : Z * Z := (1, 2)%Z.
Definition MAX_CLUSTERS : Z := 3.
Definition MIN_PAPERS_FOR_CLUSTERING : Z := 4.

Definition HIGH_CONFIDENCE_THRESHOLD : Q := 0.7.
Definition MEDIUM_CONFIDENCE_THRESHOLD : Q := 0.5.
Definition HIGH_RELEVANCE_THRESHOLD : Q := 0.6.
Definition MEDIUM_RELEVANCE_THRESHOLD : Q := 0.3.
Definition RECENT_YEAR_THRESHOLD : Z := 2020.

Definition STRONG_POSITIVE_THRESHOLD : Q := 70.
Definition MODERATE_POSITIVE_THRESHOLD : Q := 55.
Definition MODERATE_NEGATIVE_THRESHOLD : Q := 45.
Definition STRONG_NEGATIVE_THRESHOLD : Q := 30.

Definition POSITIVE_INDICATORS : list string :=
  [ "effective"; "improves"; "increases"; "beneficial"; "positive"; "significantly";
    "reduces"; "decreases"; "prevents"; "enhances"; "better"; "successful";
    "improvement"; "correlation"; "associated with"; "leads to" ].

Definition NEGATIVE_INDICATORS : list string :=
  [ "ineffective"; "no effect"; "no difference"; "harmful"; "negative";
    "worse"; "fails"; "unsuccessful"; "no significant"; "not significant";
    "no improvement"; "no correlation"; "unrelated" ].

End Config.

(* ===================================================================== *)
(** ** models/paper.py *)
(* ===================================================================== *)

(** The dataclass [Paper].  Python does not enforce the annotations:
    [SemanticScholarAPI._parse_paper_data] stores
    [paper_data.get('citationCount', 0)] as it is, which is [None] for a JSON
    [null]; so the two citation counts are optional integers.  [year] is
    [paper_data.get('year') or 0], always an integer. *)
Record Paper : Type := mkPaper {
  title : string;
  authors : list string;
  year : Z;
  abstract : string;
  url : string;
  doi : option string;
  venue : option string;
  citation_count : option Z;
  paper_id : option string;
  pdf_url : option string;
  tldr : option string;
  fields_of_study : list string;
  influential_citation_count : option Z;
  ml_relevance_score : Q;
  ml_cluster : Z;
  ml_summary_confidence : Q
}.

Module PaperModel.

(** [max(0.0, min(1.0, x))] *)
Definition clamp01 (x : Q) : Q := Qmax 0 (Qmin 1 x).

(** [Paper.__post_init__]: runs once, when the object is constructed. *)
Definition post_init (p : Paper) : Paper :=
  mkPaper (title p) (authors p) (year p) (abstract p) (url p) (doi p) (venue p)
          (citation_count p) (paper_id p) (pdf_url p) (tldr p) (fields_of_study p)
          (influential_citation_count p)
          (clamp01 (ml_relevance_score p))
          (ml_cluster p)
          (clamp01 (ml_summary_confidence p)).

(** The constructor call of [_parse_paper_data]: the three ML fields take
    their defaults [0.0], [-1], [0.0]. *)
Definition new_paper (title : string) (authors : list string) (year : Z)
    (abstract url : string) (doi venue : option string)
    (citation_count : option Z) (paper_id pdf_url tldr : option string)
    (fields_of_study : list string) (influential_citation_count : option Z) : Paper :=
  post_init (mkPaper title authors year abstract url doi venue citation_count
                     paper_id pdf_url tldr fields_of_study
                     influential_citation_count 0 (-1) 0).

(** Attribute assignment [paper.ml_relevance_score = v] and its siblings:
    plain field updates, [__post_init__] is not run again. *)
Definition set_ml_relevance_score (v : Q) (p : Paper) : Paper :=
  mkPaper (title p) (authors p) (year p) (abstract p) (url p) (doi p) (venue p)
          (citation_count p) (paper_id p) (pdf_url p) (tldr p) (fields_of_study p)
          (influential_citation_count p) v (ml_cluster p) (ml_summary_confidence p).

Definition set_ml_cluster (v : Z) (p : Paper) : Paper :=
  mkPaper (title p) (authors p) (year p) (abstract p) (url p) (doi p) (venue p)
          (citation_count p) (paper_id p) (pdf_url p) (tldr p) (fields_of_study p)
          (influential_citation_count p) (ml_relevance_score p) v
          (ml_summary_confidence p).

Definition set_ml_summary_confidence (v : Q) (p : Paper) : Paper :=
  mkPaper (title p) (authors p) (year p) (abstract p) (url p) (doi p) (venue p)
          (citation_count p) (paper_id p) (pdf_url p) (tldr p) (fields_of_study p)
          (influential_citation_count p) (ml_relevance_score p) (ml_cluster p) v.

(** The bibliographic part of a paper: everything but the ML fields. *)
Definition same_record (p p' : Paper) : Prop :=
  title p = title p' /\ authors p = authors p' /\ year p = year p' /\
  abstract p = abstract p' /\ url p = url p' /\ doi p = doi p' /\
  venue p = venue p' /\ citation_count p = citation_count p' /\
  paper_id p = paper_id p' /\ pdf_url p = pdf_url p' /\ tldr p = tldr p' /\
  fields_of_study p = fields_of_study p' /\
  influential_citation_count p = influential_citation_count p'.

End PaperModel.

(* ===================================================================== *)
(** ** Exceptions, the object store and the library back end *)
(* ===================================================================== *)

(** The subclasses of [Exception] that the core can meet. *)
Inductive exn : Type :=
| ValueError      (* e.g. TfidfVectorizer: empty vocabulary *)
| TypeError       (* arithmetic on [None] *)
| IndexError      (* list or array index out of range *)
| LibraryError.   (* anything else raised inside scikit-learn *)

Inductive result (A : Type) : Type :=
| Ok (a : A)
| Raise (e : exn).

Arguments Ok {A} a.
Arguments Raise {A} e.

(** A reference to a [Paper] object, and the store of all of them.  Every
    reference is valid, as in Python. *)
Definition loc : Type := nat.
Definition heap : Type := loc -> Paper.

(** [paper.field = v] on the object behind [l]. *)
Definition heap_update (h : heap) (l : loc) (f : Paper -> Paper) : heap :=
  fun l' => if Nat.eqb l' l then f (h l') else h l'.

(** A (sparse) matrix, row by row. *)
Definition Matrix : Type := list (list Q).

(** scikit-learn, numpy and float formatting as the core uses them.
    [TfidfVectorizer] takes [max_features] and [ngram_range]
    ([stop_words='english'] is fixed); [KMeans] takes [n_clusters] and
    [random_state]; [numpy.tanh] maps a float to a float. *)
Record Backend : Type := mkBackend {
  fit_transform : Z -> Z * Z -> list string -> result Matrix;
  cosine_similarity : Matrix -> Matrix -> result Matrix;
  kmeans_fit_predict : Z -> Z -> Matrix -> result (list Z);
  np_tanh : Q -> Q;
  format_1f : Q -> string            (* f"{x:.1f}" *)
}.

(** Calls into the back end, recorded in the order they are made. *)
Inductive Call : Type :=
| CallFitTransform (texts : list string)
| CallCosineSimilarity (X Y : Matrix)
| CallKMeans (n_clusters random_state : Z) (X : Matrix).

(** What [process_papers] can read and write: the paper objects, the
    attributes of [self], and the record of library calls. *)
Record State : Type := mkState {
  st_heap : heap;
  paper_vectors : option Matrix;       (* self.paper_vectors *)
  papers_data : list loc;              (* self.papers_data *)
  calls : list Call
}.

(** State and exceptions: the state survives a [raise]. *)
Module M.

Definition t (A : Type) : Type := State -> result A * State.

Definition ret {A} (a : A) : t A := fun s => (Ok a, s).

Definition bind {A B} (c : t A) (k : A -> t B) : t B :=
  fun s => match c s with
           | (Ok a, s') => k a s'
           | (Raise e, s') => (Raise e, s')
           end.

Definition raise {A} (e : exn) : t A := fun s => (Raise e, s).

(** [try: c  except Exception as e: handler e] *)
Definition try_except {A} (c : t A) (handler : exn -> t A) : t A :=
  fun s => match c s with
           | (Ok a, s') => (Ok a, s')
           | (Raise e, s') => handler e s'
           end.

Definition get_heap : t heap := fun s => (Ok (st_heap s), s).

Definition modify_paper (l : loc) (f : Paper -> Paper) : t unit :=
  fun s => (Ok tt, mkState (heap_update (st_heap s) l f)
                           (paper_vectors s) (papers_data s) (calls s)).

Definition set_paper_vectors (m : Matrix) : t unit :=
  fun s => (Ok tt, mkState (st_heap s) (Some m) (papers_data s) (calls s)).

Definition set_papers_data (l : list loc) : t unit :=
  fun s => (Ok tt, mkState (st_heap s) (paper_vectors s) l (calls s)).

(** A library call: recorded, then its outcome. *)
Definition call {A} (c : Call) (r : result A) : t A :=
  fun s => (r, mkState (st_heap s) (paper_vectors s) (papers_data s)
                       (calls s ++ [c])).

Definition lift {A} (r : result A) : t A := fun s => (r, s).

End M.

Declare Scope monad_scope.
Delimit Scope monad_scope with monad.
Notation "x <- c ;; k" := (M.bind c (fun x => k))
  (at level 61, c at next level, right associativity) : monad_scope.
Notation "c ;; k" := (M.bind c (fun _ => k))
  (at level 61, right associativity) : monad_scope.

(** The same for code that only raises (no state). *)
Definition rbind {A B} (r : result A) (k : A -> result B) : result B :=
  match r with
  | Ok a => k a
  | Raise e => Raise e
  end.

(** Python sequence indexing [l[i]] with [i >= 0]. *)
Definition index {A} (l : list A) (i : nat) : result A :=
  match nth_error l i with
  | Some a => Ok a
  | None => Raise IndexError
  end.

(** An operand of [/]: [None] raises [TypeError]. *)
Definition as_number (x : option Z) : result Z :=
  match x with
  | Some n => Ok n
  | None => Raise TypeError
  end.

(** [list.sort(key=..., reverse=True)]: descending by key, and stable
    (Python keeps the original order of elements with equal keys, also with
    [reverse=True]).  Insertion from the right: an element goes in front of
    the first element whose key is not greater than its own. *)
Fixpoint insert_desc {A} (key : A -> Q) (x : A) (l : list A) : list A :=
  match l with
  | [] => [x]
  | y :: l' => if Num.Qlt_bool (key x) (key y) then y :: insert_desc key x l'
               else x :: y :: l'
  end.

Definition sort_desc {A} (key : A -> Q) (l : list A) : list A :=
  fold_right (insert_desc key) [] l.

(* ===================================================================== *)
(** ** services/ml_processor.py *)
(* ===================================================================== *)

Module MLPaperProcessor.

Import Config PaperModel.
Local Open Scope monad_scope.

Section WithBackend.

Variable sk : Backend.

(** The text of one paper: title, abstract and, when there are any, the
    fields of study. *)
Definition paper_text (p : Paper) : string :=
  let text := (title p ++ " " ++ abstract p)%string in
  match fields_of_study p with
  | [] => text
  | fs => (text ++ " " ++ Str.join " " fs)%string
  end.

(** [m[-1]] and [m[:-1]] on the rows of a matrix. *)
Definition row_last (m : Matrix) : result Matrix :=
  match rev m with
  | [] => Raise IndexError
  | r :: _ => Ok [r]
  end.

Definition rows_but_last (m : Matrix) : Matrix := removelast m.

(** [a.flatten()] *)
Definition flatten (m : Matrix) : list Q := List.concat m.

(** The four confidence factors of one paper, and their mean. *)
Definition abstract_quality (p : Paper) : Q :=
  if (negb (String.eqb (abstract p) EmptyString) &&
      Nat.ltb 100 (String.length (abstract p)))%bool then 1.0 else 0.5.

Definition recency (p : Paper) : Q :=
  if (2015 <=? year p)%Z then 1.0 else 0.7.

Definition citation_factor (cit : Z) : Q := Qmin (inject_Z cit / 100) 1.0.

Definition confidence_factors (similarity : Q) (cit : Z) (p : Paper) : list Q :=
  [ similarity; citation_factor cit; abstract_quality p; recency p ].

(** The body of [for i, paper in enumerate(papers)], statement by
    statement. *)
Definition update_paper (i : nat) (paper : loc)
    (similarities : list Q) (clusters : list Z) : M.t unit :=
  s <- M.lift (index similarities i) ;;
  M.modify_paper paper (set_ml_relevance_score s) ;;
  c <- M.lift (index clusters i) ;;
  M.modify_paper paper (set_ml_cluster c) ;;
  h <- M.get_heap ;;
  cit <- M.lift (as_number (citation_count (h paper))) ;;
  M.modify_paper paper
    (set_ml_summary_confidence
       (Num.np_mean (confidence_factors s cit (h paper)))).

Fixpoint update_loop (i : nat) (papers : list loc)
    (similarities : list Q) (clusters : list Z) : M.t unit :=
  match papers with
  | [] => M.ret tt
  | paper :: rest =>
      update_paper i paper similarities clusters ;;
      update_loop (S i) rest similarities clusters
  end.

(** The [try] block. *)
Definition process_papers_try (papers : list loc) (query : string)
    : M.t (list loc) :=
  h <- M.get_heap ;;
  let paper_texts := map (fun paper => paper_text (h paper)) papers ++ [query] in
  vectors <- M.call (CallFitTransform paper_texts)
               (fit_transform sk MAX_TF_IDF_FEATURES NGRAM_RANGE paper_texts) ;;
  M.set_paper_vectors vectors ;;
  query_vector <- M.lift (row_last vectors) ;;
  let paper_vectors_only := rows_but_last vectors in
  sims <- M.call (CallCosineSimilarity paper_vectors_only query_vector)
            (cosine_similarity sk paper_vectors_only query_vector) ;;
  let similarities := flatten sims in
  let n := Z.of_nat (List.length papers) in
  clusters <-
    (if (MIN_PAPERS_FOR_CLUSTERING <? n)%Z then
       let n_clusters := Z.min MAX_CLUSTERS n in
       M.call (CallKMeans n_clusters 42 paper_vectors_only)
         (kmeans_fit_predict sk n_clusters 42 paper_vectors_only)
     else M.ret (repeat 0%Z (List.length papers))) ;;
  update_loop 0 papers similarities clusters ;;
  h' <- M.get_heap ;;
  let sorted := sort_desc (fun paper => ml_relevance_score (h' paper)) papers in
  M.set_papers_data sorted ;;
  M.ret sorted.

(** The [except] block: default scores for every paper, the list as it
    was. *)
Definition set_defaults (p : Paper) : Paper :=
  set_ml_summary_confidence 0.5 (set_ml_cluster 0 (set_ml_relevance_score 0.5 p)).

Fixpoint fallback_loop (papers : list loc) : M.t unit :=
  match papers with
  | [] => M.ret tt
  | paper :: rest => M.modify_paper paper set_defaults ;; fallback_loop rest
  end.

Definition process_papers (papers : list loc) (query : string)
    : M.t (list loc) :=
  match papers with
  | [] => M.ret papers
  | _ :: _ =>
      M.try_except (process_papers_try papers query)
        (fun _ => fallback_loop papers ;; M.ret papers)
  end.

End WithBackend.

End MLPaperProcessor.

(* ===================================================================== *)
(** ** services/summarization_service.py *)
(* ===================================================================== *)

(** The dictionary [generate_ml_consensus] returns.  The two short forms
    (["insufficient_data"], ["error"]) have only the keys [consensus],
    [confidence] and [ml_insights]; an absent key is [None] here and the
    empty dictionary is the empty association list. *)
Record ConsensusResult : Type := mkConsensusResult {
  consensus : string;
  percentage : option Q;
  confidence : Q;
  total_papers : option nat;
  explanation : option string;
  ml_insights : list (string * Q)
}.

Module MLSummarizationService.

Import Config.

Section WithBackend.

Variable sk : Backend.

(** [sum(2 if indicator in text else 0 for indicator in indicators)] *)
Definition indicator_score (indicators : list string) (text : string) : Z :=
  fold_left Z.add
    (map (fun indicator => if Str.contains indicator text then 2%Z else 0%Z)
         indicators) 0%Z.

(** The value handed to [np.tanh]: [final_score / 10].  The question is
    lower-cased and split into terms by the source, but the terms are
    never used. *)
Definition sentiment_argument (paper : Paper) (cit : Z) : Q :=
  let abstract_lower := Str.lower (abstract paper) in
  let positive_score := indicator_score POSITIVE_INDICATORS abstract_lower in
  let negative_score := indicator_score NEGATIVE_INDICATORS abstract_lower in
  let relevance_boost := ml_relevance_score paper in
  let citation_boost := Qmin (inject_Z cit / 100) 1.0 in
  let final_score :=
    inject_Z (positive_score - negative_score) * relevance_boost
    * (1 + citation_boost) in
  final_score / 10.

Definition _ml_sentiment_analysis (paper : Paper) (research_question : string)
    : result Q :=
  rbind (as_number (citation_count paper)) (fun cit =>
  Ok (np_tanh sk (sentiment_argument paper cit))).

(** The loop that fills [positive_scores] and [negative_scores]. *)
Fixpoint sentiment_loop (h : heap) (papers : list loc) (research_question : string)
    (positive_scores negative_scores : list Q) : result (list Q * list Q) :=
  match papers with
  | [] => Ok (positive_scores, negative_scores)
  | paper :: rest =>
      rbind (_ml_sentiment_analysis (h paper) research_question)
        (fun sentiment_score =>
      let confidence_weight := ml_summary_confidence (h paper) in
      if Num.Qlt_bool 0.1 sentiment_score then
        sentiment_loop h rest research_question
          (positive_scores ++ [sentiment_score * confidence_weight])
          negative_scores
      else if Num.Qlt_bool sentiment_score (-0.1) then
        sentiment_loop h rest research_question
          positive_scores
          (negative_scores ++ [Qabs sentiment_score * confidence_weight])
      else
        sentiment_loop h rest research_question positive_scores negative_scores)
  end.

Definition positive_percentage (positive_scores negative_scores : list Q) : Q :=
  let total_weighted_positive := Num.sum positive_scores in
  let total_weighted_negative := Num.sum negative_scores in
  let total_weight := total_weighted_positive + total_weighted_negative in
  if Num.Qlt_bool 0 total_weight then
    (total_weighted_positive / total_weight) * 100
  else 50.0.

Definition avg_confidence (h : heap) (papers : list loc) : Q :=
  Num.np_mean (map (fun p => ml_summary_confidence (h p)) papers).

(** The [if] / [elif] chain that picks the verdict. *)
Definition classify (positive_percentage avg_confidence : Q) : string :=
  if (Qle_bool STRONG_POSITIVE_THRESHOLD positive_percentage &&
      Num.Qlt_bool (HIGH_CONFIDENCE_THRESHOLD - 0.1) avg_confidence)%bool
  then "strong_positive"
  else if (Qle_bool MODERATE_POSITIVE_THRESHOLD positive_percentage &&
           Num.Qlt_bool MEDIUM_CONFIDENCE_THRESHOLD avg_confidence)%bool
  then "moderate_positive"
  else if (Qle_bool positive_percentage STRONG_NEGATIVE_THRESHOLD &&
           Num.Qlt_bool (HIGH_CONFIDENCE_THRESHOLD - 0.1) avg_confidence)%bool
  then "strong_negative"
  else if (Qle_bool positive_percentage MODERATE_NEGATIVE_THRESHOLD &&
           Num.Qlt_bool MEDIUM_CONFIDENCE_THRESHOLD avg_confidence)%bool
  then "moderate_negative"
  else "mixed".

Definition count {A} (f : A -> bool) (l : list A) : nat :=
  List.length (filter f l).

Definition of_nat (n : nat) : Q := inject_Z (Z.of_nat n).

Definition high_confidence_count (h : heap) (papers : list loc) : nat :=
  count (fun p => Num.Qlt_bool HIGH_CONFIDENCE_THRESHOLD
                    (ml_summary_confidence (h p))) papers.

(** [np.mean([p.citation_count for p in papers])] *)
Fixpoint citation_counts (h : heap) (papers : list loc) : result (list Q) :=
  match papers with
  | [] => Ok []
  | p :: rest =>
      rbind (as_number (citation_count (h p))) (fun c =>
      rbind (citation_counts h rest) (fun cs => Ok (inject_Z c :: cs)))
  end.

Definition str_of_nat (n : nat) : string := NilZero.string_of_uint (Nat.to_uint n).

Definition _generate_ml_explanation (h : heap) (papers : list loc)
    (positive_pct confidence : Q) : string :=
  let high_conf_count := high_confidence_count h papers in
  let avg_relevance := Num.np_mean (map (fun p => ml_relevance_score (h p)) papers) in
  let base_explanation :=
    ("ML analysis of " ++ str_of_nat (List.length papers) ++ " papers shows ")%string in
  let explanation :=
    if Qle_bool STRONG_POSITIVE_THRESHOLD positive_pct then
      (base_explanation ++ format_1f sk positive_pct
         ++ "% positive evidence with " ++ format_1f sk confidence
         ++ " confidence.")%string
    else if Qle_bool positive_pct STRONG_NEGATIVE_THRESHOLD then
      (base_explanation ++ format_1f sk (100 - positive_pct)
         ++ "% negative evidence with " ++ format_1f sk confidence
         ++ " confidence.")%string
    else
      (base_explanation ++ "mixed results (" ++ format_1f sk positive_pct
         ++ "% positive) with " ++ format_1f sk confidence
         ++ " confidence.")%string in
  let explanation :=
    if Num.Qlt_bool (of_nat (List.length papers) * 0.6) (of_nat high_conf_count) then
      (explanation ++ " " ++ str_of_nat high_conf_count
         ++ " papers show high ML confidence scores.")%string
    else explanation in
  if Num.Qlt_bool 0.6 avg_relevance then
    (explanation ++ " Strong topical relevance detected by ML analysis.")%string
  else explanation.

(** The [try] block. *)
Definition generate_ml_consensus_try (h : heap) (papers : list loc)
    (research_question : string) : result ConsensusResult :=
  rbind (sentiment_loop h papers research_question [] []) (fun buckets =>
  let '(positive_scores, negative_scores) := buckets in
  let positive_percentage := positive_percentage positive_scores negative_scores in
  let avg_confidence := avg_confidence h papers in
  let consensus := classify positive_percentage avg_confidence in
  let confidence := avg_confidence in
  rbind (citation_counts h papers) (fun cits =>
  let ml_insights :=
    [ ("avg_relevance_score"%string,
         Num.np_mean (map (fun p => ml_relevance_score (h p)) papers));
      ("high_confidence_papers"%string, of_nat (high_confidence_count h papers));
      ("recent_papers_ratio"%string,
         of_nat (count (fun p => (RECENT_YEAR_THRESHOLD <=? year (h p))%Z) papers)
         / of_nat (List.length papers));
      ("avg_citation_impact"%string, Num.np_mean cits) ] in
  let explanation :=
    _generate_ml_explanation h papers positive_percentage avg_confidence in
  Ok (mkConsensusResult consensus
        (Some (Num.round positive_percentage 1))
        (Num.round confidence 2)
        (Some (List.length papers))
        (Some explanation)
        ml_insights))).

Definition insufficient_data_result : ConsensusResult :=
  mkConsensusResult "insufficient_data" None 0.0 None None [].

Definition error_result : ConsensusResult :=
  mkConsensusResult "error" None 0.0 None None [].

Definition generate_ml_consensus (h : heap) (papers : list loc)
    (research_question : string) : ConsensusResult :=
  match papers with
  | [] => insufficient_data_result
  | _ :: _ =>
      match generate_ml_consensus_try h papers research_question with
      | Ok r => r
      | Raise _ => error_result
      end
  end.

End WithBackend.

End MLSummarizationService.

(* ===================================================================== *)
(** ** The specification's wording, for comparison with the code *)
(* ===================================================================== *)

Module SpecWords.

(** The decision table of the specification, with its literal thresholds:
    pct >= 70 and avg_conf > 0.6, else pct >= 55 and avg_conf > 0.5, else
    pct <= 30 and avg_conf > 0.6, else pct <= 45 and avg_conf > 0.5, else
    mixed. *)
Definition decision_table (pct avg_conf : Q) : string :=
  if (Qle_bool 70 pct && Num.Qlt_bool 0.6 avg_conf)%bool then "strong_positive"
  else if (Qle_bool 55 pct && Num.Qlt_bool 0.5 avg_conf)%bool then "moderate_positive"
  else if (Qle_bool pct 30 && Num.Qlt_bool 0.6 avg_conf)%bool then "strong_negative"
  else if (Qle_bool pct 45 && Num.Qlt_bool 0.5 avg_conf)%bool then "moderate_negative"
  else "mixed".


(** The mean of four numbers. *)
Definition mean4 (a b c d : Q) : Q := (a + b + c + d) / 4.

(** Membership in the closed unit interval. *)
Definition in_unit_interval (x : Q) : Prop := 0 <= x /\ x <= 1.

End SpecWords.


(* ===================================================================== *)
(** ** Predicates used in the statements *)
(* ===================================================================== *)

(** Descending order of keys. *)
Definition ge_key {A} (key : A -> Q) (a b : A) : Prop := key b <= key a.

(** A paper as one iteration of the update loop leaves it: relevance and
    cluster read at one index, confidence the mean of the four factors. *)
Definition updated (similarities : list Q) (clusters : list Z) (p : Paper) : Prop :=
  exists (i : nat) (s : Q) (c cit : Z),
    nth_error similarities i = Some s /\
    nth_error clusters i = Some c /\
    ml_relevance_score p = s /\
    ml_cluster p = c /\
    citation_count p = Some cit /\
    ml_summary_confidence p
    = Num.np_mean (MLPaperProcessor.confidence_factors s cit p).

(** What a run of the processor may change in the store: only the ML fields
    of the papers in [locs]. *)
Definition heap_frame (locs : list loc) (h h' : heap) : Prop :=
  (forall l, PaperModel.same_record (h l) (h' l)) /\
  (forall l, ~ In l locs -> h' l = h l).

(** The same for a step that leaves [self] and the call record alone. *)
Definition frame (locs : list loc) (s s' : State) : Prop :=
  paper_vectors s' = paper_vectors s /\
  papers_data s' = papers_data s /\
  calls s' = calls s /\
  heap_frame locs (st_heap s) (st_heap s').

(** The fallback values of the [except] block. *)
Definition has_defaults (p : Paper) : Prop :=
  ml_relevance_score p = 0.5 /\ ml_cluster p = 0%Z /\ ml_summary_confidence p = 0.5.

(** The contract of [KMeans.fit_predict]: labels are cluster indices below
    [n_clusters]. *)
Definition kmeans_labels_in_range (sk : Backend) : Prop :=
  forall (k seed : Z) (X : Matrix) (labels : list Z),
    kmeans_fit_predict sk k seed X = Ok labels ->
    Forall (fun c => (0 <= c < k)%Z) labels.

(** The contract of [cosine_similarity] in exact arithmetic on non-negative
    vectors: every entry lies in the unit interval. *)
Definition similarities_in_unit_interval (sk : Backend) : Prop :=
  forall (X Y m : Matrix),
    cosine_similarity sk X Y = Ok m ->
    Forall (Forall SpecWords.in_unit_interval) m.

(** The sentiment of a paper whose citation count is an integer (for a
    missing count, where the source raises, the value is immaterial). *)
Definition sentiment_of (sk : Backend) (p : Paper) : Q :=
  np_tanh sk
    (MLSummarizationService.sentiment_argument p
       (match citation_count p with Some c => c | None => 0%Z end)).

(** The tests of the two buckets. *)
Definition goes_positive (sk : Backend) (h : heap) (p : loc) : bool :=
  Num.Qlt_bool 0.1 (sentiment_of sk (h p)).

Definition goes_negative (sk : Backend) (h : heap) (p : loc) : bool :=
  Num.Qlt_bool (sentiment_of sk (h p)) (-0.1).

(* ===================================================================== *)
(** ** Concrete papers and back ends *)
(* ===================================================================== *)

Module Examples.

Local Open Scope string_scope.

(** A text of [n] characters. *)
Fixpoint filler (n : nat) : string :=
  match n with
  | O => EmptyString
  | S n' => String "x" (filler n')
  end.

Definition paper_a : Paper :=
  PaperModel.new_paper "Sleep and memory" ["A. Author"] 2021
    "Regular sleep improves recall and is effective." EmptyString None None
    (Some 200%Z) None None None ["Medicine"] (Some 3%Z).

Definition paper_b : Paper :=
  PaperModel.new_paper "Naps" [] 2010
    "Short naps were ineffective and showed no effect." EmptyString None None
    (Some 40%Z) None None None [] (Some 0%Z).

Definition paper_c : Paper :=
  PaperModel.new_paper "Chronotypes in adolescents" [] 2018
    "We describe the cohort." EmptyString None None
    (Some 5%Z) None None None [] (Some 0%Z).

(** A paper whose citation count came back as JSON [null]. *)
Definition paper_null : Paper :=
  PaperModel.new_paper "Dreams" [] 2019
    "Dream reports are positive." EmptyString None None
    None None None None [] None.

(** A paper with a 150-character abstract, 200 citations, from 2021. *)
Definition paper_long : Paper :=
  PaperModel.new_paper "Long" [] 2021 (filler 150) EmptyString None None
    (Some 200%Z) None None None [] None.

(** The query repeats the paper's three words: five shared n-grams. *)
Definition paper_echo : Paper :=
  PaperModel.new_paper "alpha" [] 2021 "beta gamma" EmptyString None None
    (Some 0%Z) None None None [] (Some 0%Z).

Definition library : heap :=
  fun l => match l with
           | 0%nat => paper_a
           | 1%nat => paper_b
           | 2%nat => paper_c
           | 3%nat => paper_long
           | 4%nat => paper_echo
           | _ => paper_null
           end.

Definition fresh : State := mkState library None [] [].

(** The first three papers with scores already on them. *)
Definition with_scores (relevance : Q) (cluster : Z) (confidence : Q)
    (p : Paper) : Paper :=
  PaperModel.set_ml_summary_confidence confidence
    (PaperModel.set_ml_cluster cluster
       (PaperModel.set_ml_relevance_score relevance p)).

Definition scored : heap :=
  fun l => match l with
           | 0%nat => with_scores 0.9 0 0.8 paper_a
           | 1%nat => with_scores 0.5 0 0.6 paper_b
           | 2%nat => with_scores 0.3 0 0.4 paper_c
           | _ => library l
           end.

(** Labels [0, 1, ..., k-1, 0, 1, ...] for the rows of a matrix. *)
Fixpoint round_robin (k : Z) (i : Z) (X : Matrix) : list Z :=
  match X with
  | [] => []
  | _ :: X' => (i mod k)%Z :: round_robin k (i + 1)%Z X'
  end.

(** A small deterministic back end: one feature per text, weighted by the
    inverse of its length; the similarity of a row is that weight; labels
    go round robin; [x / (1 + |x|)] stands in for [tanh]. *)
Definition toy : Backend :=
  mkBackend
    (fun _ _ texts =>
       Ok (map (fun t => [1 / inject_Z (Z.of_nat (S (String.length t)))]) texts))
    (fun X _ => Ok (map (fun row => [hd 0 row]) X))
    (fun k _ X => if (0 <? k)%Z then Ok (round_robin k 0 X) else Raise ValueError)
    (fun x => x / (1 + Qabs x))
    (fun _ => "0.0").

(** The same, but the similarity of every row is [1 + 2^-52], the binary64
    number [1.0000000000000002] that the dot product of a normalised row
    with itself can round to. *)
Definition one_ulp_above_one : Q := 1 + 1 / inject_Z (2 ^ 52).

Definition drifting : Backend :=
  mkBackend (fit_transform toy)
            (fun X _ => Ok (map (fun _ => [one_ulp_above_one]) X))
            (kmeans_fit_predict toy) (np_tanh toy) (format_1f toy).

(** The same, but the vectorizer finds an empty vocabulary. *)
Definition empty_vocabulary : Backend :=
  mkBackend (fun _ _ _ => Raise ValueError)
            (cosine_similarity toy)
            (kmeans_fit_predict toy) (np_tanh toy) (format_1f toy).

End Examples.

(* ===================================================================== *)
(** ** Binary64 arithmetic *)
(* ===================================================================== *)

(** What numpy and scikit-learn compute in IEEE double precision, for the
    places where rounding decides something.  A decimal literal [a.b] of the
    source is the double nearest to it, which is what the correctly rounded
    division [ab / 10] gives. *)
Module Binary64.

Import Floats.
Local Open Scope float_scope.

(** The squared L2 norm of a row, accumulated left to right, and the row
    divided by its norm: scikit-learn's row normalisation, which
    [TfidfVectorizer] applies to its output and [cosine_similarity] to
    both of its arguments. *)
Definition sum_squares (row : list float) : float :=
  fold_left (fun acc x => acc + x * x) row 0.

Definition normalize (row : list float) : list float :=
  let norm := sqrt (sum_squares row) in
  map (fun x => x / norm) row.

(** The entry of the sparse product of a row with a column. *)
Fixpoint dot (a b : list float) (acc : float) : float :=
  match a, b with
  | x :: a', y :: b' => dot a' b' (acc + x * y)
  | _, _ => acc
  end.

Definition cosine (a b : list float) : float :=
  dot (normalize a) (normalize b) 0.

(** The TF-IDF row of a text with five n-grams, each once, all of them in
    every document (so every idf is [ln(1) + 1 = 1]): ["alpha beta gamma"]
    has three unigrams and two bigrams. *)
Definition tfidf_row : list float := normalize [1; 1; 1; 1; 1].

(** The rational a finite double stands for. *)
Definition to_Q (x : float) : option Q :=
  match Prim2SF x with
  | SpecFloat.S754_zero _ => Some 0%Q
  | SpecFloat.S754_finite s m e =>
      let v := (inject_Z (Zpos m) * (2 ^ e))%Q in
      Some (if s then (- v)%Q else v)
  | _ => None
  end.

(** [HIGH_CONFIDENCE_THRESHOLD - 0.1] *)
Definition strong_threshold : float := 7 / 10 - 1 / 10.

(** [np.mean([0.8, 1.0, 1.0, 1.0])] *)
Definition example_mean : float := (8 / 10 + 1 + 1 + 1) / 4.

End Binary64.

(* ===================================================================== *)
(** ** services/ml_processor.py: the cluster view *)
(* ===================================================================== *)

Module ClusterView.

(** [clusters[k].append(paper)] on a [defaultdict(list)]: a dictionary
    keeps its keys in insertion order, so it is an association list; a new
    key goes to the end. *)
Fixpoint group_append (k : Z) (paper : loc) (clusters : list (Z * list loc))
    : list (Z * list loc) :=
  match clusters with
  | [] => [(k, [paper])]
  | (k', ps) :: rest =>
      if Z.eqb k' k then (k', ps ++ [paper]) :: rest
      else (k', ps) :: group_append k paper rest
  end.

(** [MLPaperProcessor.get_paper_clusters]: the papers of
    [self.papers_data], grouped by their cluster id. *)
Definition get_paper_clusters (s : State) : list (Z * list loc) :=
  fold_left
    (fun clusters paper => group_append (ml_cluster (st_heap s paper)) paper clusters)
    (papers_data s) [].

(** [d.get(k)] *)
Fixpoint lookup (k : Z) (clusters : list (Z * list loc)) : option (list loc) :=
  match clusters with
  | [] => None
  | (k', ps) :: rest => if Z.eqb k' k then Some ps else lookup k rest
  end.

(** The papers of a list that carry cluster id [k]. *)
Definition with_cluster (h : heap) (k : Z) (papers : list loc) : list loc :=
  filter (fun p => Z.eqb (ml_cluster (h p)) k) papers.

End ClusterView.

(* ===================================================================== *)
(** ** utils/helpers.py *)
(* ===================================================================== *)

Module Helpers.

Local Open Scope string_scope.

(** [\w] on ASCII text: letters, digits and the underscore. *)
Definition is_word_char (c : ascii) : bool :=
  let n := nat_of_ascii c in
  ((Nat.leb 48 n && Nat.leb n 57) || (Nat.leb 65 n && Nat.leb n 90)
   || (Nat.leb 97 n && Nat.leb n 122) || Nat.eqb n 95)%bool.

(** The run of word characters at the head of a text (it may be empty),
    and the maximal runs of word characters after it. *)
Fixpoint scan (s : string) : string * list string :=
  match s with
  | EmptyString => (EmptyString, [])
  | String c s' =>
      let (w, ws) := scan s' in
      if is_word_char c then (String c w, ws)
      else (EmptyString,
            match w with EmptyString => ws | _ => w :: ws end)
  end.

(** [re.findall(r'\b\w+\b', s)]: the maximal runs of word characters,
    left to right. *)
Definition findall_words (s : string) : list string :=
  let (w, ws) := scan s in
  match w with EmptyString => ws | _ => w :: ws end.

(** [extract_key_terms(text, min_length)] *)
Definition extract_key_terms (text : string) (min_length : nat) : list string :=
  filter (fun term => Nat.ltb min_length (String.length term))
         (findall_words (Str.lower text)).

(** The default [min_length=3]. *)
Definition extract_key_terms_default (text : string) : list string :=
  extract_key_terms text 3.




End Helpers.

(* ===================================================================== *)
(** ** Wordings used in statements about the explanation *)
(* ===================================================================== *)

Module Wording.

Local Open Scope string_scope.

(** The first sentence of an explanation for [n] papers, chosen by the
    percentage alone. *)
Definition first_sentence (sk : Backend) (n : nat) (pct conf : Q) : string :=
  "ML analysis of " ++ MLSummarizationService.str_of_nat n ++ " papers shows " ++
  (if Qle_bool 70 pct then
     format_1f sk pct ++ "% positive evidence with "
     ++ format_1f sk conf ++ " confidence."
   else if Qle_bool pct 30 then
     format_1f sk (100 - pct) ++ "% negative evidence with "
     ++ format_1f sk conf ++ " confidence."
   else
     "mixed results (" ++ format_1f sk pct ++ "% positive) with "
     ++ format_1f sk conf ++ " confidence.").

(** The negative keywords that have a positive keyword inside them. *)
Definition shadowed : list (string * string) :=
  [ ("ineffective", "effective"); ("unsuccessful", "successful");
    ("no improvement", "improvement"); ("no correlation", "correlation") ].

(** A text is a piece of another: it occurs in it, characters adjacent. *)
Definition piece_of (t s : string) : Prop := exists pre suf, s = pre ++ t ++ suf.

(** [s] begins with [pre]. *)
Definition begins_with (pre s : string) : Prop := exists rest, s = pre ++ rest.

End Wording.

(* ===================================================================== *)
(** ** More string built-ins ([str.strip], [str.split]) *)
(* ===================================================================== *)

Module StrMore.

Local Open Scope string_scope.

(** Every character of a text passes a test. *)
Fixpoint all_chars (f : ascii -> bool) (s : string) : bool :=
  match s with
  | EmptyString => true
  | String c s' => (f c && all_chars f s')%bool
  end.

(** ASCII white space, as [str.strip] and [str.isspace] see it: tab, line
    feed, vertical tab, form feed, carriage return, the four separators
    28 to 31, and the space. *)
Definition is_space (c : ascii) : bool :=
  let n := nat_of_ascii c in
  ((Nat.leb 9 n && Nat.leb n 13) || (Nat.leb 28 n && Nat.leb n 32))%bool.

Fixpoint lstrip (s : string) : string :=
  match s with
  | EmptyString => EmptyString
  | String c s' => if is_space c then lstrip s' else s
  end.

Fixpoint rstrip (s : string) : string :=
  match s with
  | EmptyString => EmptyString
  | String c s' =>
      match rstrip s' with
      | EmptyString => if is_space c then EmptyString else String c EmptyString
      | r => String c r
      end
  end.

(** [s.strip()] *)
Definition strip (s : string) : string := lstrip (rstrip s).

(** [s.split(sep)] for a one-character separator: the pieces between the
    separators, empty pieces included; never the empty list. *)
Fixpoint split (sep : ascii) (s : string) : list string :=
  match s with
  | EmptyString => [EmptyString]
  | String c s' =>
      if Ascii.eqb c sep then EmptyString :: split sep s'
      else match split sep s' with
           | [] => [String c EmptyString]
           | piece :: pieces => String c piece :: pieces
           end
  end.

(** [str(n)] for an integer. *)
Definition str_of_Z (n : Z) : string :=
  if (n <? 0)%Z then "-" ++ MLSummarizationService.str_of_nat (Z.to_nat (- n))
  else MLSummarizationService.str_of_nat (Z.to_nat n).

End StrMore.

(* ===================================================================== *)
(** ** services/summarization_service.py: the local summary *)
(* ===================================================================== *)

(** The dictionary of a paper summary: six texts. *)
Record Summary : Type := mkSummary {
  key_finding : string;
  methodology : string;
  evidence_strength : string;
  relevance : string;
  summary_ml_insights : string;        (* key 'ml_insights' *)
  implications : string
}.

Module LocalSummary.

Import Config StrMore.
Local Open Scope string_scope.

Section WithFormat.

(** [f"{x:.2f}"] *)
Variable format_2f : Q -> string.

(** [x > n] for an attribute that may be [None]. *)
Definition greater_than (x : option Z) (n : Z) : result bool :=
  rbind (as_number x) (fun v => Ok (n <? v)%Z).

(** [a and b], where [b] is only evaluated when [a] holds. *)
Definition and_then (a : bool) (b : result bool) : result bool :=
  if a then b else Ok false.

(** [[s.strip() for s in abstract.split('.') if s.strip()]] *)
Definition sentences (abstract : string) : list string :=
  map strip
      (filter (fun s => negb (String.eqb (strip s) EmptyString))
              (split "." abstract)).

Definition key_finding_of (abstract : string) : string :=
  match sentences abstract with
  | first :: _ => first
  | [] => "Key finding not available."
  end.

Definition evidence_strength_of (paper : Paper) : result string :=
  rbind (and_then (Num.Qlt_bool HIGH_CONFIDENCE_THRESHOLD
                     (ml_summary_confidence paper))
                  (greater_than (citation_count paper) 50)) (fun strong =>
  if strong then Ok "Strong" else
  rbind (and_then (Num.Qlt_bool MEDIUM_CONFIDENCE_THRESHOLD
                     (ml_summary_confidence paper))
                  (greater_than (citation_count paper) 10)) (fun moderate =>
  if moderate then Ok "Moderate" else Ok "Limited")).

Definition relevance_of (paper : Paper) : string :=
  if Num.Qlt_bool 0.6 (ml_relevance_score paper) then "High"
  else if Num.Qlt_bool 0.3 (ml_relevance_score paper) then "Medium"
  else "Low".

(** [MLSummarizationService._ml_local_summary] *)
Definition _ml_local_summary (paper : Paper) (research_question : string)
    : result Summary :=
  let key_finding := key_finding_of (abstract paper) in
  rbind (evidence_strength_of paper) (fun evidence_strength =>
  let relevance := relevance_of paper in
  let ml_insights :=
    "ML confidence: " ++ format_2f (ml_summary_confidence paper)
    ++ ", Relevance: " ++ format_2f (ml_relevance_score paper) in
  Ok (mkSummary key_finding
        "Methodology details not extracted locally."
        evidence_strength
        relevance
        ml_insights
        ("This " ++ str_of_Z (year paper) ++ " study contributes "
         ++ Str.lower evidence_strength ++ " evidence with "
         ++ Str.lower relevance ++ " relevance."))).

(** [MLSummarizationService.summarize_with_ml]: with an API key the
    remote summary is tried first ([gemini] is
    [_ml_enhanced_gemini_summary], which catches its own exceptions and
    answers [None] then); a dictionary of six keys is never falsy. *)
Definition summarize_with_ml (gemini_api_key : option string)
    (gemini : Paper -> string -> option Summary)
    (paper : Paper) (research_question : string) : result Summary :=
  match (match gemini_api_key with
         | Some key => if String.eqb key EmptyString then None
                       else gemini paper research_question
         | None => None
         end) with
  | Some summary => Ok summary
  | None => _ml_local_summary paper research_question
  end.

End WithFormat.

End LocalSummary.

(* ===================================================================== *)
(** ** services/data_manager.py *)
(* ===================================================================== *)

(** The [ml_insights] dictionary of a search result. *)
Record Insights : Type := mkInsights {
  paper_clusters : list (Z * list loc);
  avg_relevance : Q;
  high_confidence_count : nat;
  recent_papers_ratio : Q
}.

(** One entry of [results['papers']]: [{'paper': paper, 'summary': summary}]. *)
Record SummaryEntry : Type := mkSummaryEntry {
  entry_paper : loc;
  entry_summary : Summary
}.

(** The dictionary [search_and_analyze_ml] returns.  The short form has
    only [papers] (empty), [consensus_meter] ([None]) and [ml_insights]
    (empty): an absent key and the empty dictionary are [None] here. *)
Record Results : Type := mkResults {
  res_question : option string;
  res_papers : list SummaryEntry;
  res_consensus_meter : option ConsensusResult;
  res_ml_insights : option Insights;
  res_total_found : option nat
}.

(** One entry of the search history. *)
Record SearchLog : Type := mkSearchLog {
  log_timestamp : string;
  log_question : string;
  log_num_papers : nat;
  log_consensus : string;
  log_ml_confidence : Q
}.

(** [DataManager.session_data] *)
Record SessionData : Type := mkSessionData {
  searches : list SearchLog;
  session_papers : list loc;
  chat_history : list (string * string);
  session_ml_insights : option Insights
}.

(** The dictionary [get_session_stats] returns; with no search yet it has
    the key [total_searches] only. *)
Record SessionStats : Type := mkSessionStats {
  total_searches : nat;
  avg_papers_per_search : option Q;
  recent_searches : option (list SearchLog);
  consensus_distribution : option (list (string * nat))
}.

Module DataManager.

Local Open Scope string_scope.

(** [DataManager.__init__] *)
Definition init : SessionData := mkSessionData [] [] [] None.

(** [DataManager.save_session].  [now] is what
    [datetime.now().isoformat()] reads.  The entry is built before it is
    appended; [results['consensus_meter']] being [None] makes [.get]
    raise, which the [except] swallows: nothing is written then. *)
Definition save_session (now : string) (search_results : Results)
    (history : list (string * string)) (d : SessionData) : SessionData :=
  match res_consensus_meter search_results with
  | None => d
  | Some meter =>
      let entry :=
        mkSearchLog now
          (match res_question search_results with Some q => q | None => EmptyString end)
          (List.length (res_papers search_results))
          (consensus meter)
          (confidence meter) in
      mkSessionData (searches d ++ [entry]) (session_papers d) history
                    (res_ml_insights search_results)
  end.

(** [d[k] = v] on a dictionary: an existing key keeps its place. *)
Fixpoint dict_set (k : string) (v : nat) (d : list (string * nat))
    : list (string * nat) :=
  match d with
  | [] => [(k, v)]
  | (k', v') :: rest =>
      if String.eqb k' k then (k', v) :: rest else (k', v') :: dict_set k v rest
  end.

(** [len([s for s in searches if s['consensus'] == verdict])] *)
Definition count_consensus (verdict : string) (l : list SearchLog) : nat :=
  List.length (filter (fun s => String.eqb (log_consensus s) verdict) l).

(** [l[-5:]] *)
Definition last_five {A} (l : list A) : list A :=
  skipn (List.length l - 5) l.

(** [DataManager.get_session_stats] *)
Definition get_session_stats (d : SessionData) : SessionStats :=
  match searches d with
  | [] => mkSessionStats 0 None None None
  | _ :: _ =>
      mkSessionStats
        (List.length (searches d))
        (Some (Num.np_mean
                 (map (fun s => inject_Z (Z.of_nat (log_num_papers s))) (searches d))))
        (Some (last_five (searches d)))
        (Some (fold_left
                 (fun dist search =>
                    dict_set (log_consensus search)
                             (count_consensus (log_consensus search) (searches d))
                             dist)
                 (searches d) []))
  end.

End DataManager.

(* ===================================================================== *)
(** ** core/research_assistant.py *)
(* ===================================================================== *)

(** A [ChatbotService] as its constructor leaves it. *)
Record Chatbot : Type := mkChatbot {
  chatbot_papers : list loc;
  chatbot_summaries : list Summary;
  chatbot_history : list (string * string);
  chatbot_key : option string
}.

(** An [MLResearchAssistant]: the processor (with the store of papers), the
    API key of the summarizer, the data manager and the attributes set by a
    search. *)
Record Assistant : Type := mkAssistant {
  ml_processor : State;
  summarizer_key : option string;
  data_manager : SessionData;
  current_papers : list loc;
  current_summaries : list Summary;
  chatbot : option Chatbot
}.

(** What a search reads from outside: the scholarly API (it builds the
    [Paper] objects, so it may extend the store), the remote summarizer, the
    clock, the text of an exception, float formatting and the API key of the
    environment. *)
Record World : Type := mkWorld {
  search_papers : string -> Z -> heap -> result (option (list loc)) * heap;
  gemini_summary : Paper -> string -> option Summary;
  clock : string;
  str_exn : exn -> string;
  format_2f : Q -> string;
  env_gemini_key : option string
}.

Module MLResearchAssistant.

Import StrMore LocalSummary.
Local Open Scope string_scope.

Section WithWorld.

Variable sk : Backend.
Variable w : World.

(** [{"papers": [], "consensus_meter": None, "ml_insights": {}}] *)
Definition no_results : Results := mkResults None [] None None None.

(** The papers a search came back with: none when the call raised or
    answered [None]. *)
Definition found_papers (fetched : result (option (list loc))) : list loc :=
  match fetched with
  | Ok (Some papers) => papers
  | Ok None => []
  | Raise _ => []
  end.

(** A key counts when it is a non-empty text. *)
Definition truthy (key : option string) : bool :=
  match key with
  | Some k => negb (String.eqb k EmptyString)
  | None => false
  end.

(** The summary put in when summarizing a paper raises. *)
Definition failed_summary (e : exn) : Summary :=
  mkSummary "Summary generation failed" "Not available" "Unknown" "Unknown"
            ("Error: " ++ str_exn w e) "Analysis incomplete".

(** The summary of one paper, as the loop records it. *)
Definition summary_or_failure (key : option string) (h : heap)
    (research_question : string) (paper : loc) : Summary :=
  match summarize_with_ml (format_2f w) key (gemini_summary w)
          (h paper) research_question with
  | Ok summary => summary
  | Raise e => failed_summary e
  end.

(** The loop over the papers: one entry for each, in order. *)
Fixpoint summarize_all (key : option string) (h : heap) (papers : list loc)
    (research_question : string) (paper_summaries : list SummaryEntry)
    : list SummaryEntry :=
  match papers with
  | [] => paper_summaries
  | paper :: rest =>
      let summary :=
        match summarize_with_ml (format_2f w) key (gemini_summary w)
                (h paper) research_question with
        | Ok summary => summary
        | Raise e => failed_summary e
        end in
      summarize_all key h rest research_question
        (paper_summaries ++ [mkSummaryEntry paper summary])
  end.

(** The [ml_insights] of the result. *)
Definition insights_of (s : State) (papers : list loc) : Insights :=
  mkInsights
    (ClusterView.get_paper_clusters s)
    (Num.np_mean (map (fun p => ml_relevance_score (st_heap s p)) papers))
    (MLSummarizationService.count
       (fun p => Num.Qlt_bool 0.7 (ml_summary_confidence (st_heap s p))) papers)
    (MLSummarizationService.of_nat
       (MLSummarizationService.count
          (fun p => (2020 <=? year (st_heap s p))%Z) papers)
     / MLSummarizationService.of_nat (List.length papers)).

(** With the state [s] of the processor replaced. *)
Definition with_processor (a : Assistant) (s : State) : Assistant :=
  mkAssistant s (summarizer_key a) (data_manager a) (current_papers a)
              (current_summaries a) (chatbot a).

Definition with_heap (s : State) (h : heap) : State :=
  mkState h (paper_vectors s) (papers_data s) (calls s).

(** [MLResearchAssistant.search_and_analyze_ml].  Output to the page and
    the delay of the progress bar leave no trace in the result. *)
Definition search_and_analyze_ml (research_question : string) (num_papers : Z)
    (a : Assistant) : Results * Assistant :=
  if (String.eqb research_question EmptyString
      || String.eqb (strip research_question) EmptyString)%bool
  then (no_results, a)
  else
    let (fetched, h1) :=
      search_papers w (strip research_question) num_papers
                    (st_heap (ml_processor a)) in
    let a1 := with_processor a (with_heap (ml_processor a) h1) in
    match fetched with
    | Raise _ => (no_results, a1)
    | Ok None => (no_results, a1)
    | Ok (Some []) => (no_results, a1)
    | Ok (Some (first :: others)) =>
        let found := first :: others in
        let (processed, s2) :=
          MLPaperProcessor.process_papers sk found research_question
                                          (ml_processor a1) in
        let papers := match processed with Ok l => l | Raise _ => found end in
        let consensus_meter :=
          MLSummarizationService.generate_ml_consensus sk (st_heap s2) papers
                                                       research_question in
        let paper_summaries :=
          summarize_all (summarizer_key a) (st_heap s2) papers
                        research_question [] in
        match paper_summaries with
        | [] => (no_results, with_processor a1 s2)
        | _ :: _ =>
            let summaries := map entry_summary paper_summaries in
            let bot :=
              mkChatbot papers summaries []
                        (if truthy (summarizer_key a) then summarizer_key a
                         else env_gemini_key w) in
            let ml_insights := insights_of s2 papers in
            let results :=
              mkResults (Some research_question) paper_summaries
                        (Some consensus_meter) (Some ml_insights)
                        (Some (List.length papers)) in
            (results,
             mkAssistant s2 (summarizer_key a)
               (DataManager.save_session (clock w) results [] (data_manager a))
               papers summaries (Some bot))
        end
    end.

End WithWorld.

End MLResearchAssistant.

(* ===================================================================== *)
(** ** More concrete inputs *)
(* ===================================================================== *)

Module MoreExamples.

Import Examples.
Local Open Scope string_scope.

(** The toy back end with the similarity of every row at one half. *)
Definition steady : Backend :=
  mkBackend (fit_transform toy)
            (fun X _ => Ok (map (fun _ => [0.5]) X))
            (kmeans_fit_predict toy) (np_tanh toy) (format_1f toy).

(** A world whose API always finds the papers 0, 1 and 5 of the store,
    with no remote summarizer. *)
Definition desk : World :=
  mkWorld (fun _ _ h => (Ok (Some [0; 1; 5]%nat), h))
          (fun _ _ => None)
          "2024-05-01T10:00:00"
          (fun _ => "unsupported operand")
          (fun _ => "0.50")
          None.

(** An assistant before its first search, over the library. *)
Definition newcomer : Assistant :=
  mkAssistant fresh None DataManager.init [] [] None.

(** A session with three logged searches. *)
Definition three_searches : SessionData :=
  mkSessionData
    [mkSearchLog "t1" "sleep" 3 "mixed" 0.5;
     mkSearchLog "t2" "naps" 2 "error" 0;
     mkSearchLog "t3" "dreams" 4 "mixed" 0.4]
    [] [] None.

End MoreExamples.

(* ===================================================================== *)
(** * Properties *)
(* ===================================================================== *)

(** ** Numbers *)

Module NumFacts.

Import Num.

Lemma Qlt_bool_iff (x y : Q) : Qlt_bool x y = true <-> x < y.
Proof.
  unfold Qlt_bool. rewrite negb_true_iff. split; intro H.
  - apply Qnot_le_lt. intro Hle. apply Qle_bool_iff in Hle. congruence.
  - destruct (Qle_bool y x) eqn:E; [|reflexivity].
    apply Qle_bool_iff in E. exfalso. apply (Qlt_not_le _ _ H E).
Qed.

Lemma Qlt_bool_false_iff (x y : Q) : Qlt_bool x y = false <-> y <= x.
Proof. unfold Qlt_bool. rewrite negb_false_iff. apply Qle_bool_iff. Qed.

Lemma Qle_bool_false_iff (x y : Q) : Qle_bool x y = false <-> y < x.
Proof.
  split; intro H.
  - apply Qnot_le_lt. intro Hle. apply Qle_bool_iff in Hle. congruence.
  - destruct (Qle_bool x y) eqn:E; [|reflexivity].
    apply Qle_bool_iff in E. exfalso. apply (Qlt_not_le _ _ H E).
Qed.

Lemma Qle_bool_compat (x x' y y' : Q) :
  x == x' -> y == y' -> Qle_bool x y = Qle_bool x' y'.
Proof.
  intros Hx Hy.
  destruct (Qle_bool x y) eqn:E1, (Qle_bool x' y') eqn:E2; try reflexivity.
  - apply Qle_bool_iff in E1. apply Qle_bool_false_iff in E2.
    rewrite Hx, Hy in E1. exfalso. apply (Qlt_not_le _ _ E2 E1).
  - apply Qle_bool_iff in E2. apply Qle_bool_false_iff in E1.
    rewrite <- Hx, <- Hy in E2. exfalso. apply (Qlt_not_le _ _ E1 E2).
Qed.

Lemma Qlt_bool_compat (x x' y y' : Q) :
  x == x' -> y == y' -> Qlt_bool x y = Qlt_bool x' y'.
Proof.
  intros Hx Hy. unfold Qlt_bool. f_equal. now apply Qle_bool_compat.
Qed.

Lemma sum_app_one (l : list Q) (x : Q) : sum (l ++ [x]) = sum l + x.
Proof. unfold sum. rewrite fold_left_app. reflexivity. Qed.

Lemma fold_left_Qplus_shift (l : list Q) (a : Q) :
  fold_left Qplus l a == a + fold_left Qplus l 0.
Proof.
  revert a. induction l as [|x l IH]; intro a; simpl.
  - ring.
  - rewrite (IH (a + x)), (IH (0 + x)). ring.
Qed.

Lemma sum_cons (x : Q) (l : list Q) : sum (x :: l) == x + sum l.
Proof.
  unfold sum. simpl. rewrite fold_left_Qplus_shift. ring.
Qed.

(** The mean of four numbers, as [np.mean] computes it. *)
Lemma np_mean_four (a b c d : Q) :
  np_mean [a; b; c; d] == (a + b + c + d) / 4.
Proof.
  unfold np_mean, sum. simpl. field.
Qed.

(** [min(x, 1.0)] and [min(x, 1)] are the same number. *)
Lemma Qmin_one (x : Q) : Qmin x 1.0 == Qmin x 1.
Proof.
  destruct (Q.min_spec x 1.0) as [[H1 ->]|[H1 ->]];
    destruct (Q.min_spec x 1) as [[H2 ->]|[H2 ->]]; try reflexivity.
  - assert (E : 1.0 == 1) by reflexivity. rewrite E in H1.
    exfalso. apply (Qlt_not_le _ _ H1 H2).
  - assert (E : 1.0 == 1) by reflexivity. rewrite E in H1.
    exfalso. apply (Qlt_not_le _ _ H2 H1).
Qed.

Lemma sum_bounds (l : list Q) (lo hi : Q) :
  Forall (fun x => lo <= x /\ x <= hi) l ->
  inject_Z (Z.of_nat (List.length l)) * lo <= sum l /\
  sum l <= inject_Z (Z.of_nat (List.length l)) * hi.
Proof.
  induction 1 as [|x l [Hlo Hhi] _ [IHlo IHhi]].
  - unfold sum; simpl. split; ring_simplify; apply Qle_refl.
  - rewrite sum_cons.
    replace (List.length (x :: l)) with (S (List.length l)) by reflexivity.
    rewrite Nat2Z.inj_succ. unfold Z.succ. rewrite inject_Z_plus.
    split.
    + setoid_replace ((inject_Z (Z.of_nat (List.length l)) + inject_Z 1) * lo)
        with (lo + inject_Z (Z.of_nat (List.length l)) * lo) by ring.
      now apply Qplus_le_compat.
    + setoid_replace ((inject_Z (Z.of_nat (List.length l)) + inject_Z 1) * hi)
        with (hi + inject_Z (Z.of_nat (List.length l)) * hi) by ring.
      now apply Qplus_le_compat.
Qed.

End NumFacts.

(** ** The stable descending sort *)

Module SortFacts.

Import Num NumFacts.

Section Sort.

Context {A : Type} (key : A -> Q).

Lemma insert_desc_perm (x : A) (l : list A) :
  Permutation (x :: l) (insert_desc key x l).
Proof.
  induction l as [|y l IH]; simpl.
  - apply Permutation_refl.
  - destruct (Qlt_bool (key x) (key y)).
    + eapply perm_trans; [apply perm_swap|]. now apply perm_skip.
    + apply Permutation_refl.
Qed.

Lemma sort_desc_perm (l : list A) : Permutation l (sort_desc key l).
Proof.
  induction l as [|x l IH]; simpl.
  - constructor.
  - eapply perm_trans; [apply perm_skip, IH|]. apply insert_desc_perm.
Qed.

Lemma insert_desc_sorted (x : A) (l : list A) :
  StronglySorted (ge_key key) l -> StronglySorted (ge_key key) (insert_desc key x l).
Proof.
  induction 1 as [|y l Hs IH Hall]; simpl.
  - repeat constructor.
  - destruct (Qlt_bool (key x) (key y)) eqn:E.
    + constructor; [exact IH|].
      apply Qlt_bool_iff in E.
      eapply Permutation_Forall; [apply insert_desc_perm|].
      constructor; [unfold ge_key; now apply Qlt_le_weak | exact Hall].
    + apply Qlt_bool_false_iff in E.
      constructor; [now constructor|].
      constructor; [exact E|].
      eapply Forall_impl; [|exact Hall].
      intros a Ha. unfold ge_key in *. eapply Qle_trans; eassumption.
Qed.

Lemma sort_desc_sorted (l : list A) : StronglySorted (ge_key key) (sort_desc key l).
Proof.
  induction l as [|x l IH]; simpl.
  - constructor.
  - now apply insert_desc_sorted.
Qed.

(** Stability, seen through any test that only looks at the key: the
    elements that pass it come out in the order they went in. *)
Lemma insert_desc_filter (f : A -> bool) (x : A) (l : list A) :
  (forall a, key x < key a -> f x = true -> f a = false) ->
  filter f (insert_desc key x l) = filter f (x :: l).
Proof.
  intro Hf. induction l as [|y l IH]; [reflexivity|].
  simpl insert_desc. destruct (Qlt_bool (key x) (key y)) eqn:E; [|reflexivity].
  apply Qlt_bool_iff in E.
  change (filter f (y :: insert_desc key x l))
    with (if f y then y :: filter f (insert_desc key x l)
          else filter f (insert_desc key x l)).
  rewrite IH. simpl.
  destruct (f x) eqn:Ex; [|reflexivity].
  now rewrite (Hf y E eq_refl).
Qed.

Lemma sort_desc_stable (v : Q) (l : list A) :
  filter (fun a => Qeq_bool (key a) v) (sort_desc key l)
  = filter (fun a => Qeq_bool (key a) v) l.
Proof.
  induction l as [|x l IH]; [reflexivity|].
  simpl sort_desc. rewrite insert_desc_filter.
  - simpl. now rewrite IH.
  - intros a Hlt Hx. apply Qeq_bool_iff in Hx.
    destruct (Qeq_bool (key a) v) eqn:Ea; [|reflexivity].
    apply Qeq_bool_iff in Ea. rewrite Hx, Ea in Hlt.
    exfalso. apply (Qlt_irrefl _ Hlt).
Qed.

(** In a list sorted this way, a strictly larger key stands strictly
    earlier. *)
Lemma sorted_precedes (l : list A) :
  StronglySorted (ge_key key) l ->
  forall i j a b,
    nth_error l i = Some a -> nth_error l j = Some b ->
    key b < key a -> (i < j)%nat.
Proof.
  induction 1 as [|x l Hs IH Hall]; intros i j a b Hi Hj Hlt.
  - destruct i; discriminate.
  - destruct i as [|i], j as [|j]; simpl in *.
    + inversion Hi; inversion Hj; subst. exfalso. apply (Qlt_irrefl _ Hlt).
    + lia.
    + inversion Hj; subst.
      apply nth_error_In in Hi. rewrite Forall_forall in Hall.
      specialize (Hall _ Hi). unfold ge_key in Hall.
      exfalso. apply (Qlt_not_le _ _ Hlt Hall).
    + apply -> Nat.succ_lt_mono. eapply IH; eassumption.
Qed.

End Sort.

End SortFacts.

(** ** The store and the monad *)

Module StoreFacts.

Import PaperModel.

Lemma heap_update_same (h : heap) (l : loc) (f : Paper -> Paper) :
  heap_update h l f l = f (h l).
Proof. unfold heap_update. now rewrite Nat.eqb_refl. Qed.

Lemma heap_update_other (h : heap) (l l' : loc) (f : Paper -> Paper) :
  l' <> l -> heap_update h l f l' = h l'.
Proof.
  intro H. unfold heap_update.
  destruct (Nat.eqb l' l) eqn:E; [|reflexivity].
  apply Nat.eqb_eq in E. contradiction.
Qed.

Lemma same_record_refl (p : Paper) : same_record p p.
Proof. unfold same_record. repeat split. Qed.

Lemma same_record_trans (p q r : Paper) :
  same_record p q -> same_record q r -> same_record p r.
Proof.
  unfold same_record. intros H1 H2.
  decompose [and] H1. decompose [and] H2.
  repeat split; congruence.
Qed.

Lemma same_record_sym (p q : Paper) : same_record p q -> same_record q p.
Proof.
  unfold same_record. intro H. decompose [and] H. repeat split; congruence.
Qed.

Lemma same_record_set_relevance (v : Q) (p : Paper) :
  same_record p (set_ml_relevance_score v p).
Proof. unfold same_record. repeat split. Qed.

Lemma same_record_set_cluster (v : Z) (p : Paper) :
  same_record p (set_ml_cluster v p).
Proof. unfold same_record. repeat split. Qed.

Lemma same_record_set_confidence (v : Q) (p : Paper) :
  same_record p (set_ml_summary_confidence v p).
Proof. unfold same_record. repeat split. Qed.

Lemma same_record_heap_update (h : heap) (l : loc) (f : Paper -> Paper) :
  (forall p, same_record p (f p)) ->
  forall l', same_record (h l') (heap_update h l f l').
Proof.
  intros Hf l'. unfold heap_update.
  destruct (Nat.eqb l' l); [apply Hf | apply same_record_refl].
Qed.

Lemma heap_frame_refl (locs : list loc) (h : heap) : heap_frame locs h h.
Proof.
  split; [intro; apply same_record_refl | reflexivity].
Qed.

Lemma heap_frame_trans (locs : list loc) (h1 h2 h3 : heap) :
  heap_frame locs h1 h2 -> heap_frame locs h2 h3 -> heap_frame locs h1 h3.
Proof.
  intros [Hr1 Hf1] [Hr2 Hf2]. split.
  - intro l. eapply same_record_trans; [apply Hr1 | apply Hr2].
  - intros l Hl. rewrite Hf2, Hf1; auto.
Qed.

Lemma heap_frame_weaken (locs locs' : list loc) (h h' : heap) :
  incl locs locs' -> heap_frame locs h h' -> heap_frame locs' h h'.
Proof.
  intros Hincl [Hr Hf]. split; [assumption|].
  intros l Hl. apply Hf. intro Hin. apply Hl, Hincl, Hin.
Qed.

Lemma heap_frame_update (h : heap) (l : loc) (f : Paper -> Paper) :
  (forall p, same_record p (f p)) ->
  heap_frame [l] h (heap_update h l f).
Proof.
  intro Hf. split.
  - now apply same_record_heap_update.
  - intros l' Hl'. apply heap_update_other. intro; subst. apply Hl'. now left.
Qed.

Lemma frame_refl (locs : list loc) (s : State) : frame locs s s.
Proof.
  unfold frame. do 3 (split; [reflexivity|]). apply heap_frame_refl.
Qed.

Lemma frame_trans (locs : list loc) (s1 s2 s3 : State) :
  frame locs s1 s2 -> frame locs s2 s3 -> frame locs s1 s3.
Proof.
  intros (Hv1 & Hd1 & Hc1 & Hh1) (Hv2 & Hd2 & Hc2 & Hh2).
  unfold frame. do 3 (split; [congruence|]).
  eapply heap_frame_trans; eassumption.
Qed.

Lemma frame_weaken (locs locs' : list loc) (s s' : State) :
  incl locs locs' -> frame locs s s' -> frame locs' s s'.
Proof.
  intros Hincl (Hv & Hd & Hc & Hh).
  unfold frame. do 3 (split; [assumption|]).
  eapply heap_frame_weaken; eassumption.
Qed.

(** One attribute assignment. *)
Lemma frame_modify_paper (l : loc) (f : Paper -> Paper) (s : State) :
  (forall p, same_record p (f p)) ->
  frame [l] s (snd (M.modify_paper l f s)).
Proof.
  intro Hf. unfold frame, M.modify_paper; simpl.
  do 3 (split; [reflexivity|]). now apply heap_frame_update.
Qed.

End StoreFacts.

(** ** The loops of [process_papers] *)

Module LoopFacts.

Import PaperModel StoreFacts MLPaperProcessor.

Ltac run_monad :=
  unfold M.bind, M.ret, M.lift, M.call, M.raise, M.try_except,
         M.get_heap, M.modify_paper, M.set_paper_vectors, M.set_papers_data
    in *.

Lemma confidence_factors_same_record (s : Q) (cit : Z) (p p' : Paper) :
  same_record p p' -> confidence_factors s cit p = confidence_factors s cit p'.
Proof.
  intros (_ & _ & Hy & Ha & _).
  unfold confidence_factors, abstract_quality, recency.
  now rewrite Hy, Ha.
Qed.

(** One iteration: whatever its outcome, it touches the ML fields of its
    paper only. *)
Lemma update_paper_frame (i : nat) (paper : loc) (sims : list Q)
    (clusters : list Z) (s s' : State) (r : result unit) :
  update_paper i paper sims clusters s = (r, s') -> frame [paper] s s'.
Proof.
  unfold update_paper. run_monad.
  destruct (index sims i) as [sv|e]; simpl.
  2:{ intro H; inversion H; subst. apply frame_refl. }
  destruct (index clusters i) as [cv|e]; simpl.
  2:{ intro H; inversion H; subst.
      apply (frame_modify_paper paper (set_ml_relevance_score sv) s).
      apply same_record_set_relevance. }
  set (s1 := snd (M.modify_paper paper (set_ml_relevance_score sv) s)).
  set (s2 := snd (M.modify_paper paper (set_ml_cluster cv) s1)).
  assert (F1 : frame [paper] s s1)
    by (apply frame_modify_paper, same_record_set_relevance).
  assert (F2 : frame [paper] s1 s2)
    by (apply frame_modify_paper, same_record_set_cluster).
  destruct (as_number _) as [cit|e]; simpl; intro H; inversion H; subst.
  - eapply frame_trans; [exact F1|]. eapply frame_trans; [exact F2|].
    apply (frame_modify_paper paper _ s2). apply same_record_set_confidence.
  - eapply frame_trans; [exact F1 | exact F2].
Qed.

(** A successful iteration leaves its paper [updated]. *)
Lemma update_paper_ok (i : nat) (paper : loc) (sims : list Q)
    (clusters : list Z) (s s' : State) :
  update_paper i paper sims clusters s = (Ok tt, s') ->
  updated sims clusters (st_heap s' paper).
Proof.
  unfold update_paper, index, as_number. run_monad.
  destruct (nth_error sims i) as [sv|] eqn:Es; simpl; [|discriminate].
  destruct (nth_error clusters i) as [cv|] eqn:Ec; simpl; [|discriminate].
  rewrite !heap_update_same. simpl.
  destruct (citation_count (st_heap s paper)) as [cit|] eqn:Ecit; simpl;
    [|discriminate].
  intro H; inversion H; subst; clear H. simpl.
  rewrite !heap_update_same. simpl.
  exists i, sv, cv, cit. repeat split; auto.
Qed.

Lemma update_loop_frame (papers : list loc) (sims : list Q) (clusters : list Z) :
  forall (i : nat) (s s' : State) (r : result unit),
    update_loop i papers sims clusters s = (r, s') -> frame papers s s'.
Proof.
  induction papers as [|p rest IH]; intros i s s' r; simpl.
  - unfold M.ret. intro H; inversion H; subst. apply frame_refl.
  - unfold M.bind.
    destruct (update_paper i p sims clusters s) as [[[]|e] s1] eqn:E1.
    + intro H. apply update_paper_frame in E1. apply IH in H.
      eapply frame_trans.
      * eapply frame_weaken; [|exact E1]. intros x [->|[]]. now left.
      * eapply frame_weaken; [|exact H]. intros x Hx. now right.
    + intro H; inversion H; subst. apply update_paper_frame in E1.
      eapply frame_weaken; [|exact E1]. intros x [->|[]]. now left.
Qed.

(** A successful loop leaves every paper of the list [updated], also when
    a paper occurs in the list more than once. *)
Lemma update_loop_ok (papers : list loc) (sims : list Q) (clusters : list Z) :
  forall (i : nat) (s s' : State),
    update_loop i papers sims clusters s = (Ok tt, s') ->
    forall p, In p papers -> updated sims clusters (st_heap s' p).
Proof.
  induction papers as [|p rest IH]; intros i s s' Hrun q Hq; [contradiction|].
  simpl in Hrun. unfold M.bind in Hrun.
  destruct (update_paper i p sims clusters s) as [[[]|e] s1] eqn:E1;
    [|discriminate].
  destruct (in_dec Nat.eq_dec q rest) as [Hin|Hnotin].
  - eapply IH; eassumption.
  - destruct Hq as [->|Hq]; [|contradiction].
    apply update_loop_frame in Hrun. destruct Hrun as (_ & _ & _ & _ & Hf).
    rewrite (Hf q Hnotin). now apply update_paper_ok in E1.
Qed.

(** The [except] block always succeeds and gives every paper of the list
    the default scores. *)
Lemma has_defaults_set_defaults (p : Paper) : has_defaults (set_defaults p).
Proof. unfold has_defaults, set_defaults. simpl. repeat split. Qed.

Lemma same_record_set_defaults (p : Paper) : same_record p (set_defaults p).
Proof. unfold same_record, set_defaults. simpl. repeat split. Qed.

Lemma fallback_loop_spec (papers : list loc) :
  forall s : State,
  exists s',
    fallback_loop papers s = (Ok tt, s') /\
    frame papers s s' /\
    forall p, In p papers -> has_defaults (st_heap s' p).
Proof.
  induction papers as [|p rest IH]; intro s; simpl.
  - exists s. unfold M.ret. split; [reflexivity|]. split; [apply frame_refl|].
    intros ? [].
  - unfold M.bind.
    pose proof (frame_modify_paper p set_defaults s same_record_set_defaults) as F1.
    destruct (M.modify_paper p set_defaults s) as [r1 s1] eqn:E1.
    assert (r1 = Ok tt) by (unfold M.modify_paper in E1; now inversion E1).
    subst r1. simpl in F1.
    destruct (IH s1) as (s' & Hrun & F2 & Hdef).
    exists s'. split; [exact Hrun|]. split.
    + eapply frame_trans.
      * eapply frame_weaken; [|exact F1]. intros x [->|[]]. now left.
      * eapply frame_weaken; [|exact F2]. intros x Hx. now right.
    + intros q Hq.
      destruct (in_dec Nat.eq_dec q rest) as [Hin|Hnotin]; [now apply Hdef|].
      destruct Hq as [->|Hq]; [|contradiction].
      destruct F2 as (_ & _ & _ & _ & Hf). rewrite (Hf q Hnotin).
      unfold M.modify_paper in E1. inversion E1; subst; simpl.
      rewrite heap_update_same. apply has_defaults_set_defaults.
Qed.

Section Try.

Variable sk : Backend.

(** What the [try] block has done when it returns normally. *)
Lemma process_papers_try_ok (papers : list loc) (query : string)
    (s s' : State) (out : list loc) :
  process_papers_try sk papers query s = (Ok out, s') ->
  exists (sims : Matrix) (clusters : list Z) (s1 s2 : State),
    (exists X Y, cosine_similarity sk X Y = Ok sims) /\
    (if (Config.MIN_PAPERS_FOR_CLUSTERING <? Z.of_nat (List.length papers))%Z
     then exists X,
         kmeans_fit_predict sk
           (Z.min Config.MAX_CLUSTERS (Z.of_nat (List.length papers))) 42 X
         = Ok clusters
     else clusters = repeat 0%Z (List.length papers)) /\
    st_heap s1 = st_heap s /\
    update_loop 0 papers (flatten sims) clusters s1 = (Ok tt, s2) /\
    st_heap s' = st_heap s2 /\
    out = sort_desc (fun p => ml_relevance_score (st_heap s2 p)) papers /\
    papers_data s' = out.
Proof.
  unfold process_papers_try. run_monad.
  remember (Config.MIN_PAPERS_FOR_CLUSTERING <? Z.of_nat (List.length papers))%Z
    as big eqn:En.
  remember (Z.min Config.MAX_CLUSTERS (Z.of_nat (List.length papers))) as k eqn:Ek'.
  destruct (fit_transform sk _ _ _) as [vectors|e]; simpl; [|discriminate].
  destruct (row_last vectors) as [qv|e]; simpl; [|discriminate].
  destruct (cosine_similarity sk _ _) as [sims|e] eqn:Ecos; simpl; [|discriminate].
  destruct big.
  - destruct (kmeans_fit_predict sk _ _ _) as [clusters|e] eqn:Ek; simpl;
      [|discriminate].
    match goal with
    | |- context [update_loop 0 papers ?a ?b ?st] =>
        destruct (update_loop 0 papers a b st) as [[[]|e] s2] eqn:El;
        set (s1 := st) in *
    end; simpl; [|discriminate].
    intro H; inversion H; subst; clear H.
    exists sims, clusters, s1, s2.
    repeat split; eauto.
  - match goal with
    | |- context [update_loop 0 papers ?a ?b ?st] =>
        destruct (update_loop 0 papers a b st) as [[[]|e] s2] eqn:El;
        set (s1 := st) in *
    end; simpl; [|discriminate].
    intro H; inversion H; subst; clear H.
    exists sims, (repeat 0%Z (List.length papers)), s1, s2.
    repeat split; eauto.
Qed.

(** Whatever its outcome, the [try] block changes only ML fields of the
    papers of the list. *)
Lemma process_papers_try_frame (papers : list loc) (query : string)
    (s s' : State) (r : result (list loc)) :
  process_papers_try sk papers query s = (r, s') ->
  heap_frame papers (st_heap s) (st_heap s').
Proof.
  unfold process_papers_try. run_monad.
  remember (Config.MIN_PAPERS_FOR_CLUSTERING <? Z.of_nat (List.length papers))%Z
    as big eqn:En.
  remember (Z.min Config.MAX_CLUSTERS (Z.of_nat (List.length papers))) as k eqn:Ek'.
  destruct (fit_transform sk _ _ _) as [vectors|e]; simpl.
  2:{ intro H; inversion H; subst; simpl. apply heap_frame_refl. }
  destruct (row_last vectors) as [qv|e]; simpl.
  2:{ intro H; inversion H; subst; simpl. apply heap_frame_refl. }
  destruct (cosine_similarity sk _ _) as [sims|e]; simpl.
  2:{ intro H; inversion H; subst; simpl. apply heap_frame_refl. }
  assert (Hloop : forall clusters st,
             st_heap st = st_heap s ->
             (let (r0, s0) := update_loop 0 papers (flatten sims) clusters st in
              match r0 with
              | Ok _ =>
                  (Ok (sort_desc (fun paper => ml_relevance_score (st_heap s0 paper))
                         papers),
                   mkState (st_heap s0) (paper_vectors s0)
                     (sort_desc (fun paper => ml_relevance_score (st_heap s0 paper))
                        papers) (calls s0))
              | Raise e => (Raise e, s0)
              end) = (r, s') ->
             heap_frame papers (st_heap s) (st_heap s')).
  { intros clusters st Hst.
    destruct (update_loop 0 papers (flatten sims) clusters st)
      as [[[]|e] s0] eqn:El;
      intro H; inversion H; subst; simpl;
      apply update_loop_frame in El; destruct El as (_ & _ & _ & Hh);
      now rewrite <- Hst. }
  destruct big.
  - destruct (kmeans_fit_predict sk _ _ _) as [clusters|e]; simpl.
    + apply Hloop. reflexivity.
    + intro H; inversion H; subst; simpl. apply heap_frame_refl.
  - simpl. apply Hloop. reflexivity.
Qed.


(** The three ways [process_papers] can run. *)
Lemma process_papers_cases (papers : list loc) (query : string) (s : State) :
  (papers = [] /\ process_papers sk papers query s = (Ok [], s)) \/
  (papers <> [] /\
   exists out s',
     process_papers_try sk papers query s = (Ok out, s') /\
     process_papers sk papers query s = (Ok out, s')) \/
  (papers <> [] /\
   exists e s1 s',
     process_papers_try sk papers query s = (Raise e, s1) /\
     fallback_loop papers s1 = (Ok tt, s') /\
     process_papers sk papers query s = (Ok papers, s')).
Proof.
  destruct papers as [|p rest]; [left; split; reflexivity|right].
  unfold process_papers, M.try_except.
  destruct (process_papers_try sk (p :: rest) query s) as [[out|e] s1] eqn:E.
  - left. split; [discriminate|]. exists out, s1. split; reflexivity.
  - right. split; [discriminate|].
    destruct (fallback_loop_spec (p :: rest) s1) as (s' & Hf & _).
    exists e, s1, s'. split; [reflexivity|]. split; [exact Hf|].
    unfold M.bind, M.ret. now rewrite Hf.
Qed.

End Try.

End LoopFacts.

(** ** [MLPaperProcessor.process_papers] *)

Module ProcessorFacts.

Import Config PaperModel SpecWords NumFacts SortFacts StoreFacts LoopFacts.
Import MLPaperProcessor.

Section WithBackend.

Variable sk : Backend.

Lemma process_papers_empty (query : string) (s : State) :
  process_papers sk [] query s = (Ok [], s).
Proof. reflexivity. Qed.

(** When the [try] block raises, the [except] block runs: the list comes
    back as it was and every paper in it has the default scores. *)
Lemma process_papers_fallback (papers : list loc) (query : string)
    (s s1 : State) (e : exn) :
  process_papers_try sk papers query s = (Raise e, s1) ->
  exists s',
    process_papers sk papers query s = (Ok papers, s') /\
    forall p, In p papers -> has_defaults (st_heap s' p).
Proof.
  intro Htry.
  destruct (fallback_loop_spec papers s1) as (s' & Hf & Hfr & Hdef).
  destruct papers as [|p rest].
  - exists s. split; [reflexivity | intros ? []].
  - exists s'. split; [|assumption].
    unfold process_papers, M.try_except. rewrite Htry.
    unfold M.bind, M.ret. now rewrite Hf.
Qed.

(** When the [try] block returns, [process_papers] returns the same. *)
Lemma process_papers_normal (papers : list loc) (query : string)
    (s s' : State) (out : list loc) :
  papers <> [] ->
  process_papers_try sk papers query s = (Ok out, s') ->
  process_papers sk papers query s = (Ok out, s').
Proof.
  intros Hne Htry. destruct papers as [|p rest]; [contradiction|].
  unfold process_papers, M.try_except. now rewrite Htry.
Qed.

(** After a normal run every paper of the list is [updated]. *)
Lemma process_papers_try_updated (papers : list loc) (query : string)
    (s s' : State) (out : list loc) :
  process_papers_try sk papers query s = (Ok out, s') ->
  exists (sims : Matrix) (clusters : list Z),
    (exists X Y, cosine_similarity sk X Y = Ok sims) /\
    (if (MIN_PAPERS_FOR_CLUSTERING <? Z.of_nat (List.length papers))%Z
     then exists X,
         kmeans_fit_predict sk
           (Z.min MAX_CLUSTERS (Z.of_nat (List.length papers))) 42 X
         = Ok clusters
     else clusters = repeat 0%Z (List.length papers)) /\
    forall p, In p papers -> updated (flatten sims) clusters (st_heap s' p).
Proof.
  intro Htry.
  destruct (process_papers_try_ok sk _ _ _ _ _ Htry)
    as (sims & clusters & s1 & s2 & Hcos & Hcl & _ & Hloop & Hh & _).
  exists sims, clusters. split; [exact Hcos|]. split; [exact Hcl|].
  intros p Hp. rewrite Hh. eapply update_loop_ok; eassumption.
Qed.

Lemma all_equal_sorted {A} (key : A -> Q) (c : Q) (l : list A) :
  Forall (fun a => key a = c) l -> StronglySorted (ge_key key) l.
Proof.
  induction 1 as [|x l Hx Hl IH]; constructor; [exact IH|].
  eapply Forall_impl; [|exact Hl].
  intros a Ha. unfold ge_key. rewrite Hx, Ha. apply Qle_refl.
Qed.


Lemma abstract_quality_by_length (p : Paper) :
  abstract_quality p
  = if Nat.ltb 100 (String.length (abstract p)) then 1.0 else 0.5.
Proof.
  unfold abstract_quality.
  destruct (String.eqb (abstract p) EmptyString) eqn:E; [|reflexivity].
  apply String.eqb_eq in E. rewrite E. reflexivity.
Qed.

Lemma updated_confidence (sims : list Q) (clusters : list Z) (p : Paper) :
  updated sims clusters p ->
  exists cit,
    citation_count p = Some cit /\
    ml_summary_confidence p ==
      mean4 (ml_relevance_score p)
            (Qmin (inject_Z cit / 100) 1)
            (if Nat.ltb 100 (String.length (abstract p)) then 1 else 0.5)
            (if (2015 <=? year p)%Z then 1 else 0.7).
Proof.
  intros (i & sv & c & cit & _ & _ & Hrel & _ & Hcit & Hconf).
  exists cit. split; [exact Hcit|].
  rewrite Hconf, Hrel. unfold confidence_factors.
  rewrite np_mean_four, abstract_quality_by_length.
  unfold mean4, citation_factor, recency. rewrite Qmin_one.
  destruct (Nat.ltb 100 (String.length (abstract p)));
    destruct (2015 <=? year p)%Z; field.
Qed.

Lemma in_unit_interval_compat (x y : Q) :
  x == y -> in_unit_interval x -> in_unit_interval y.
Proof. unfold in_unit_interval. intros E [H0 H1]. rewrite <- E. now split. Qed.

Lemma mean4_in_unit_interval (a b c d : Q) :
  in_unit_interval a -> in_unit_interval b ->
  in_unit_interval c -> in_unit_interval d ->
  in_unit_interval (mean4 a b c d).
Proof.
  unfold in_unit_interval, mean4. intros [] [] [] [].
  split.
  - apply Qle_shift_div_l; [reflexivity|]. Lqa.lra.
  - apply Qle_shift_div_r; [reflexivity|]. Lqa.lra.
Qed.

Lemma citation_factor_in_unit_interval (cit : Z) :
  (0 <= cit)%Z -> in_unit_interval (Qmin (inject_Z cit / 100) 1).
Proof.
  intro Hc. split.
  - apply Q.min_glb; [|discriminate].
    apply Qle_shift_div_l; [reflexivity|].
    rewrite Qmult_0_l. change 0 with (inject_Z 0). now rewrite <- Zle_Qle.
  - apply Q.le_min_r.
Qed.

(** With similarities in the unit interval and citation counts that are
    not negative, the scores a run stores are in the unit interval. *)
Lemma scores_in_unit_interval
    (Hsim : similarities_in_unit_interval sk)
    (papers : list loc) (query : string) (s : State)
    (Hcit : forall p c, In p papers ->
              citation_count (st_heap s p) = Some c -> (0 <= c)%Z) :
  forall p, In p papers ->
    in_unit_interval
      (ml_relevance_score (st_heap (snd (process_papers sk papers query s)) p)) /\
    in_unit_interval
      (ml_summary_confidence (st_heap (snd (process_papers sk papers query s)) p)).
Proof.
  intros p Hp.
  destruct (process_papers_cases sk papers query s)
    as [[-> Hrun] | [[Hne (out & s' & Htry & Hrun)]
                    | [Hne (e & s1 & s' & Htry & Hfb & Hrun)]]].
  - contradiction.
  - rewrite Hrun; simpl.
    destruct (process_papers_try_updated _ _ _ _ _ Htry)
      as (sims & clusters & (X & Y & Hcos) & _ & Hupd).
    pose proof (process_papers_try_frame sk _ _ _ _ _ Htry) as [Hsame _].
    specialize (Hupd p Hp).
    assert (Hrel : in_unit_interval (ml_relevance_score (st_heap s' p))).
    { destruct Hupd as (i & sv & c & cit & Hs & _ & Hrel & _).
      rewrite Hrel. apply nth_error_In in Hs. unfold flatten in Hs.
      apply in_concat in Hs. destruct Hs as (row & Hrow & Hsv).
      apply Hsim in Hcos. rewrite Forall_forall in Hcos.
      specialize (Hcos row Hrow). rewrite Forall_forall in Hcos.
      now apply Hcos. }
    split; [exact Hrel|].
    destruct (updated_confidence _ _ _ Hupd) as (cit & Hc & Hconf).
    eapply in_unit_interval_compat; [symmetry; exact Hconf|].
    apply mean4_in_unit_interval.
    + exact Hrel.
    + apply citation_factor_in_unit_interval. apply (Hcit p cit Hp).
      destruct (Hsame p) as (_ & _ & _ & _ & _ & _ & _ & Hcc & _). congruence.
    + destruct (Nat.ltb _ _); split; discriminate.
    + destruct (2015 <=? _)%Z; split; discriminate.
  - destruct (process_papers_fallback _ _ _ _ _ Htry) as (s'' & Hrun' & Hdef).
    rewrite Hrun'; simpl. destruct (Hdef p Hp) as (-> & _ & ->).
    split; split; discriminate.
Qed.

End WithBackend.

End ProcessorFacts.

Module ProcessorClaims.

Import Config PaperModel SpecWords NumFacts SortFacts StoreFacts LoopFacts.
Import MLPaperProcessor ProcessorFacts.

(** C10.  For every paper list and query, [process_papers] returns
    normally, and the list it returns holds exactly the references it was
    given: a permutation of the input (so the count is the same), on the
    normal path and on the fallback path alike; in the store only the ML
    fields of those papers have changed, no paper is replaced. *)
Theorem process_papers_returns_the_input_papers
    (sk : Backend) (papers : list loc) (query : string) (s : State) :
  exists out s',
    process_papers sk papers query s = (Ok out, s') /\
    Permutation papers out /\
    List.length out = List.length papers /\
    heap_frame papers (st_heap s) (st_heap s').
Proof.
  destruct (process_papers_cases sk papers query s)
    as [[-> Hrun] | [[Hne (out & s' & Htry & Hrun)]
                    | [Hne (e & s1 & s' & Htry & Hfb & Hrun)]]].
  - exists [], s. repeat split; auto using same_record_refl.
  - exists out, s'. split; [exact Hrun|].
    destruct (process_papers_try_ok sk _ _ _ _ _ Htry)
      as (sims & clusters & s1 & s2 & _ & _ & _ & _ & _ & Hout & _).
    assert (Hperm : Permutation papers out)
      by (subst out; apply sort_desc_perm).
    split; [exact Hperm|]. split.
    + symmetry. now apply Permutation_length.
    + eapply process_papers_try_frame; eassumption.
  - exists papers, s'. split; [exact Hrun|].
    split; [apply Permutation_refl|]. split; [reflexivity|].
    eapply heap_frame_trans.
    + eapply process_papers_try_frame; eassumption.
    + destruct (fallback_loop_spec papers s1) as (s'' & Hf & Hfr & _).
      rewrite Hfb in Hf. inversion Hf; subst. now destruct Hfr as (_ & _ & _ & Hh).
Qed.

(** C6.  After processing, the returned list is in descending order of
    the stored relevance score: a paper with a strictly larger score
    stands strictly earlier; and the sort is stable: the papers that share
    a score come out in the order they went in. *)
Theorem process_papers_sorted_descending_stable
    (sk : Backend) (papers : list loc) (query : string) (s : State) :
  exists out s',
    process_papers sk papers query s = (Ok out, s') /\
    let score := fun p => ml_relevance_score (st_heap s' p) in
    StronglySorted (ge_key score) out /\
    (forall i j p1 p2,
        nth_error out i = Some p1 -> nth_error out j = Some p2 ->
        score p2 < score p1 -> (i < j)%nat) /\
    (forall v,
        filter (fun p => Qeq_bool (score p) v) out
        = filter (fun p => Qeq_bool (score p) v) papers).
Proof.
  assert (Hgoal : exists out s',
    process_papers sk papers query s = (Ok out, s') /\
    StronglySorted (ge_key (fun p => ml_relevance_score (st_heap s' p))) out /\
    (forall v,
        filter (fun p => Qeq_bool (ml_relevance_score (st_heap s' p)) v) out
        = filter (fun p => Qeq_bool (ml_relevance_score (st_heap s' p)) v) papers)).
  { destruct (process_papers_cases sk papers query s)
      as [[-> Hrun] | [[Hne (out & s' & Htry & Hrun)]
                      | [Hne (e & s1 & s' & Htry & Hfb & Hrun)]]].
    - exists [], s. split; [exact Hrun|]. split; [constructor | reflexivity].
    - exists out, s'. split; [exact Hrun|].
      destruct (process_papers_try_ok sk _ _ _ _ _ Htry)
        as (sims & clusters & s1 & s2 & _ & _ & _ & _ & Hh & Hout & _).
      rewrite Hh. subst out. split.
      + apply sort_desc_sorted.
      + intro v.
        apply (sort_desc_stable (fun p => ml_relevance_score (st_heap s2 p))).
    - exists papers, s'. split; [exact Hrun|]. split; [|reflexivity].
      destruct (process_papers_fallback sk _ _ _ _ _ Htry) as (s'' & Hrun' & Hdef).
      rewrite Hrun in Hrun'. inversion Hrun'; subst s''.
      apply (all_equal_sorted _ 0.5). apply Forall_forall.
      intros p Hp. now destruct (Hdef p Hp). }
  destruct Hgoal as (out & s' & Hrun & Hsorted & Hstable).
  exists out, s'. split; [exact Hrun|]. cbv zeta.
  split; [exact Hsorted|]. split; [|exact Hstable].
  intros i j p1 p2 Hi Hj Hlt.
  eapply (sorted_precedes _ out Hsorted); eassumption.
Qed.


(** C4.  When the [try] block of [process_papers] raises nothing, the
    confidence stored on every paper of the list is the arithmetic mean of
    four factors: the stored relevance; the citation count over 100,
    capped at 1; 1 for an abstract longer than 100 characters, else 0.5;
    1 for a year of 2015 or later, else 0.7.  In particular relevance 0.8,
    200 citations, a 150-character abstract and year 2021 give 0.95. *)
Theorem confidence_is_mean_of_four_factors
    (sk : Backend) (papers : list loc) (query : string) (s s1 : State)
    (out : list loc)
    (Hnormal : process_papers_try sk papers query s = (Ok out, s1)) :
  let s' := snd (process_papers sk papers query s) in
  (forall p, In p papers ->
     exists cit,
       citation_count (st_heap s' p) = Some cit /\
       ml_summary_confidence (st_heap s' p) ==
         mean4 (ml_relevance_score (st_heap s' p))
               (Qmin (inject_Z cit / 100) 1)
               (if Nat.ltb 100 (String.length (abstract (st_heap s' p)))
                then 1 else 0.5)
               (if (2015 <=? year (st_heap s' p))%Z then 1 else 0.7)) /\
  (forall p, String.length (abstract p) = 150%nat -> year p = 2021%Z ->
     Num.np_mean (confidence_factors 0.8 200 p) == 0.95).
Proof.
  cbv zeta. split.
  - intros p Hp.
    assert (Hne : papers <> []) by (intro; subst; contradiction).
    rewrite (process_papers_normal sk _ _ _ _ _ Hne Hnormal); simpl.
    destruct (process_papers_try_updated sk _ _ _ _ _ Hnormal)
      as (sims & clusters & _ & _ & Hupd).
    eapply updated_confidence, Hupd, Hp.
  - intros p Hlen Hyear. unfold confidence_factors.
    rewrite np_mean_four, abstract_quality_by_length. unfold recency, citation_factor.
    rewrite Hlen, Hyear. vm_compute. reflexivity.
Qed.

(** C2.  The scores are stored as computed: on the one-paper list whose
    similarity came out as [1 + 2^-52], [process_papers] returns normally
    and the stored relevance is that number, above 1, although clamping it
    as [Paper.__post_init__] does would give 1. *)
Theorem relevance_stored_without_clamping :
  let run := process_papers Examples.drifting [4%nat] "alpha beta gamma"
               Examples.fresh in
  let stored := ml_relevance_score (st_heap (snd run) 4%nat) in
  fst run = Ok [4%nat] /\
  stored == 1 + 1 / inject_Z (2 ^ 52) /\
  1 < stored /\
  ~ in_unit_interval stored /\
  clamp01 stored == 1.
Proof.
  cbv zeta.
  assert (Hs : ml_relevance_score
                 (st_heap (snd (process_papers Examples.drifting [4%nat]
                                  "alpha beta gamma" Examples.fresh)) 4%nat)
               = Examples.one_ulp_above_one) by (vm_compute; reflexivity).
  rewrite Hs.
  split; [vm_compute; reflexivity|].
  split; [reflexivity|].
  assert (Hlt : 1 < Examples.one_ulp_above_one) by (vm_compute; reflexivity).
  split; [exact Hlt|]. split.
  - intros [_ Hle]. apply (Qlt_not_le _ _ Hlt Hle).
  - vm_compute. reflexivity.
Qed.

End ProcessorClaims.

(** ** Binary64 *)

Module Binary64Facts.

Import Floats Binary64.

(** In double precision the threshold of the strong verdicts is the double
    [0.6]. *)
Lemma strong_threshold_is_0_6 : strong_threshold = (6 / 10)%float.
Proof. vm_compute. reflexivity. Qed.

(** The mean of the worked example is the double [0.95]. *)
Lemma example_mean_is_0_95 : example_mean = (95 / 100)%float.
Proof. vm_compute. reflexivity. Qed.

(** The cosine of the row of ["alpha beta gamma"] with itself is one unit
    in the last place above 1: the number [Examples.one_ulp_above_one]. *)
Lemma cosine_of_equal_rows_exceeds_one :
  (1 <? cosine tfidf_row tfidf_row)%float = true /\
  exists q, to_Q (cosine tfidf_row tfidf_row) = Some q /\
            q == Examples.one_ulp_above_one.
Proof.
  split; [vm_compute; reflexivity|].
  eexists. split; [vm_compute; reflexivity|]. vm_compute. reflexivity.
Qed.

End Binary64Facts.

(** ** [MLSummarizationService] *)

Module ConsensusFacts.

Import Config SpecWords Num NumFacts MLSummarizationService.

Lemma filter_none {A} (f : A -> bool) (l : list A) :
  (forall x, In x l -> f x = false) -> filter f l = [].
Proof.
  induction l as [|x l IH]; intro H; [reflexivity|].
  simpl. rewrite (H x (or_introl eq_refl)). apply IH.
  intros y Hy. apply H. now right.
Qed.

Section WithBackend.

Variable sk : Backend.

Lemma sentiment_analysis_some (p : Paper) (q : string) (cit : Z) :
  citation_count p = Some cit ->
  _ml_sentiment_analysis sk p q = Ok (sentiment_of sk p).
Proof.
  intro H. unfold _ml_sentiment_analysis, sentiment_of. now rewrite H.
Qed.

Lemma sentiment_analysis_none (p : Paper) (q : string) :
  citation_count p = None ->
  _ml_sentiment_analysis sk p q = Raise TypeError.
Proof.
  intro H. unfold _ml_sentiment_analysis. now rewrite H.
Qed.

(** A number below [-0.1] is not above [0.1]. *)
Lemma negative_not_positive (x : Q) :
  Qlt_bool x (-0.1) = true -> Qlt_bool 0.1 x = false.
Proof.
  intro H. apply Qlt_bool_iff in H. apply Qlt_bool_false_iff.
  apply Qlt_le_weak. eapply Qlt_trans; [exact H|]. reflexivity.
Qed.

(** The loop, with its accumulators: what a successful run has appended
    to each bucket. *)
Lemma sentiment_loop_ok (h : heap) (q : string) (papers : list loc) :
  forall pos neg pos' neg',
    sentiment_loop sk h papers q pos neg = Ok (pos', neg') ->
    Forall (fun p => citation_count (h p) <> None) papers /\
    pos' = pos ++ map (fun p => sentiment_of sk (h p) * ml_summary_confidence (h p))
                      (filter (goes_positive sk h) papers) /\
    neg' = neg ++ map (fun p => Qabs (sentiment_of sk (h p))
                                * ml_summary_confidence (h p))
                      (filter (goes_negative sk h) papers).
Proof.
  induction papers as [|p rest IH]; intros pos neg pos' neg' Hrun.
  - simpl in Hrun. inversion Hrun; subst.
    simpl. rewrite !app_nil_r. repeat split. constructor.
  - simpl in Hrun.
    destruct (citation_count (h p)) as [cit|] eqn:Ecit.
    2:{ rewrite (sentiment_analysis_none _ _ Ecit) in Hrun. discriminate. }
    rewrite (sentiment_analysis_some _ _ _ Ecit) in Hrun. simpl in Hrun.
    assert (Hp : citation_count (h p) <> None) by congruence.
    simpl filter. unfold goes_positive at 1, goes_negative at 1.
    destruct (Qlt_bool 0.1 (sentiment_of sk (h p))) eqn:Epos.
    + assert (Eneg : Qlt_bool (sentiment_of sk (h p)) (-0.1) = false).
      { destruct (Qlt_bool (sentiment_of sk (h p)) (-0.1)) eqn:E; [|reflexivity].
        apply negative_not_positive in E. congruence. }
      rewrite Eneg.
      destruct (IH _ _ _ _ Hrun) as (Hall & Hpos & Hneg).
      split; [now constructor|]. split; [|exact Hneg].
      rewrite Hpos, <- app_assoc. reflexivity.
    + destruct (Qlt_bool (sentiment_of sk (h p)) (-0.1)) eqn:Eneg.
      * destruct (IH _ _ _ _ Hrun) as (Hall & Hpos & Hneg).
        split; [now constructor|]. split; [exact Hpos|].
        rewrite Hneg, <- app_assoc. reflexivity.
      * destruct (IH _ _ _ _ Hrun) as (Hall & Hpos & Hneg).
        split; [now constructor|]. split; assumption.
Qed.

(** The loop raises only on a missing citation count. *)
Lemma sentiment_loop_total (h : heap) (q : string) (papers : list loc) :
  Forall (fun p => citation_count (h p) <> None) papers ->
  forall pos neg, exists pos' neg',
    sentiment_loop sk h papers q pos neg = Ok (pos', neg').
Proof.
  induction 1 as [|p rest Hp Hrest IH]; intros pos neg.
  - exists pos, neg. reflexivity.
  - simpl. destruct (citation_count (h p)) as [cit|] eqn:Ecit; [|contradiction].
    rewrite (sentiment_analysis_some _ _ _ Ecit). simpl.
    destruct (Qlt_bool 0.1 _); [apply IH|].
    destruct (Qlt_bool _ (-0.1)); apply IH.
Qed.

Lemma citation_counts_total (h : heap) (papers : list loc) :
  Forall (fun p => citation_count (h p) <> None) papers ->
  exists cs, citation_counts h papers = Ok cs.
Proof.
  induction 1 as [|p rest Hp Hrest [cs IH]].
  - exists []. reflexivity.
  - simpl. destruct (citation_count (h p)) as [cit|]; [|contradiction].
    simpl. rewrite IH. simpl. eauto.
Qed.

(** The fields of the result on the normal path. *)
Lemma generate_ml_consensus_normal (h : heap) (papers : list loc) (q : string)
    (pos neg : list Q) :
  papers <> [] ->
  sentiment_loop sk h papers q [] [] = Ok (pos, neg) ->
  exists r,
    generate_ml_consensus_try sk h papers q = Ok r /\
    generate_ml_consensus sk h papers q = r /\
    consensus r = classify (positive_percentage pos neg) (avg_confidence h papers) /\
    percentage r = Some (round (positive_percentage pos neg) 1) /\
    confidence r = round (avg_confidence h papers) 2 /\
    total_papers r = Some (List.length papers).
Proof.
  intros Hne Hrun.
  destruct (sentiment_loop_ok _ _ _ _ _ _ _ Hrun) as (Hall & _ & _).
  destruct (citation_counts_total h papers Hall) as (cs & Hcs).
  unfold generate_ml_consensus, generate_ml_consensus_try.
  destruct papers as [|p rest]; [contradiction|].
  rewrite Hrun. cbn [rbind]. rewrite Hcs. cbn [rbind].
  eexists. split; [reflexivity|]. repeat split.
Qed.

(** The source's thresholds are those of the decision table. *)
Lemma classify_is_decision_table (pct avg : Q) :
  classify pct avg = decision_table pct avg.
Proof.
  unfold classify, decision_table.
  unfold STRONG_POSITIVE_THRESHOLD, MODERATE_POSITIVE_THRESHOLD,
         STRONG_NEGATIVE_THRESHOLD, MODERATE_NEGATIVE_THRESHOLD,
         HIGH_CONFIDENCE_THRESHOLD, MEDIUM_CONFIDENCE_THRESHOLD.
  assert (E : Qlt_bool (0.7 - 0.1) avg = Qlt_bool 0.6 avg)
    by (apply Qlt_bool_compat; reflexivity).
  rewrite E. reflexivity.
Qed.

Lemma decision_table_compat (pct pct' avg avg' : Q) :
  pct == pct' -> avg == avg' ->
  decision_table pct avg = decision_table pct' avg'.
Proof.
  intros Hp Ha. unfold decision_table.
  rewrite (Qle_bool_compat 70 70 pct pct'), (Qle_bool_compat 55 55 pct pct'),
          (Qle_bool_compat pct pct' 30 30), (Qle_bool_compat pct pct' 45 45),
          (Qlt_bool_compat 0.6 0.6 avg avg'), (Qlt_bool_compat 0.5 0.5 avg avg');
    try reflexivity; assumption.
Qed.

End WithBackend.

End ConsensusFacts.

(** ** The keyword counters and the hyperbolic tangent *)

Module SentimentFacts.

Import Config MLSummarizationService.



Lemma count_le_length {A} (f : A -> bool) (l : list A) :
  (count f l <= List.length l)%nat.
Proof. unfold count. apply filter_length_le. Qed.



Local Open Scope R_scope.


End SentimentFacts.

(** ** Claims on the consensus and on the error paths *)

Module ConsensusClaims.

Import Config PaperModel SpecWords Num NumFacts.
Import MLSummarizationService ConsensusFacts SentimentFacts.

(** C1.  For every non-empty list of papers with integer citation counts,
    the verdict of [generate_ml_consensus] is the entry of the
    specification's decision table for the positive percentage and the
    average confidence, and for nothing else: the source's chain of tests
    is that table, and the table gives the same verdict for equal
    arguments.  In particular (72, 0.65) is strong_positive, (72, 0.55)
    moderate_positive and (48, 0.55) mixed. *)
Theorem consensus_follows_decision_table
    (sk : Backend) (h : heap) (papers : list loc) (question : string)
    (Hne : papers <> [])
    (Hcit : forall p, In p papers -> citation_count (h p) <> None) :
  (exists pos neg,
      sentiment_loop sk h papers question [] [] = Ok (pos, neg) /\
      consensus (generate_ml_consensus sk h papers question)
      = decision_table (positive_percentage pos neg) (avg_confidence h papers)) /\
  (forall pct avg, classify pct avg = decision_table pct avg) /\
  (forall pct pct' avg avg',
      pct == pct' -> avg == avg' ->
      decision_table pct avg = decision_table pct' avg') /\
  decision_table 72 0.65 = "strong_positive"%string /\
  decision_table 72 0.55 = "moderate_positive"%string /\
  decision_table 48 0.55 = "mixed"%string.
Proof.
  split; [|split; [|split; [|repeat split]]].
  - assert (Hall : Forall (fun p => citation_count (h p) <> None) papers)
      by now apply Forall_forall.
    destruct (sentiment_loop_total sk h question papers Hall [] [])
      as (pos & neg & Hrun).
    exists pos, neg. split; [exact Hrun|].
    destruct (generate_ml_consensus_normal sk h papers question pos neg Hne Hrun)
      as (r & _ & -> & Hc & _).
    rewrite Hc. apply classify_is_decision_table.
  - apply classify_is_decision_table.
  - apply decision_table_compat.
Qed.

(** C3.  In the aggregation loop (with [sentiment] what
    [_ml_sentiment_analysis] returns) a paper's confidence-weighted sentiment
    goes to the positive bucket exactly when its sentiment is above 0.1,
    to the negative bucket (as an absolute value) exactly when it is below
    -0.1, and a paper in between is in neither bucket; and when no
    sentiment leaves the dead zone both buckets are empty and the positive
    percentage is exactly 50.0, which is also the percentage reported. *)
Theorem dead_zone_and_neutral_percentage
    (sk : Backend) (h : heap) (papers : list loc) (question : string)
    (pos neg : list Q)
    (Hrun : sentiment_loop sk h papers question [] [] = Ok (pos, neg)) :
  let sentiment := fun p => sentiment_of sk (h p) in
  let weight := fun p => ml_summary_confidence (h p) in
  (forall p, In p papers ->
     _ml_sentiment_analysis sk (h p) question = Ok (sentiment p)) /\
  pos = map (fun p => sentiment p * weight p)
            (filter (fun p => Qlt_bool 0.1 (sentiment p)) papers) /\
  neg = map (fun p => Qabs (sentiment p) * weight p)
            (filter (fun p => Qlt_bool (sentiment p) (-0.1)) papers) /\
  (forall p, -0.1 <= sentiment p -> sentiment p <= 0.1 ->
     ~ In p (filter (fun p => Qlt_bool 0.1 (sentiment p)) papers) /\
     ~ In p (filter (fun p => Qlt_bool (sentiment p) (-0.1)) papers)) /\
  (pos = [] -> neg = [] -> positive_percentage pos neg = 50.0) /\
  ((forall p, In p papers -> -0.1 <= sentiment p /\ sentiment p <= 0.1) ->
     pos = [] /\ neg = [] /\
     positive_percentage pos neg = 50.0 /\
     (papers <> [] ->
      exists r, percentage (generate_ml_consensus sk h papers question) = Some r /\
                r == 50)).
Proof.
  cbv zeta.
  destruct (sentiment_loop_ok sk h question papers [] [] pos neg Hrun)
    as (Hall & Hpos & Hneg).
  simpl in Hpos, Hneg.
  split.
  { intros p Hp. rewrite Forall_forall in Hall. specialize (Hall p Hp).
    destruct (citation_count (h p)) as [cit|] eqn:Ecit; [|contradiction].
    eapply sentiment_analysis_some; eassumption. }
  split; [exact Hpos|]. split; [exact Hneg|]. split; [|split].
  - intros p Hlo Hhi. split; intro Hin; apply filter_In in Hin;
      destruct Hin as [_ Hin]; apply Qlt_bool_iff in Hin.
    + apply (Qlt_not_le _ _ Hin Hhi).
    + apply (Qlt_not_le _ _ Hin Hlo).
  - intros -> ->. reflexivity.
  - intro Hdead.
    assert (Epos : filter (goes_positive sk h) papers = []).
    { apply filter_none. intros p Hp. unfold goes_positive.
      apply Qlt_bool_false_iff. now destruct (Hdead p Hp). }
    assert (Eneg : filter (goes_negative sk h) papers = []).
    { apply filter_none. intros p Hp. unfold goes_negative.
      apply Qlt_bool_false_iff. now destruct (Hdead p Hp). }
    rewrite Epos in Hpos. rewrite Eneg in Hneg. simpl in Hpos, Hneg. subst pos neg.
    repeat split.
    intro Hne.
    destruct (generate_ml_consensus_normal sk h papers question [] [] Hne Hrun)
      as (r & _ & -> & _ & Hpct & _).
    rewrite Hpct. eexists. split; [reflexivity|]. vm_compute. reflexivity.
Qed.



(** C8.  On the empty list [process_papers] returns the list at once: the
    state, with the record of library calls, is as it was, whatever the
    back end; and [generate_ml_consensus] returns the verdict
    "insufficient_data" with confidence 0.0 and no insights. *)
Theorem empty_list_short_circuits
    (sk : Backend) (query : string) (s : State) (h : heap) :
  MLPaperProcessor.process_papers sk [] query s = (Ok [], s) /\
  calls (snd (MLPaperProcessor.process_papers sk [] query s)) = calls s /\
  paper_vectors (snd (MLPaperProcessor.process_papers sk [] query s))
  = paper_vectors s /\
  consensus (generate_ml_consensus sk h [] query) = "insufficient_data"%string /\
  confidence (generate_ml_consensus sk h [] query) = 0.0 /\
  ml_insights (generate_ml_consensus sk h [] query) = [].
Proof. repeat split. Qed.

(** C9.  No exception leaves the two entry points.  [process_papers]
    always returns a list; when its [try] block raises, it returns the
    input list and every paper of it has relevance 0.5, cluster 0 and
    confidence 0.5.  When the [try] block of [generate_ml_consensus]
    raises, the result is the verdict "error" with confidence 0.0 and no
    insights. *)
Theorem exceptions_do_not_propagate
    (sk : Backend) (papers : list loc) (query : string) (s : State) (h : heap) :
  (exists out s', MLPaperProcessor.process_papers sk papers query s = (Ok out, s')) /\
  (forall e s1,
      MLPaperProcessor.process_papers_try sk papers query s = (Raise e, s1) ->
      exists s',
        MLPaperProcessor.process_papers sk papers query s = (Ok papers, s') /\
        forall p, In p papers ->
          ml_relevance_score (st_heap s' p) = 0.5 /\
          ml_cluster (st_heap s' p) = 0%Z /\
          ml_summary_confidence (st_heap s' p) = 0.5) /\
  (forall e,
      generate_ml_consensus_try sk h papers query = Raise e ->
      consensus (generate_ml_consensus sk h papers query) = "error"%string /\
      confidence (generate_ml_consensus sk h papers query) = 0.0 /\
      ml_insights (generate_ml_consensus sk h papers query) = []).
Proof.
  split; [|split].
  - destruct (LoopFacts.process_papers_cases sk papers query s)
      as [[-> Hrun] | [[Hne (out & s' & Htry & Hrun)]
                      | [Hne (e & s1 & s' & Htry & Hfb & Hrun)]]]; eauto.
  - intros e s1 Htry.
    destruct (ProcessorFacts.process_papers_fallback sk _ _ _ _ _ Htry)
      as (s' & Hrun & Hdef).
    exists s'. split; [exact Hrun|]. intros p Hp. apply (Hdef p Hp).
  - intros e Htry. unfold generate_ml_consensus.
    destruct papers as [|p rest]; [discriminate|].
    rewrite Htry. repeat split.
Qed.

End ConsensusClaims.

(** ** The statements at concrete inputs *)

Module Witnesses.

Import Config PaperModel SpecWords Num Examples.
Import MLPaperProcessor MLSummarizationService.

(** The round-robin labels are below [k]. *)
Lemma round_robin_in_range (k : Z) (X : Matrix) :
  (0 < k)%Z -> forall i, Forall (fun c => (0 <= c < k)%Z) (round_robin k i X).
Proof.
  intro Hk. induction X as [|row X IH]; intro i; simpl; constructor.
  - apply Z.mod_pos_bound. exact Hk.
  - apply IH.
Qed.

Lemma toy_kmeans_labels_in_range : kmeans_labels_in_range toy.
Proof.
  intros k seed X labels. simpl.
  destruct (0 <? k)%Z eqn:E; [|discriminate].
  intro H; inversion H; subst. apply round_robin_in_range. now apply Z.ltb_lt.
Qed.

Lemma consensus_follows_decision_table_witness :
  [0; 1; 2]%nat <> [] /\
  (forall p, In p [0; 1; 2]%nat -> citation_count (scored p) <> None) /\
  exists pos neg,
    sentiment_loop toy scored [0; 1; 2]%nat "does sleep help" [] [] = Ok (pos, neg) /\
    consensus (generate_ml_consensus toy scored [0; 1; 2]%nat "does sleep help")
    = decision_table (positive_percentage pos neg)
        (avg_confidence scored [0; 1; 2]%nat).
Proof.
  assert (Hne : [0; 1; 2]%nat <> []) by discriminate.
  assert (Hcit : forall p, In p [0; 1; 2]%nat -> citation_count (scored p) <> None)
    by (intros p [<-|[<-|[<-|[]]]]; discriminate).
  split; [exact Hne|]. split; [exact Hcit|].
  exact (proj1 (ConsensusClaims.consensus_follows_decision_table
                  toy scored [0; 1; 2]%nat "does sleep help" Hne Hcit)).
Defined.

Lemma dead_zone_and_neutral_percentage_witness :
  exists pos neg,
    sentiment_loop toy scored [0; 1; 2]%nat "does sleep help" [] [] = Ok (pos, neg) /\
    pos = map (fun p => sentiment_of toy (scored p) * ml_summary_confidence (scored p))
            (filter (fun p => Qlt_bool 0.1 (sentiment_of toy (scored p)))
                    [0; 1; 2]%nat) /\
    List.length pos = 1%nat /\ List.length neg = 1%nat.
Proof.
  eexists. eexists. split; [vm_compute; reflexivity|].
  split; [|split; reflexivity].
  refine (proj1 (proj2 (ConsensusClaims.dead_zone_and_neutral_percentage
                          toy scored [0; 1; 2]%nat "does sleep help" _ _ _))).
  vm_compute. reflexivity.
Defined.

Lemma confidence_is_mean_of_four_factors_witness :
  fst (process_papers_try toy [0; 1; 2]%nat "sleep" fresh) = Ok [2; 1; 0]%nat /\
  In 1%nat [0; 1; 2]%nat /\
  exists cit,
    citation_count (st_heap (snd (process_papers toy [0; 1; 2]%nat "sleep" fresh))
                      1%nat) = Some cit /\
    ml_summary_confidence
      (st_heap (snd (process_papers toy [0; 1; 2]%nat "sleep" fresh)) 1%nat)
    == mean4
         (ml_relevance_score
            (st_heap (snd (process_papers toy [0; 1; 2]%nat "sleep" fresh)) 1%nat))
         (Qmin (inject_Z cit / 100) 1)
         (if Nat.ltb 100
               (String.length
                  (abstract
                     (st_heap (snd (process_papers toy [0; 1; 2]%nat "sleep" fresh))
                        1%nat)))
          then 1 else 0.5)
         (if (2015 <=?
              year (st_heap (snd (process_papers toy [0; 1; 2]%nat "sleep" fresh))
                      1%nat))%Z
          then 1 else 0.7).
Proof.
  assert (Hfst : fst (process_papers_try toy [0; 1; 2]%nat "sleep" fresh)
                 = Ok [2; 1; 0]%nat) by (vm_compute; reflexivity).
  assert (Hin : In 1%nat [0; 1; 2]%nat) by (simpl; auto).
  split; [exact Hfst|]. split; [exact Hin|].
  pose proof (surjective_pairing
                (process_papers_try toy [0; 1; 2]%nat "sleep" fresh)) as Hrun.
  rewrite Hfst in Hrun.
  exact (proj1 (ProcessorClaims.confidence_is_mean_of_four_factors
                  toy [0; 1; 2]%nat "sleep" fresh _ _ Hrun) 1%nat Hin).
Defined.



Lemma exceptions_do_not_propagate_witness :
  fst (process_papers_try empty_vocabulary [0; 5]%nat "sleep" fresh)
  = Raise ValueError /\
  generate_ml_consensus_try empty_vocabulary library [0; 5]%nat "sleep"
  = Raise TypeError /\
  (exists s',
      process_papers empty_vocabulary [0; 5]%nat "sleep" fresh
      = (Ok [0; 5]%nat, s') /\
      forall p, In p [0; 5]%nat ->
        ml_relevance_score (st_heap s' p) = 0.5 /\
        ml_cluster (st_heap s' p) = 0%Z /\
        ml_summary_confidence (st_heap s' p) = 0.5) /\
  consensus (generate_ml_consensus empty_vocabulary library [0; 5]%nat "sleep")
  = "error"%string.
Proof.
  assert (Hfst : fst (process_papers_try empty_vocabulary [0; 5]%nat "sleep" fresh)
                 = Raise ValueError) by (vm_compute; reflexivity).
  assert (Hcons : generate_ml_consensus_try empty_vocabulary library [0; 5]%nat "sleep"
                  = Raise TypeError) by (vm_compute; reflexivity).
  split; [exact Hfst|]. split; [exact Hcons|].
  pose proof (surjective_pairing
                (process_papers_try empty_vocabulary [0; 5]%nat "sleep" fresh))
    as Hrun.
  rewrite Hfst in Hrun.
  pose proof (ConsensusClaims.exceptions_do_not_propagate
                empty_vocabulary [0; 5]%nat "sleep" fresh library)
    as (_ & Hproc & Hraise).
  split.
  - exact (Hproc _ _ Hrun).
  - exact (proj1 (Hraise _ Hcons)).
Defined.

Lemma process_papers_sorted_descending_stable_witness :
  exists out s',
    process_papers toy [0; 1; 2]%nat "sleep" fresh = (Ok out, s') /\
    StronglySorted (ge_key (fun p => ml_relevance_score (st_heap s' p))) out.
Proof.
  destruct (ProcessorClaims.process_papers_sorted_descending_stable
              toy [0; 1; 2]%nat "sleep" fresh)
    as (out & s' & Hrun & Hsorted & _).
  exists out, s'. split; assumption.
Defined.

End Witnesses.

(** ** Strings *)

Module StrFacts.

Local Open Scope string_scope.

Lemma append_assoc (a b c : string) : (a ++ b) ++ c = a ++ (b ++ c).
Proof. induction a as [|x a IH]; simpl; [reflexivity | now rewrite IH]. Qed.

Lemma append_empty_r (a : string) : a ++ EmptyString = a.
Proof. induction a as [|x a IH]; simpl; [reflexivity | now rewrite IH]. Qed.


(** [prefix] finds exactly the texts that begin with the pattern. *)
Lemma prefix_iff (a s : string) :
  String.prefix a s = true <-> exists suf, s = a ++ suf.
Proof.
  revert s. induction a as [|x a IH]; intro s.
  - split; [intros _; exists s; reflexivity | intros _; destruct s; reflexivity].
  - destruct s as [|y s]; simpl.
    + split; [discriminate | intros (suf & H); discriminate].
    + destruct (ascii_dec x y) as [->|Hne].
      * rewrite IH. split; intros (suf & H); exists suf; [now subst | now inversion H].
      * split; [discriminate|]. intros (suf & H). inversion H. congruence.
Qed.

Lemma contains_empty (a : string) :
  Str.contains a EmptyString = String.prefix a EmptyString.
Proof. simpl. now destruct a. Qed.

Lemma contains_cons (a : string) (y : ascii) (s : string) :
  Str.contains a (String y s)
  = (String.prefix a (String y s) || Str.contains a s)%bool.
Proof.
  change (Str.contains a (String y s))
    with (if String.prefix a (String y s) then true else Str.contains a s).
  now destruct (String.prefix a (String y s)).
Qed.

(** [contains] finds exactly the texts that have the pattern somewhere. *)
Lemma contains_iff (a s : string) :
  Str.contains a s = true <-> exists pre suf, s = pre ++ a ++ suf.
Proof.
  induction s as [|y s IH].
  - rewrite contains_empty, prefix_iff. split.
    + intros (suf & H). exists EmptyString, suf. exact H.
    + intros (pre & suf & H). destruct pre; [|discriminate].
      exists suf. exact H.
  - rewrite contains_cons, orb_true_iff, prefix_iff, IH. split.
    + intros [(suf & H) | (pre & suf & H)].
      * exists EmptyString, suf. exact H.
      * exists (String y pre), suf. simpl. now rewrite H.
    + intros (pre & suf & H). destruct pre as [|z pre]; simpl in H.
      * left. exists suf. exact H.
      * right. inversion H. exists pre, suf. reflexivity.
Qed.

(** A pattern inside a pattern that occurs, occurs. *)
Lemma contains_trans (a b s : string) :
  Str.contains a b = true -> Str.contains b s = true -> Str.contains a s = true.
Proof.
  rewrite !contains_iff.
  intros (p1 & s1 & ->) (p2 & s2 & ->).
  exists (p2 ++ p1), (s1 ++ s2). now rewrite !append_assoc.
Qed.

End StrFacts.

(** ** [Paper.__post_init__] *)

Module PaperFacts.

Import PaperModel SpecWords.






End PaperFacts.

(** ** [MLPaperProcessor.get_paper_clusters] *)

Module ClusterFacts.

Import ClusterView.

Section Grouping.

Variable h : heap.

Let step (clusters : list (Z * list loc)) (paper : loc) :=
  group_append (ml_cluster (h paper)) paper clusters.

Lemma lookup_group_append_same (k : Z) (p : loc) (d : list (Z * list loc)) :
  lookup k (group_append k p d)
  = Some (match lookup k d with Some ps => ps ++ [p] | None => [p] end).
Proof.
  induction d as [|[k' ps] d IH]; simpl.
  - now rewrite Z.eqb_refl.
  - destruct (Z.eqb k' k) eqn:E; simpl; rewrite E; [reflexivity | exact IH].
Qed.

Lemma lookup_group_append_other (k k0 : Z) (p : loc) (d : list (Z * list loc)) :
  k0 <> k -> lookup k0 (group_append k p d) = lookup k0 d.
Proof.
  intro Hne. induction d as [|[k' ps] d IH]; simpl.
  - destruct (Z.eqb k k0) eqn:E; [|reflexivity].
    apply Z.eqb_eq in E. congruence.
  - destruct (Z.eqb k' k) eqn:E; simpl.
    + apply Z.eqb_eq in E. subst k'.
      destruct (Z.eqb k k0) eqn:E0; [|reflexivity].
      apply Z.eqb_eq in E0. congruence.
    + now rewrite IH.
Qed.

Lemma keys_group_append (k : Z) (p : loc) (d : list (Z * list loc)) :
  map fst (group_append k p d)
  = if existsb (Z.eqb k) (map fst d) then map fst d else map fst d ++ [k].
Proof.
  induction d as [|[k' ps] d IH]; simpl; [reflexivity|].
  rewrite (Z.eqb_sym k k').
  destruct (Z.eqb k' k) eqn:E; simpl; [reflexivity|].
  rewrite IH. now destruct (existsb (Z.eqb k) (map fst d)).
Qed.

Lemma nodup_keys_group_append (k : Z) (p : loc) (d : list (Z * list loc)) :
  NoDup (map fst d) -> NoDup (map fst (group_append k p d)).
Proof.
  intro Hnd. rewrite keys_group_append.
  destruct (existsb (Z.eqb k) (map fst d)) eqn:E; [exact Hnd|].
  apply NoDup_app; [exact Hnd | repeat constructor; intros [] |].
  intros x Hx [Hk|[]]. subst x.
  assert (existsb (Z.eqb k) (map fst d) = true)
    by (apply existsb_exists; exists k; split; [exact Hx | apply Z.eqb_refl]).
  congruence.
Qed.

Lemma concat_group_append (k : Z) (p : loc) (d : list (Z * list loc)) :
  Permutation (List.concat (map snd (group_append k p d)))
              (List.concat (map snd d) ++ [p]).
Proof.
  induction d as [|[k' ps] d IH]; simpl; [reflexivity|].
  destruct (Z.eqb k' k); simpl.
  - rewrite <- !app_assoc. apply Permutation_app_head.
    apply Permutation_app_comm.
  - rewrite <- app_assoc. now apply Permutation_app_head.
Qed.

(** What the dictionary holds once the loop has run over a list. *)
Lemma fold_lookup (papers : list loc) :
  forall (d : list (Z * list loc)) (k : Z),
    lookup k (fold_left step papers d)
    = match with_cluster h k papers with
      | [] => lookup k d
      | ps => Some (match lookup k d with
                    | Some old => old ++ ps
                    | None => ps
                    end)
      end.
Proof.
  induction papers as [|p papers IH]; intros d k; [reflexivity|].
  simpl fold_left. rewrite IH. unfold with_cluster. simpl filter.
  fold (with_cluster h k papers). unfold step at 1 2.
  destruct (Z.eqb (ml_cluster (h p)) k) eqn:E.
  - apply Z.eqb_eq in E. rewrite E.
    rewrite lookup_group_append_same.
    destruct (with_cluster h k papers) as [|q qs];
      destruct (lookup k d) as [old|]; try reflexivity.
    now rewrite <- app_assoc.
  - assert (Hne : k <> ml_cluster (h p))
      by (intro; subst; rewrite Z.eqb_refl in E; discriminate).
    now rewrite (lookup_group_append_other _ _ _ _ Hne).
Qed.

Lemma fold_nodup (papers : list loc) :
  forall d, NoDup (map fst d) -> NoDup (map fst (fold_left step papers d)).
Proof.
  induction papers as [|p papers IH]; intros d Hd; [exact Hd|].
  simpl. apply IH. now apply nodup_keys_group_append.
Qed.

Lemma fold_concat (papers : list loc) :
  forall d,
    Permutation (List.concat (map snd (fold_left step papers d)))
                (List.concat (map snd d) ++ papers).
Proof.
  induction papers as [|p papers IH]; intro d; simpl.
  - now rewrite app_nil_r.
  - rewrite IH. unfold step. rewrite concat_group_append.
    rewrite <- app_assoc. reflexivity.
Qed.

Lemma in_lookup (d : list (Z * list loc)) (k : Z) (ps : list loc) :
  NoDup (map fst d) -> In (k, ps) d -> lookup k d = Some ps.
Proof.
  induction d as [|[k' ps'] d IH]; intros Hnd Hin; [contradiction|].
  simpl in *. inversion Hnd as [|? ? Hnotin Hnd']; subst.
  destruct Hin as [Heq | Hin].
  - inversion Heq; subst. now rewrite Z.eqb_refl.
  - destruct (Z.eqb k' k) eqn:E.
    + apply Z.eqb_eq in E. subst k'.
      exfalso. apply Hnotin. apply (in_map fst) in Hin. exact Hin.
    + now apply IH.
Qed.

Lemma lookup_in (d : list (Z * list loc)) (k : Z) (ps : list loc) :
  lookup k d = Some ps -> In (k, ps) d.
Proof.
  induction d as [|[k' ps'] d IH]; [discriminate|]. simpl.
  destruct (Z.eqb k' k) eqn:E.
  - apply Z.eqb_eq in E. intro H; inversion H; subst. now left.
  - intro H. right. now apply IH.
Qed.

End Grouping.

Lemma get_paper_clusters_spec (s : State) :
  let groups := get_paper_clusters s in
  NoDup (map fst groups) /\
  (forall k ps, In (k, ps) groups ->
     ps <> [] /\ ps = with_cluster (st_heap s) k (papers_data s)) /\
  (forall p, In p (papers_data s) ->
     exists ps, In (ml_cluster (st_heap s p), ps) groups /\ In p ps) /\
  Permutation (List.concat (map snd groups)) (papers_data s).
Proof.
  cbv zeta. unfold get_paper_clusters.
  assert (Hnd : NoDup (map fst
            (fold_left (fun clusters paper =>
                          group_append (ml_cluster (st_heap s paper)) paper clusters)
                       (papers_data s) [])))
    by (apply fold_nodup; constructor).
  split; [exact Hnd|]. split; [|split].
  - intros k ps Hin.
    apply (in_lookup _ _ _ Hnd) in Hin. rewrite fold_lookup in Hin.
    destruct (with_cluster (st_heap s) k (papers_data s)) as [|q qs];
      simpl in Hin; [discriminate|].
    inversion Hin; subst. split; [discriminate | reflexivity].
  - intros p Hp.
    assert (Hin : In p (with_cluster (st_heap s) (ml_cluster (st_heap s p))
                          (papers_data s)))
      by (apply filter_In; split; [exact Hp | apply Z.eqb_refl]).
    exists (with_cluster (st_heap s) (ml_cluster (st_heap s p)) (papers_data s)).
    split; [|exact Hin].
    apply lookup_in. rewrite fold_lookup.
    destruct (with_cluster (st_heap s) (ml_cluster (st_heap s p)) (papers_data s));
      [contradiction | reflexivity].
  - apply (fold_concat (st_heap s) (papers_data s) []).
Qed.

(** X2.  [get_paper_clusters] partitions [self.papers_data]: the keys of
    the dictionary are distinct; the group under a key is not empty and is
    exactly the papers with that cluster id, in the order of the list;
    every paper of the list is in the group of its cluster id; and the
    groups together hold the papers of the list, each as often as the list
    does. *)
Theorem get_paper_clusters_partitions (s : State) :
  let groups := get_paper_clusters s in
  NoDup (map fst groups) /\
  (forall k ps, In (k, ps) groups ->
     ps <> [] /\ ps = with_cluster (st_heap s) k (papers_data s)) /\
  (forall p, In p (papers_data s) ->
     exists ps, In (ml_cluster (st_heap s p), ps) groups /\ In p ps) /\
  Permutation (List.concat (map snd groups)) (papers_data s).
Proof. exact (get_paper_clusters_spec s). Qed.

End ClusterFacts.

Module ClusterRunFacts.

Import Config ClusterView ClusterFacts StoreFacts LoopFacts ProcessorFacts.
Import MLPaperProcessor.

Section WithBackend.

Variable sk : Backend.

(** A [try] block that raises has not touched [self.papers_data]. *)
Lemma process_papers_try_raise_papers_data (papers : list loc) (query : string)
    (s s1 : State) (e : exn) :
  process_papers_try sk papers query s = (Raise e, s1) ->
  papers_data s1 = papers_data s.
Proof.
  unfold process_papers_try. run_monad.
  remember (MIN_PAPERS_FOR_CLUSTERING <? Z.of_nat (List.length papers))%Z
    as big eqn:En.
  remember (Z.min MAX_CLUSTERS (Z.of_nat (List.length papers))) as k eqn:Ek'.
  destruct (fit_transform sk _ _ _) as [vectors|e0]; simpl.
  2:{ intro H; inversion H; subst; reflexivity. }
  destruct (row_last vectors) as [qv|e0]; simpl.
  2:{ intro H; inversion H; subst; reflexivity. }
  destruct (cosine_similarity sk _ _) as [sims|e0]; simpl.
  2:{ intro H; inversion H; subst; reflexivity. }
  destruct big.
  - destruct (kmeans_fit_predict sk _ _ _) as [clusters|e0]; simpl.
    2:{ intro H; inversion H; subst; reflexivity. }
    match goal with
    | |- context [update_loop 0 papers ?a ?b ?st] =>
        destruct (update_loop 0 papers a b st) as [[[]|e0] s2] eqn:El
    end; simpl; [discriminate|].
    intro H; inversion H; subst.
    apply update_loop_frame in El. now destruct El as (_ & Hd & _).
  - match goal with
    | |- context [update_loop 0 papers ?a ?b ?st] =>
        destruct (update_loop 0 papers a b st) as [[[]|e0] s2] eqn:El
    end; simpl; [discriminate|].
    intro H; inversion H; subst.
    apply update_loop_frame in El. now destruct El as (_ & Hd & _).
Qed.

(** After a normal run every cluster id of the list is below
    [MAX_CLUSTERS]. *)
Lemma normal_run_cluster_range
    (Hk : kmeans_labels_in_range sk)
    (papers : list loc) (query : string) (s s1 : State) (out : list loc) :
  process_papers_try sk papers query s = (Ok out, s1) ->
  forall p, In p papers -> (0 <= ml_cluster (st_heap s1 p) < MAX_CLUSTERS)%Z.
Proof.
  intros Htry p Hp.
  destruct (process_papers_try_updated sk _ _ _ _ _ Htry)
    as (sims & clusters & _ & Hcl & Hupd).
  destruct (Hupd p Hp) as (i & sv & c & cit & _ & Hc & _ & Hclu & _).
  rewrite Hclu. apply nth_error_In in Hc.
  destruct (MIN_PAPERS_FOR_CLUSTERING <? Z.of_nat (List.length papers))%Z.
  - destruct Hcl as (X & Hcl). apply Hk in Hcl.
    rewrite Forall_forall in Hcl. specialize (Hcl c Hc). lia.
  - subst clusters. apply repeat_spec in Hc. subst c.
    unfold MAX_CLUSTERS. lia.
Qed.

End WithBackend.

(** X3.  After a run of [process_papers] whose [try] block raised
    nothing (under the contract of [KMeans]), [get_paper_clusters] groups
    exactly the list that run returned: every key is a cluster id in
    [0, MAX_CLUSTERS), so there are at most [MAX_CLUSTERS] = 3 groups, and
    the groups together hold the returned papers. *)
Theorem clusters_after_normal_run
    (sk : Backend) (Hk : kmeans_labels_in_range sk)
    (papers : list loc) (query : string) (s s1 : State) (out : list loc)
    (Hne : papers <> [])
    (Hnormal : process_papers_try sk papers query s = (Ok out, s1)) :
  let s' := snd (process_papers sk papers query s) in
  let groups := get_paper_clusters s' in
  papers_data s' = out /\
  (forall k ps, In (k, ps) groups -> (0 <= k < MAX_CLUSTERS)%Z) /\
  (List.length groups <= 3)%nat /\
  Permutation (List.concat (map snd groups)) out.
Proof.
  cbv zeta. rewrite (process_papers_normal sk _ _ _ _ _ Hne Hnormal). simpl.
  destruct (process_papers_try_ok sk _ _ _ _ _ Hnormal)
    as (sims & clusters & s0 & s2 & _ & _ & _ & _ & _ & Hout & Hdata).
  destruct (get_paper_clusters_spec s1) as (Hnd & Hgroups & _ & Hperm).
  cbv zeta in Hnd, Hgroups, Hperm.
  assert (Hrange : forall k ps, In (k, ps) (get_paper_clusters s1) ->
                     (0 <= k < MAX_CLUSTERS)%Z).
  { intros k ps Hin. destruct (Hgroups k ps Hin) as [Hnonempty Heq].
    destruct ps as [|p ps']; [contradiction|].
    assert (Hp : In p (with_cluster (st_heap s1) k (papers_data s1)))
      by (rewrite <- Heq; now left).
    apply filter_In in Hp. destruct Hp as [Hp Hkp].
    apply Z.eqb_eq in Hkp. subst k.
    apply (normal_run_cluster_range sk Hk papers query s s1 out Hnormal).
    rewrite Hdata, Hout in Hp.
    eapply Permutation_in; [apply Permutation_sym, SortFacts.sort_desc_perm|].
    exact Hp. }
  split; [exact Hdata|]. split; [exact Hrange|]. split.
  - rewrite <- (length_map fst).
    change 3%nat with (List.length [0; 1; 2]%Z).
    apply NoDup_incl_length; [exact Hnd|].
    intros k Hkin. apply in_map_iff in Hkin. destruct Hkin as ([k' ps] & <- & Hin).
    simpl. specialize (Hrange k' ps Hin). unfold MAX_CLUSTERS in Hrange.
    simpl. lia.
  - now rewrite <- Hdata.
Qed.

(** X4.  A run that takes the fallback (its [try] block raised), or that
    got the empty list, leaves [self.papers_data] as it was: then
    [get_paper_clusters] still groups the list of the earlier run, not the
    list just returned; on a processor that has not had a normal run yet it
    is the empty dictionary. *)
Theorem clusters_stale_after_fallback
    (sk : Backend) (papers : list loc) (query : string) (s : State) :
  let s' := snd (process_papers sk papers query s) in
  ((papers = [] \/
    exists e s1, process_papers_try sk papers query s = (Raise e, s1)) ->
   papers_data s' = papers_data s /\
   (papers_data s = [] -> get_paper_clusters s' = [])).
Proof.
  cbv zeta. intro Hpath.
  assert (Hdata : papers_data (snd (process_papers sk papers query s))
                  = papers_data s).
  { destruct Hpath as [-> | (e & s1 & Htry)]; [reflexivity|].
    destruct papers as [|p rest]; [reflexivity|].
    unfold process_papers, M.try_except. rewrite Htry.
    destruct (fallback_loop_spec (p :: rest) s1) as (s2 & Hf & Hfr & _).
    unfold M.bind, M.ret. rewrite Hf. simpl.
    destruct Hfr as (_ & Hd & _). rewrite Hd.
    eapply process_papers_try_raise_papers_data; eassumption. }
  split; [exact Hdata|].
  intro Hempty. unfold get_paper_clusters. rewrite Hdata, Hempty. reflexivity.
Qed.

End ClusterRunFacts.

(** ** More on [generate_ml_consensus] *)

Module ConsensusMore.

Import Config SpecWords Num NumFacts StrFacts.
Import MLSummarizationService ConsensusFacts Wording.
Local Open Scope string_scope.

Section WithBackend.

Variable sk : Backend.

(** The explanation of the result on the normal path. *)
Lemma generate_ml_consensus_explanation (h : heap) (papers : list loc)
    (q : string) (pos neg : list Q) :
  papers <> [] ->
  sentiment_loop sk h papers q [] [] = Ok (pos, neg) ->
  explanation (generate_ml_consensus sk h papers q)
  = Some (_generate_ml_explanation sk h papers
            (positive_percentage pos neg) (avg_confidence h papers)) /\
  ml_insights (generate_ml_consensus sk h papers q) <> [].
Proof.
  intros Hne Hrun.
  destruct (sentiment_loop_ok _ _ _ _ _ _ _ _ Hrun) as (Hall & _ & _).
  destruct (citation_counts_total h papers Hall) as (cs & Hcs).
  unfold generate_ml_consensus, generate_ml_consensus_try.
  destruct papers as [|p rest]; [contradiction|].
  rewrite Hrun. cbn [rbind]. rewrite Hcs. cbn [rbind].
  split; [reflexivity | discriminate].
Qed.

Lemma explanation_begins (h : heap) (papers : list loc) (pct conf : Q) :
  begins_with (first_sentence sk (List.length papers) pct conf)
              (_generate_ml_explanation sk h papers pct conf).
Proof.
  unfold begins_with, _generate_ml_explanation, first_sentence.
  unfold STRONG_POSITIVE_THRESHOLD, STRONG_NEGATIVE_THRESHOLD.
  set (second := Qlt_bool (of_nat (List.length papers) * 0.6) _).
  set (third := Qlt_bool 0.6 _).
  exists ((if second
           then " " ++ str_of_nat (high_confidence_count h papers)
                ++ " papers show high ML confidence scores."
           else EmptyString)
          ++ (if third
              then " Strong topical relevance detected by ML analysis."
              else EmptyString)).
  destruct (Qle_bool 70 pct); [|destruct (Qle_bool pct 30)];
    destruct second; destruct third;
    rewrite ?append_assoc, ?append_empty_r; reflexivity.
Qed.

(** A missing citation count anywhere in the list makes the loop
    raise. *)
Lemma sentiment_loop_raises (h : heap) (q : string) (papers : list loc) :
  (exists p, In p papers /\ citation_count (h p) = None) ->
  forall pos neg, sentiment_loop sk h papers q pos neg = Raise TypeError.
Proof.
  induction papers as [|p0 rest IH]; intros (p & Hin & Hnone) pos neg.
  - contradiction.
  - simpl. destruct (citation_count (h p0)) as [cit|] eqn:E0.
    + rewrite (sentiment_analysis_some _ _ _ _ E0). simpl.
      assert (Hrest : exists p, In p rest /\ citation_count (h p) = None).
      { destruct Hin as [<-|Hin]; [congruence|]. now exists p. }
      destruct (Qlt_bool 0.1 _); [now apply IH|].
      destruct (Qlt_bool _ (-0.1)); now apply IH.
    + now rewrite (sentiment_analysis_none _ _ _ E0).
Qed.

Lemma missing_count_or_all_present (h : heap) (papers : list loc) :
  (exists p, In p papers /\ citation_count (h p) = None) \/
  Forall (fun p => citation_count (h p) <> None) papers.
Proof.
  induction papers as [|p rest [IH|IH]].
  - right. constructor.
  - left. destruct IH as (q & Hq & Hn). exists q. split; [now right | exact Hn].
  - destruct (citation_count (h p)) as [c|] eqn:E.
    + right. constructor; [congruence | exact IH].
    + left. exists p. split; [now left | exact E].
Qed.


End WithBackend.

(** Sums and quotients of numbers that are not negative. *)
Lemma sum_nonneg (l : list Q) : Forall (fun x => 0 <= x) l -> 0 <= sum l.
Proof.
  intro H.
  induction H as [|x l Hx Hl IH].
  - discriminate.
  - rewrite sum_cons.
    replace 0 with (0 + 0) by reflexivity. now apply Qplus_le_compat.
Qed.

Lemma positive_percentage_range (pos neg : list Q) :
  Forall (fun x => 0 <= x) pos -> Forall (fun x => 0 <= x) neg ->
  0 <= positive_percentage pos neg /\ positive_percentage pos neg <= 100.
Proof.
  intros Hp Hn. apply sum_nonneg in Hp. apply sum_nonneg in Hn.
  unfold positive_percentage.
  destruct (Qlt_bool 0 (sum pos + sum neg)) eqn:E.
  - apply Qlt_bool_iff in E. split.
    + apply Qmult_le_0_compat; [|discriminate].
      apply Qle_shift_div_l; [exact E|]. now rewrite Qmult_0_l.
    + setoid_replace 100 with (1 * 100) at 2 by reflexivity.
      apply Qmult_le_compat_r; [|discriminate].
      apply Qle_shift_div_r; [exact E|]. rewrite Qmult_1_l.
      setoid_replace (sum pos) with (sum pos + 0) at 1 by ring.
      now apply Qplus_le_compat; [apply Qle_refl|].
  - split; discriminate.
Qed.

(** Rounding to one decimal keeps a percentage a percentage. *)
Lemma round_half_even_range (y : Q) (n : Z) :
  (0 <= n)%Z -> 0 <= y -> y <= inject_Z n ->
  (0 <= round_half_even y <= n)%Z.
Proof.
  intros Hn H0 H1. unfold round_half_even.
  assert (Hf0 : (0 <= Qfloor y)%Z).
  { change 0%Z with (Qfloor 0). now apply Qfloor_resp_le. }
  assert (Hf1 : (Qfloor y <= n)%Z).
  { rewrite <- (Qfloor_Z n). now apply Qfloor_resp_le. }
  destruct (Qlt_bool (y - inject_Z (Qfloor y)) (1 # 2)) eqn:E1; [lia|].
  assert (Hlt : (Qfloor y < n)%Z).
  { destruct (Z.eq_dec (Qfloor y) n) as [Heq|Hneq]; [|lia].
    exfalso. apply Qlt_bool_false_iff in E1.
    rewrite Heq in E1.
    assert (y - inject_Z n <= 0) by Lqa.lra.
    assert (Hc : (1 # 2) <= 0) by (eapply Qle_trans; eassumption).
    exact (Hc eq_refl). }
  destruct (Qlt_bool (1 # 2) _); [lia|].
  destruct (Z.even (Qfloor y)); lia.
Qed.

Lemma round_percentage_range (x : Q) :
  0 <= x -> x <= 100 -> 0 <= round x 1 /\ round x 1 <= 100.
Proof.
  intros H0 H1. unfold round.
  change (inject_Z (10 ^ Z.of_nat 1)) with (inject_Z 10).
  assert (Hy0 : 0 <= x * inject_Z 10)
    by (apply Qmult_le_0_compat; [exact H0 | discriminate]).
  assert (Hy1 : x * inject_Z 10 <= inject_Z 1000).
  { change (inject_Z 1000) with (100 * inject_Z 10).
    apply Qmult_le_compat_r; [exact H1 | discriminate]. }
  destruct (round_half_even_range (x * inject_Z 10) 1000 ltac:(lia) Hy0 Hy1)
    as [Hr0 Hr1].
  split.
  - apply Qle_shift_div_l; [reflexivity|]. rewrite Qmult_0_l.
    change 0 with (inject_Z 0). now rewrite <- Zle_Qle.
  - apply Qle_shift_div_r; [reflexivity|].
    change (100 * inject_Z 10) with (inject_Z 1000). now rewrite <- Zle_Qle.
Qed.

End ConsensusMore.

Module ConsensusExtras.

Import Config SpecWords Num NumFacts StrFacts Wording.
Import MLSummarizationService ConsensusFacts ConsensusMore.
Local Open Scope string_scope.

(** X5.  On the normal path the explanation begins with a sentence chosen
    by the percentage alone (from 70 up "positive evidence", up to 30
    "negative evidence", in between "mixed results"), while the verdict
    also looks at the average confidence.  So with an average confidence
    of at most 0.5 the verdict is "mixed" whatever the percentage, also
    where the explanation reports positive evidence; a strong verdict
    always comes with the matching sentence; and for a percentage in
    [55, 70) with an average confidence above 0.5 the verdict is
    "moderate_positive" while the explanation says "mixed results". *)
Theorem explanation_wording_ignores_confidence
    (sk : Backend) (h : heap) (papers : list loc) (question : string)
    (pos neg : list Q)
    (Hne : papers <> [])
    (Hrun : sentiment_loop sk h papers question [] [] = Ok (pos, neg)) :
  let r := generate_ml_consensus sk h papers question in
  let pct := positive_percentage pos neg in
  let avg := avg_confidence h papers in
  (exists e, explanation r = Some e /\
             begins_with (first_sentence sk (List.length papers) pct avg) e) /\
  (avg <= 0.5 -> consensus r = "mixed") /\
  (consensus r = "strong_positive" -> 70 <= pct) /\
  (consensus r = "strong_negative" -> pct <= 30) /\
  (55 <= pct -> pct < 70 -> 0.5 < avg ->
   consensus r = "moderate_positive" /\
   first_sentence sk (List.length papers) pct avg
   = "ML analysis of " ++ str_of_nat (List.length papers) ++ " papers shows "
     ++ "mixed results (" ++ format_1f sk pct ++ "% positive) with "
     ++ format_1f sk avg ++ " confidence.").
Proof.
  cbv zeta.
  destruct (generate_ml_consensus_normal sk h papers question pos neg Hne Hrun)
    as (r & _ & Hr & Hc & _).
  destruct (generate_ml_consensus_explanation sk h papers question pos neg Hne Hrun)
    as (He & _).
  rewrite Hr in *. rewrite Hc. clear Hc Hr.
  set (pct := positive_percentage pos neg).
  set (avg := avg_confidence h papers).
  split; [|split; [|split; [|split]]].
  - eexists. split; [exact He | apply explanation_begins].
  - intro Havg. rewrite classify_is_decision_table. unfold decision_table.
    assert (E5 : Qlt_bool 0.5 avg = false) by now apply Qlt_bool_false_iff.
    assert (E6 : Qlt_bool 0.6 avg = false).
    { apply Qlt_bool_false_iff. eapply Qle_trans; [exact Havg | discriminate]. }
    rewrite E5, E6, !andb_false_r. reflexivity.
  - rewrite classify_is_decision_table. unfold decision_table.
    destruct (Qle_bool 70 pct) eqn:E; [intros _; now apply Qle_bool_iff|].
    simpl.
    repeat match goal with
           | |- context [if ?b then _ else _] => destruct b
           end; discriminate.
  - rewrite classify_is_decision_table. unfold decision_table.
    destruct (Qle_bool 70 pct && Qlt_bool 0.6 avg)%bool; [discriminate|].
    destruct (Qle_bool 55 pct && Qlt_bool 0.5 avg)%bool; [discriminate|].
    destruct (Qle_bool pct 30) eqn:E; [intros _; now apply Qle_bool_iff|].
    simpl.
    destruct (Qle_bool pct 45 && Qlt_bool 0.5 avg)%bool; discriminate.
  - intros H55 H70 Havg.
    assert (E70 : Qle_bool 70 pct = false) by now apply Qle_bool_false_iff.
    assert (E30 : Qle_bool pct 30 = false).
    { apply Qle_bool_false_iff. eapply Qlt_le_trans; [|exact H55]. reflexivity. }
    split.
    + rewrite classify_is_decision_table. unfold decision_table.
      rewrite E70. simpl.
      apply Qle_bool_iff in H55. apply Qlt_bool_iff in Havg.
      now rewrite H55, Havg.
    + unfold first_sentence. now rewrite E70, E30.
Qed.

Lemma reported_percentage_range
    (sk : Backend) (h : heap) (papers : list loc) (question : string)
    (pos neg : list Q)
    (Hne : papers <> [])
    (Hconf : forall p, In p papers -> 0 <= ml_summary_confidence (h p))
    (Hrun : sentiment_loop sk h papers question [] [] = Ok (pos, neg)) :
  (0 <= positive_percentage pos neg /\ positive_percentage pos neg <= 100) /\
  exists reported,
    percentage (generate_ml_consensus sk h papers question) = Some reported /\
    0 <= reported /\ reported <= 100.
Proof.
  destruct (sentiment_loop_ok sk h question papers [] [] pos neg Hrun)
    as (_ & Hpos & Hneg). simpl in Hpos, Hneg.
  assert (Hp : Forall (fun x => 0 <= x) pos).
  { subst pos. apply Forall_forall. intros x Hx.
    apply in_map_iff in Hx. destruct Hx as (p & <- & Hin).
    apply filter_In in Hin. destruct Hin as [Hp Hs].
    apply Qlt_bool_iff in Hs.
    apply Qmult_le_0_compat; [|now apply Hconf].
    apply Qlt_le_weak. eapply Qlt_trans; [|exact Hs]. reflexivity. }
  assert (Hn : Forall (fun x => 0 <= x) neg).
  { subst neg. apply Forall_forall. intros x Hx.
    apply in_map_iff in Hx. destruct Hx as (p & <- & Hin).
    apply filter_In in Hin. destruct Hin as [Hp' _].
    apply Qmult_le_0_compat; [apply Qabs_nonneg | now apply Hconf]. }
  destruct (positive_percentage_range pos neg Hp Hn) as [H0 H1].
  split; [now split|].
  destruct (generate_ml_consensus_normal sk h papers question pos neg Hne Hrun)
    as (r & _ & -> & _ & Hpct & _).
  eexists. split; [exact Hpct|]. now apply round_percentage_range.
Qed.

(** X6.  When no stored confidence is negative, the positive percentage
    lies in [0, 100], and so does the rounded percentage that the result
    reports. *)
Theorem percentage_within_0_100
    (sk : Backend) (h : heap) (papers : list loc) (question : string)
    (pos neg : list Q)
    (Hne : papers <> [])
    (Hconf : forall p, In p papers -> 0 <= ml_summary_confidence (h p))
    (Hrun : sentiment_loop sk h papers question [] [] = Ok (pos, neg)) :
  (0 <= positive_percentage pos neg /\ positive_percentage pos neg <= 100) /\
  exists reported,
    percentage (generate_ml_consensus sk h papers question) = Some reported /\
    0 <= reported /\ reported <= 100.
Proof. exact (reported_percentage_range sk h papers question pos neg Hne Hconf Hrun). Qed.


End ConsensusExtras.

(** ** The keyword lists *)

Module KeywordFacts.

Import Config StrFacts MLSummarizationService SentimentFacts Wording.
Local Open Scope string_scope.

Lemma term_bounds (b : bool) : (0 <= (if b then 2 else 0) <= 2)%Z.
Proof. destruct b; lia. Qed.

Lemma term_le (b1 b2 : bool) :
  (b1 = true -> b2 = true) -> ((if b1 then 2 else 0) <= (if b2 then 2 else 0))%Z.
Proof. destruct b1, b2; intro H; try lia; specialize (H eq_refl); discriminate. Qed.

Lemma in_by_eqb (x : string) (l : list string) :
  existsb (String.eqb x) l = true -> In x l.
Proof.
  intro H. apply existsb_exists in H. destruct H as (y & Hy & E).
  apply String.eqb_eq in E. now subst.
Qed.

(** X8.  Matching is by substring, so four negative keywords can never
    be found without a positive keyword being found too: "ineffective"
    brings "effective", "unsuccessful" brings "successful", "no
    improvement" brings "improvement" and "no correlation" brings
    "correlation".  Each of them adds 2 to both counters, and the negative
    counter exceeds the positive one by at most 18, not 26. *)
Theorem negated_keywords_count_twice (text : string) :
  (forall negative positive,
      In (negative, positive) shadowed ->
      In negative NEGATIVE_INDICATORS /\
      In positive POSITIVE_INDICATORS /\
      (Str.contains negative text = true -> Str.contains positive text = true)) /\
  (indicator_score NEGATIVE_INDICATORS text
   - indicator_score POSITIVE_INDICATORS text <= 18)%Z.
Proof.
  assert (H1 : Str.contains "ineffective" text = true ->
               Str.contains "effective" text = true)
    by (apply contains_trans; reflexivity).
  assert (H2 : Str.contains "unsuccessful" text = true ->
               Str.contains "successful" text = true)
    by (apply contains_trans; reflexivity).
  assert (H3 : Str.contains "no improvement" text = true ->
               Str.contains "improvement" text = true)
    by (apply contains_trans; reflexivity).
  assert (H4 : Str.contains "no correlation" text = true ->
               Str.contains "correlation" text = true)
    by (apply contains_trans; reflexivity).
  split.
  - intros negative positive Hin. unfold shadowed in Hin. simpl in Hin.
    destruct Hin as [E|[E|[E|[E|[]]]]]; inversion E; subst.
    + split; [apply in_by_eqb; reflexivity|].
      split; [apply in_by_eqb; reflexivity | exact H1].
    + split; [apply in_by_eqb; reflexivity|].
      split; [apply in_by_eqb; reflexivity | exact H2].
    + split; [apply in_by_eqb; reflexivity|].
      split; [apply in_by_eqb; reflexivity | exact H3].
    + split; [apply in_by_eqb; reflexivity|].
      split; [apply in_by_eqb; reflexivity | exact H4].
  - apply term_le in H1, H2, H3, H4.
    unfold indicator_score, NEGATIVE_INDICATORS, POSITIVE_INDICATORS.
    cbn [map fold_left].
    repeat match goal with
           | |- context [if Str.contains ?a text then 2%Z else 0%Z] =>
               let t := fresh "t" in
               pose proof (term_bounds (Str.contains a text));
               set (t := if Str.contains a text then 2%Z else 0%Z) in *
           end.
    lia.
Qed.

End KeywordFacts.

(** ** utils/helpers.py *)

Module HelpersFacts.

Import StrFacts StrMore Helpers Wording.
Local Open Scope string_scope.

Ltac each_ascii c :=
  destruct c as [[] [] [] [] [] [] [] []]; try reflexivity; try discriminate.

(** Lower-casing keeps word characters word characters, and leaves no
    upper-case letter. *)
Lemma is_word_char_lower (c : ascii) :
  is_word_char (Str.lower_ascii c) = is_word_char c.
Proof. each_ascii c. Qed.

Lemma lower_ascii_idempotent (c : ascii) :
  Str.lower_ascii (Str.lower_ascii c) = Str.lower_ascii c.
Proof. each_ascii c. Qed.

Lemma lower_idempotent (s : string) : Str.lower (Str.lower s) = Str.lower s.
Proof.
  induction s as [|c s IH]; simpl; [reflexivity|].
  now rewrite lower_ascii_idempotent, IH.
Qed.

Lemma lower_append (a b : string) :
  Str.lower (a ++ b) = Str.lower a ++ Str.lower b.
Proof. induction a as [|c a IH]; simpl; [reflexivity | now rewrite IH]. Qed.

Lemma piece_of_cons (t : string) (c : ascii) (s : string) :
  piece_of t s -> piece_of t (String c s).
Proof. intros (pre & suf & ->). now exists (String c pre), suf. Qed.

(** What [scan] returns: the head run is the longest prefix of word
    characters, and the runs after it are non-empty words that occur in
    the text. *)
Lemma scan_spec (s : string) :
  all_chars is_word_char (fst (scan s)) = true /\
  (exists rest, s = fst (scan s) ++ rest) /\
  Forall (fun w => w <> EmptyString /\ all_chars is_word_char w = true /\
                   piece_of w s) (snd (scan s)).
Proof.
  induction s as [|c s (Hw & (rest & Hrest) & Hws)]; simpl.
  - split; [reflexivity|]. split; [now exists EmptyString | constructor].
  - destruct (scan s) as [w ws] eqn:E. simpl in *.
    assert (Hws' : Forall (fun w0 => w0 <> EmptyString /\
                                     all_chars is_word_char w0 = true /\
                                     piece_of w0 (String c s)) ws).
    { eapply Forall_impl; [|exact Hws].
      intros a (Ha & Hb & Hc). repeat split; auto using piece_of_cons. }
    destruct (is_word_char c) eqn:Ec; simpl.
    + rewrite Ec, Hw. split; [reflexivity|].
      split; [exists rest; now rewrite Hrest at 1 | exact Hws'].
    + split; [reflexivity|]. split; [now exists (String c s)|].
      destruct w as [|x w]; [exact Hws'|].
      constructor; [|exact Hws'].
      split; [discriminate|]. split; [exact Hw|].
      exists (String c EmptyString), rest. simpl. now rewrite Hrest at 1.
Qed.

Lemma findall_words_spec (s : string) :
  Forall (fun w => w <> EmptyString /\ all_chars is_word_char w = true /\
                   piece_of w s) (findall_words s).
Proof.
  unfold findall_words.
  destruct (scan_spec s) as (Hw & (rest & Hrest) & Hws).
  destruct (scan s) as [w ws]. simpl in *.
  destruct w as [|x w]; [exact Hws|].
  constructor; [|exact Hws].
  split; [discriminate|]. split; [exact Hw|].
  exists EmptyString, rest. exact Hrest.
Qed.

(** A piece of a lower-cased text is lower-cased. *)
Lemma lower_fixed_append (a b : string) :
  Str.lower (a ++ b) = a ++ b -> Str.lower a = a /\ Str.lower b = b.
Proof.
  induction a as [|c a IH]; simpl; intro H; [now split|].
  inversion H as [[Hc Hrest]]. destruct (IH Hrest) as [Ha Hb].
  rewrite Hc, Hc, Ha. now split.
Qed.

Lemma piece_of_lower (t s : string) :
  piece_of t (Str.lower s) -> Str.lower t = t.
Proof.
  intros (pre & suf & H).
  assert (Hfix : Str.lower (pre ++ t ++ suf) = pre ++ t ++ suf)
    by (rewrite <- H; apply lower_idempotent).
  apply lower_fixed_append in Hfix. destruct Hfix as [_ Hfix].
  apply lower_fixed_append in Hfix. now destruct Hfix.
Qed.

Lemma extract_key_terms_spec (text : string) (m : nat) :
  Forall (fun term =>
            (m < String.length term)%nat /\
            all_chars is_word_char term = true /\
            Str.lower term = term /\
            Str.contains term (Str.lower text) = true)
         (extract_key_terms text m).
Proof.
  unfold extract_key_terms. apply Forall_forall. intros t Ht.
  apply filter_In in Ht. destruct Ht as [Ht Hlen].
  pose proof (findall_words_spec (Str.lower text)) as Hspec.
  rewrite Forall_forall in Hspec. destruct (Hspec t Ht) as (_ & Hw & Hp).
  split; [now apply Nat.ltb_lt|]. split; [exact Hw|].
  split; [eapply piece_of_lower; exact Hp|].
  apply contains_iff. exact Hp.
Qed.

(** X9.  Every term [extract_key_terms] returns is longer than
    [min_length] (with the default 3, a term has at least four
    characters: three-letter words are dropped), consists of letters,
    digits and underscores only, is in lower case, and occurs in the
    lower-cased text. *)
Theorem extract_key_terms_terms (text : string) (min_length : nat) :
  Forall (fun term =>
            (min_length < String.length term)%nat /\
            all_chars is_word_char term = true /\
            Str.lower term = term /\
            Str.contains term (Str.lower text) = true)
         (extract_key_terms text min_length) /\
  Forall (fun term => (4 <= String.length term)%nat)
         (extract_key_terms_default text).
Proof.
  split; [apply extract_key_terms_spec|].
  eapply Forall_impl; [|apply (extract_key_terms_spec text 3%nat)].
  intros t (Hlen & _). exact Hlen.
Qed.

Lemma scan_app (x s : string) :
  all_chars is_word_char x = true ->
  scan (x ++ s) = (x ++ fst (scan s), snd (scan s)).
Proof.
  induction x as [|c x IH]; simpl; intro H.
  - now destruct (scan s).
  - apply andb_true_iff in H. destruct H as [Hc Hx].
    rewrite (IH Hx), Hc. reflexivity.
Qed.

Lemma findall_words_word (x : string) :
  x <> EmptyString -> all_chars is_word_char x = true -> findall_words x = [x].
Proof.
  intros Hne Hx. unfold findall_words.
  rewrite <- (append_empty_r x) at 1. rewrite (scan_app _ _ Hx). simpl.
  rewrite append_empty_r. destruct x; [contradiction | reflexivity].
Qed.

Lemma findall_words_word_space (x rest : string) :
  x <> EmptyString -> all_chars is_word_char x = true ->
  findall_words (x ++ " " ++ rest) = x :: findall_words rest.
Proof.
  intros Hne Hx. unfold findall_words at 1.
  rewrite (scan_app _ _ Hx).
  change (" " ++ rest) with (String " " rest).
  change (scan (String " " rest))
    with (let (w, ws) := scan rest in
          if is_word_char " " then (String " " w, ws)
          else (EmptyString, match w with EmptyString => ws | _ => w :: ws end)).
  unfold findall_words. destruct (scan rest) as [w ws]. simpl.
  rewrite append_empty_r. destruct x; [contradiction | reflexivity].
Qed.

Lemma findall_words_join (l : list string) :
  Forall (fun w => w <> EmptyString /\ all_chars is_word_char w = true) l ->
  findall_words (Str.join " " l) = l.
Proof.
  induction 1 as [|x l [Hne Hx] Hl IH]; [reflexivity|].
  destruct l as [|y l].
  - simpl. now apply findall_words_word.
  - change (Str.join " " (x :: y :: l)) with (x ++ " " ++ Str.join " " (y :: l)).
    rewrite (findall_words_word_space _ _ Hne Hx). now rewrite IH.
Qed.

Lemma lower_join (l : list string) :
  Forall (fun w => Str.lower w = w) l -> Str.lower (Str.join " " l) = Str.join " " l.
Proof.
  induction 1 as [|x l Hx Hl IH]; [reflexivity|].
  destruct l as [|y l]; [exact Hx|].
  change (Str.join " " (x :: y :: l)) with (x ++ " " ++ Str.join " " (y :: l)).
  rewrite !lower_append, Hx, IH. reflexivity.
Qed.

Lemma filter_all {A} (f : A -> bool) (l : list A) :
  Forall (fun a => f a = true) l -> filter f l = l.
Proof.
  induction 1 as [|x l Hx Hl IH]; [reflexivity|]. simpl. now rewrite Hx, IH.
Qed.

(** X10.  Extracting the key terms of the extracted terms, joined by
    spaces, gives the same terms again. *)
Theorem extract_key_terms_idempotent (text : string) (min_length : nat) :
  extract_key_terms (Str.join " " (extract_key_terms text min_length)) min_length
  = extract_key_terms text min_length.
Proof.
  pose proof (extract_key_terms_spec text min_length) as H.
  set (terms := extract_key_terms text min_length) in *.
  unfold extract_key_terms at 1.
  rewrite lower_join
    by (eapply Forall_impl; [|exact H]; intros t (_ & _ & Hl & _); exact Hl).
  rewrite findall_words_join.
  - apply filter_all. eapply Forall_impl; [|exact H].
    intros t (Hlen & _). now apply Nat.ltb_lt.
  - eapply Forall_impl; [|exact H].
    intros t (Hlen & Hw & _). split; [|exact Hw].
    intro; subst t. simpl in Hlen. lia.
Qed.






End HelpersFacts.

(** ** The local summary *)

Module StripFacts.

Import StrFacts StrMore Wording.
Local Open Scope string_scope.

Lemma piece_of_refl (s : string) : piece_of s s.
Proof. exists EmptyString, EmptyString. simpl. now rewrite append_empty_r. Qed.

Lemma piece_of_trans (a b c : string) :
  piece_of a b -> piece_of b c -> piece_of a c.
Proof.
  intros (p1 & s1 & ->) (p2 & s2 & ->).
  exists (p2 ++ p1), (s1 ++ s2). now rewrite !append_assoc.
Qed.

Lemma begins_with_piece_of (a s : string) : begins_with a s -> piece_of a s.
Proof. intros (rest & ->). now exists EmptyString, rest. Qed.

Lemma piece_of_tail (t : string) (c : ascii) (s : string) :
  piece_of t s -> piece_of t (String c s).
Proof. intros (pre & suf & ->). now exists (String c pre), suf. Qed.

Lemma lstrip_piece_of (s : string) : piece_of (lstrip s) s.
Proof.
  induction s as [|c s IH]; simpl; [apply piece_of_refl|].
  destruct (is_space c); [now apply piece_of_tail | apply piece_of_refl].
Qed.

Lemma rstrip_begins (s : string) : begins_with (rstrip s) s.
Proof.
  induction s as [|c s (rest & IH)]; simpl; [now exists EmptyString|].
  destruct (rstrip s) as [|d r] eqn:E.
  - destruct (is_space c); [now exists (String c s)|].
    exists s. reflexivity.
  - exists rest. simpl. now rewrite IH at 1.
Qed.

Lemma strip_piece_of (s : string) : piece_of (strip s) s.
Proof.
  unfold strip. eapply piece_of_trans; [apply lstrip_piece_of|].
  apply begins_with_piece_of, rstrip_begins.
Qed.

Lemma lstrip_fixed (s : string) : lstrip (lstrip s) = lstrip s.
Proof.
  induction s as [|c s IH]; simpl; [reflexivity|].
  destruct (is_space c) eqn:E; [exact IH|]. simpl. now rewrite E.
Qed.

Lemma rstrip_lstrip (t : string) : rstrip t = t -> rstrip (lstrip t) = lstrip t.
Proof.
  induction t as [|c t IH]; intro H; [reflexivity|].
  simpl lstrip. destruct (is_space c) eqn:E; [|exact H].
  apply IH. simpl in H. rewrite E in H.
  destruct (rstrip t) as [|d r]; [discriminate|]. now inversion H.
Qed.

Lemma rstrip_fixed (s : string) : rstrip (rstrip s) = rstrip s.
Proof.
  induction s as [|c s IH]; simpl; [reflexivity|].
  destruct (rstrip s) as [|d r] eqn:E.
  - destruct (is_space c) eqn:Ec; [reflexivity|]. simpl. now rewrite Ec.
  - change (rstrip (String c (String d r)))
      with (match rstrip (String d r) with
            | EmptyString => if is_space c then EmptyString else String c EmptyString
            | r0 => String c r0
            end).
    now rewrite IH.
Qed.

(** A stripped text has no white space left at either end. *)
Lemma strip_fixed (s : string) : strip (strip s) = strip s.
Proof.
  unfold strip. rewrite (rstrip_lstrip (rstrip s) (rstrip_fixed s)).
  apply lstrip_fixed.
Qed.

(** Characters of a piece are characters of the text. *)
Lemma all_chars_append (f : ascii -> bool) (a b : string) :
  all_chars f (a ++ b) = (all_chars f a && all_chars f b)%bool.
Proof.
  induction a as [|c a IH]; simpl; [reflexivity|].
  now rewrite IH, andb_assoc.
Qed.

Lemma all_chars_piece (f : ascii -> bool) (t s : string) :
  piece_of t s -> all_chars f s = true -> all_chars f t = true.
Proof.
  intros (pre & suf & ->). rewrite !all_chars_append, !andb_true_iff. tauto.
Qed.

(** The pieces of a split: none holds the separator, the first one begins
    the text, and all occur in it. *)
Lemma split_spec (sep : ascii) (s : string) :
  exists first others,
    split sep s = first :: others /\
    begins_with first s /\
    Forall (fun piece =>
              all_chars (fun c => negb (Ascii.eqb c sep)) piece = true /\
              piece_of piece s) (first :: others).
Proof.
  induction s as [|c s (first & others & Hs & Hb & Hall)]; simpl.
  - exists EmptyString, []. split; [reflexivity|].
    split; [now exists EmptyString|].
    constructor; [split; [reflexivity | apply piece_of_refl] | constructor].
  - assert (Hall' : Forall (fun piece =>
                all_chars (fun c0 => negb (Ascii.eqb c0 sep)) piece = true /\
                piece_of piece (String c s)) (first :: others)).
    { eapply Forall_impl; [|exact Hall].
      intros p (H1 & H2). split; [exact H1 | now apply piece_of_tail]. }
    destruct (Ascii.eqb c sep) eqn:E.
    + exists EmptyString, (split sep s). split; [reflexivity|].
      split; [now exists (String c s)|].
      constructor.
      * split; [reflexivity|]. exists EmptyString, (String c s). reflexivity.
      * rewrite Hs. exact Hall'.
    + rewrite Hs. exists (String c first), others. split; [reflexivity|].
      destruct Hb as (rest & Hrest).
      assert (Hb' : begins_with (String c first) (String c s))
        by (exists rest; simpl; now rewrite Hrest at 1).
      split; [exact Hb'|].
      inversion Hall' as [|? ? [Hf _] Hothers]; subst.
      constructor; [|exact Hothers].
      split; [simpl; now rewrite E, Hf | now apply begins_with_piece_of].
Qed.

End StripFacts.

Module SummaryFacts.

Import Config StrFacts StrMore Wording StripFacts NumFacts LocalSummary.
Local Open Scope string_scope.

Lemma sentences_spec (abstract : string) :
  Forall (fun sentence =>
            sentence <> EmptyString /\
            strip sentence = sentence /\
            all_chars (fun c => negb (Ascii.eqb c ".")) sentence = true /\
            piece_of sentence abstract)
         (sentences abstract).
Proof.
  unfold sentences. apply Forall_forall. intros x Hx.
  apply in_map_iff in Hx. destruct Hx as (piece & <- & Hin).
  apply filter_In in Hin. destruct Hin as [Hin Hne].
  destruct (split_spec "." abstract) as (first & others & Hs & _ & Hall).
  rewrite Hs in Hin. rewrite Forall_forall in Hall.
  destruct (Hall piece Hin) as (Hdots & Hpiece).
  split; [|split; [apply strip_fixed | split]].
  - apply negb_true_iff in Hne. now apply String.eqb_neq in Hne.
  - eapply all_chars_piece; [apply strip_piece_of | exact Hdots].
  - eapply piece_of_trans; [apply strip_piece_of | exact Hpiece].
Qed.

(** X12.  The key finding of a local summary is never empty and has no
    white space at either end.  It is either the fixed text "Key finding
    not available." or a piece of the abstract, taken verbatim, that has
    no period in it. *)
Theorem key_finding_is_a_stripped_sentence (abstract : string) :
  let k := key_finding_of abstract in
  k <> EmptyString /\
  strip k = k /\
  (k = "Key finding not available." \/
   (all_chars (fun c => negb (Ascii.eqb c ".")) k = true /\
    Str.contains k abstract = true)).
Proof.
  cbv zeta. unfold key_finding_of.
  pose proof (sentences_spec abstract) as H.
  destruct (sentences abstract) as [|first rest].
  - split; [discriminate|]. split; [reflexivity | now left].
  - inversion H as [|? ? (Hne & Hfix & Hdots & Hpiece) _]; subst.
    split; [exact Hne|]. split; [exact Hfix|]. right.
    split; [exact Hdots | now apply contains_iff].
Qed.

Section WithFormat.

Variable format_2f : Q -> string.

Lemma evidence_low_confidence (p : Paper) :
  ml_summary_confidence p <= 0.5 -> evidence_strength_of p = Ok "Limited".
Proof.
  intro H. unfold evidence_strength_of,
    HIGH_CONFIDENCE_THRESHOLD, MEDIUM_CONFIDENCE_THRESHOLD.
  assert (E5 : Num.Qlt_bool 0.5 (ml_summary_confidence p) = false)
    by now apply Qlt_bool_false_iff.
  assert (E7 : Num.Qlt_bool 0.7 (ml_summary_confidence p) = false).
  { apply Qlt_bool_false_iff. eapply Qle_trans; [exact H | discriminate]. }
  now rewrite E5, E7.
Qed.

Lemma evidence_missing_count (p : Paper) :
  0.5 < ml_summary_confidence p -> citation_count p = None ->
  evidence_strength_of p = Raise TypeError.
Proof.
  intros H Hnone. unfold evidence_strength_of, greater_than,
    HIGH_CONFIDENCE_THRESHOLD, MEDIUM_CONFIDENCE_THRESHOLD.
  rewrite Hnone. apply Qlt_bool_iff in H. rewrite H.
  destruct (Num.Qlt_bool 0.7 (ml_summary_confidence p)); reflexivity.
Qed.

Lemma evidence_with_count (p : Paper) (c : Z) :
  citation_count p = Some c ->
  evidence_strength_of p
  = Ok (if (Num.Qlt_bool 0.7 (ml_summary_confidence p) && (50 <? c)%Z)%bool
        then "Strong"
        else if (Num.Qlt_bool 0.5 (ml_summary_confidence p) && (10 <? c)%Z)%bool
             then "Moderate" else "Limited").
Proof.
  intro Hc. unfold evidence_strength_of, greater_than,
    HIGH_CONFIDENCE_THRESHOLD, MEDIUM_CONFIDENCE_THRESHOLD.
  rewrite Hc.
  destruct (Num.Qlt_bool 0.7 (ml_summary_confidence p)); simpl;
    [destruct (50 <? c)%Z; simpl; [reflexivity|]|];
    destruct (Num.Qlt_bool 0.5 (ml_summary_confidence p)); simpl;
    try destruct (10 <? c)%Z; reflexivity.
Qed.

End WithFormat.

(** X13.  The evidence label of a local summary: a paper whose
    confidence is at most 0.5 is "Limited" whatever its citation count,
    also when the count is missing ([None]), because the comparison with
    the count is never reached; with a confidence above 0.5 a missing
    count raises [TypeError] and there is no summary.  With a count, the
    label is "Strong" for confidence above 0.7 and more than 50 citations,
    else "Moderate" for confidence above 0.5 and more than 10 citations,
    else "Limited". *)
Theorem evidence_label_and_missing_counts
    (format_2f : Q -> string) (p : Paper) (question : string) :
  let conf := ml_summary_confidence p in
  (conf <= 0.5 ->
     exists s, _ml_local_summary format_2f p question = Ok s /\
               evidence_strength s = "Limited") /\
  (_ml_local_summary format_2f p question = Raise TypeError <->
     0.5 < conf /\ citation_count p = None) /\
  (forall c, citation_count p = Some c ->
     exists s, _ml_local_summary format_2f p question = Ok s /\
       evidence_strength s
       = (if (Num.Qlt_bool 0.7 conf && (50 <? c)%Z)%bool then "Strong"
          else if (Num.Qlt_bool 0.5 conf && (10 <? c)%Z)%bool then "Moderate"
               else "Limited") /\
       key_finding s = key_finding_of (abstract p) /\
       relevance s = relevance_of p).
Proof.
  cbv zeta. split; [|split].
  - intro H. unfold _ml_local_summary.
    rewrite (evidence_low_confidence p H). simpl. eexists. split; reflexivity.
  - split.
    + intro Hraise.
      destruct (Qlt_le_dec 0.5 (ml_summary_confidence p)) as [Hgt|Hle].
      * split; [exact Hgt|].
        destruct (citation_count p) as [c|] eqn:Ec; [|reflexivity].
        unfold _ml_local_summary in Hraise.
        rewrite (evidence_with_count p c Ec) in Hraise. discriminate.
      * unfold _ml_local_summary in Hraise.
        rewrite (evidence_low_confidence p Hle) in Hraise. discriminate.
    + intros [Hgt Hnone]. unfold _ml_local_summary.
      now rewrite (evidence_missing_count p Hgt Hnone).
  - intros c Hc. unfold _ml_local_summary.
    rewrite (evidence_with_count p c Hc). simpl.
    eexists. repeat split.
Qed.

End SummaryFacts.

(** ** The processor followed by the summarizer *)

Module PipelineFacts.

Import Config SpecWords Num NumFacts StoreFacts LoopFacts ProcessorFacts.
Import MLSummarizationService ConsensusFacts ConsensusMore SummaryFacts.
Import LocalSummary.
Local Open Scope string_scope.

Lemma low_confidence_is_mixed (pct avg : Q) :
  avg <= 0.5 -> classify pct avg = "mixed".
Proof.
  intro Havg. rewrite classify_is_decision_table. unfold decision_table.
  assert (E5 : Qlt_bool 0.5 avg = false) by now apply Qlt_bool_false_iff.
  assert (E6 : Qlt_bool 0.6 avg = false).
  { apply Qlt_bool_false_iff. eapply Qle_trans; [exact Havg | discriminate]. }
  rewrite E5, E6, !andb_false_r. reflexivity.
Qed.

Lemma np_mean_bounds (l : list Q) (lo hi : Q) :
  l <> [] -> Forall (fun x => lo <= x /\ x <= hi) l ->
  lo <= np_mean l /\ np_mean l <= hi.
Proof.
  intros Hne Hall. unfold np_mean.
  assert (Hn : 0 < inject_Z (Z.of_nat (List.length l))).
  { change 0 with (inject_Z 0). rewrite <- Zlt_Qlt.
    destruct l; [contradiction | simpl; lia]. }
  destruct (sum_bounds l lo hi Hall) as [Hlo Hhi].
  split.
  - apply Qle_shift_div_l; [exact Hn|]. now rewrite Qmult_comm.
  - apply Qle_shift_div_r; [exact Hn|]. now rewrite Qmult_comm.
Qed.

(** X14.  After a run of [process_papers] that took the fallback, the
    consensus over the returned list is never a positive or a negative
    verdict: every confidence is 0.5, which does not pass the test of
    "more than 0.5", so for a non-empty list the verdict is "mixed", or
    "error" when a citation count is missing. *)
Theorem fallback_run_gives_mixed_or_error
    (sk : Backend) (papers : list loc) (query : string) (s s1 : State) (e : exn)
    (Hne : papers <> [])
    (Hraise : MLPaperProcessor.process_papers_try sk papers query s = (Raise e, s1)) :
  let out := fst (MLPaperProcessor.process_papers sk papers query s) in
  let h' := st_heap (snd (MLPaperProcessor.process_papers sk papers query s)) in
  out = Ok papers /\
  (consensus (generate_ml_consensus sk h' papers query) = "mixed" \/
   consensus (generate_ml_consensus sk h' papers query) = "error") /\
  ((forall p, In p papers -> citation_count (h' p) <> None) ->
   consensus (generate_ml_consensus sk h' papers query) = "mixed").
Proof.
  cbv zeta.
  destruct (process_papers_fallback sk _ _ _ _ _ Hraise) as (s' & Hrun & Hdef).
  rewrite Hrun. simpl. split; [reflexivity|].
  assert (Hmixed : (forall p, In p papers -> citation_count (st_heap s' p) <> None) ->
            consensus (generate_ml_consensus sk (st_heap s') papers query) = "mixed").
  { intro Hcit.
    assert (Hall : Forall (fun p => citation_count (st_heap s' p) <> None) papers)
      by now apply Forall_forall.
    destruct (sentiment_loop_total sk (st_heap s') query papers Hall [] [])
      as (pos & neg & Hloop).
    destruct (generate_ml_consensus_normal sk (st_heap s') papers query pos neg
                Hne Hloop) as (r & _ & -> & Hc & _).
    rewrite Hc. apply low_confidence_is_mixed.
    unfold avg_confidence. apply (np_mean_bounds _ 0.5 0.5).
    - destruct papers; [contradiction | discriminate].
    - apply Forall_forall. intros x Hx. apply in_map_iff in Hx.
      destruct Hx as (p & <- & Hp). destruct (Hdef p Hp) as (_ & _ & ->).
      split; apply Qle_refl. }
  split; [|exact Hmixed].
  destruct (missing_count_or_all_present (st_heap s') papers) as [Hex|Hall].
  - right. unfold generate_ml_consensus, generate_ml_consensus_try.
    destruct papers as [|p0 rest]; [contradiction|].
    now rewrite (sentiment_loop_raises sk (st_heap s') query (p0 :: rest) Hex).
  - left. apply Hmixed. now apply Forall_forall.
Qed.

(** X15.  After a run of [process_papers] that took the fallback, the
    local summary of every paper of the list succeeds, also for a paper
    without a citation count, and says "Limited" evidence and "Medium"
    relevance: the default scores 0.5 decide both labels. *)
Theorem fallback_run_summaries_are_limited
    (sk : Backend) (format_2f : Q -> string)
    (papers : list loc) (query : string) (s s1 : State) (e : exn)
    (Hraise : MLPaperProcessor.process_papers_try sk papers query s = (Raise e, s1)) :
  let h' := st_heap (snd (MLPaperProcessor.process_papers sk papers query s)) in
  forall p, In p papers ->
    exists summary,
      _ml_local_summary format_2f (h' p) query = Ok summary /\
      evidence_strength summary = "Limited" /\
      relevance summary = "Medium".
Proof.
  cbv zeta. intros p Hp.
  destruct (process_papers_fallback sk _ _ _ _ _ Hraise) as (s' & Hrun & Hdef).
  rewrite Hrun. simpl. destruct (Hdef p Hp) as (Hrel & _ & Hconf).
  unfold _ml_local_summary.
  rewrite (evidence_low_confidence (st_heap s' p))
    by (rewrite Hconf; apply Qle_refl).
  simpl. eexists. split; [reflexivity|]. split; [reflexivity|].
  simpl. unfold relevance_of. rewrite Hrel. reflexivity.
Qed.

(** X16.  Under the contract of exact cosine similarity (values in
    [0,1]) and with citation counts that are not negative, whatever path
    [process_papers] takes, the consensus over the list it returns reports
    a percentage within [0, 100] whenever it reports one. *)
Theorem processed_papers_give_a_percentage
    (sk : Backend) (Hsim : similarities_in_unit_interval sk)
    (papers : list loc) (query : string) (s : State)
    (Hcit : forall p c, In p papers ->
              citation_count (st_heap s p) = Some c -> (0 <= c)%Z) :
  forall out s',
    MLPaperProcessor.process_papers sk papers query s = (Ok out, s') ->
    forall reported,
      percentage (generate_ml_consensus sk (st_heap s') out query) = Some reported ->
      0 <= reported /\ reported <= 100.
Proof.
  intros out s' Hrun reported Hrep.
  assert (Hperm : Permutation papers out).
  { destruct (process_papers_cases sk papers query s)
      as [[-> Hr] | [[Hne (o & s2 & Htry & Hr)]
                    | [Hne (e & s1 & s2 & Htry & Hfb & Hr)]]];
      rewrite Hr in Hrun; inversion Hrun; subst.
    - constructor.
    - destruct (process_papers_try_ok sk _ _ _ _ _ Htry)
        as (sims & clusters & s0 & s3 & _ & _ & _ & _ & _ & Hout & _).
      subst out. apply SortFacts.sort_desc_perm.
    - apply Permutation_refl. }
  assert (Hconf : forall p, In p out -> 0 <= ml_summary_confidence (st_heap s' p)).
  { intros p Hp.
    assert (Hp' : In p papers)
      by (eapply Permutation_in; [apply Permutation_sym; exact Hperm | exact Hp]).
    pose proof (scores_in_unit_interval sk Hsim papers query s Hcit p Hp') as [_ Hc].
    rewrite Hrun in Hc. simpl in Hc. now destruct Hc. }
  destruct out as [|p0 rest]; [discriminate|].
  destruct (missing_count_or_all_present (st_heap s') (p0 :: rest)) as [Hex|Hall].
  - unfold generate_ml_consensus, generate_ml_consensus_try in Hrep.
    rewrite (sentiment_loop_raises sk (st_heap s') query (p0 :: rest) Hex) in Hrep.
    discriminate.
  - destruct (sentiment_loop_total sk (st_heap s') query (p0 :: rest) Hall [] [])
      as (pos & neg & Hloop).
    destruct (ConsensusExtras.reported_percentage_range sk (st_heap s') (p0 :: rest)
                query pos neg ltac:(discriminate) Hconf Hloop)
      as (_ & r & Hr & Hr0 & Hr1).
    rewrite Hr in Hrep. inversion Hrep; subst. now split.
Qed.

End PipelineFacts.

(** ** The session log *)

Module SessionFacts.

Import DataManager.

Lemma dict_set_keys_present (k : string) (v : nat) (d : list (string * nat)) :
  In k (map fst d) -> map fst (dict_set k v d) = map fst d.
Proof.
  induction d as [|[k' v'] d IH]; simpl; [intros []|].
  destruct (String.eqb_spec k' k) as [->|Hne]; [reflexivity|].
  intros [Hk|Hk]; [congruence|]. simpl. now rewrite IH.
Qed.

Lemma dict_set_keys_absent (k : string) (v : nat) (d : list (string * nat)) :
  ~ In k (map fst d) -> map fst (dict_set k v d) = map fst d ++ [k].
Proof.
  induction d as [|[k' v'] d IH]; simpl; [reflexivity|].
  intro Hk. destruct (String.eqb_spec k' k) as [->|Hne]; [tauto|].
  simpl. rewrite IH; [reflexivity | tauto].
Qed.

Lemma dict_set_in (k : string) (v : nat) (d : list (string * nat))
    (k' : string) (v' : nat) :
  In (k', v') (dict_set k v d) -> (k' = k /\ v' = v) \/ In (k', v') d.
Proof.
  induction d as [|[k0 v0] d IH]; simpl.
  - intros [H|[]]. inversion H. now left.
  - destruct (String.eqb_spec k0 k) as [->|Hne]; simpl.
    + intros [H|H]; [inversion H; now left | right; now right].
    + intros [H|H]; [right; now left|].
      destruct (IH H) as [?|?]; [now left | right; now right].
Qed.

Lemma dict_set_has (k : string) (v : nat) (d : list (string * nat)) :
  In (k, v) (dict_set k v d).
Proof.
  induction d as [|[k0 v0] d IH]; simpl; [now left|].
  destruct (String.eqb_spec k0 k) as [->|Hne]; simpl; [now left | now right].
Qed.

Section Counting.

(** The whole history, against which every count is taken. *)
Variable l : list SearchLog.

Let step (dist : list (string * nat)) (search : SearchLog) :=
  dict_set (log_consensus search)
           (count_consensus (log_consensus search) l) dist.

Lemma distribution_fold (l0 : list SearchLog) (d : list (string * nat)) :
  NoDup (map fst d) ->
  (forall k v, In (k, v) d -> v = count_consensus k l) ->
  NoDup (map fst (fold_left step l0 d)) /\
  (forall k v, In (k, v) (fold_left step l0 d) -> v = count_consensus k l) /\
  (forall k, In k (map fst (fold_left step l0 d)) <->
             In k (map fst d) \/ In k (map log_consensus l0)).
Proof.
  revert d. induction l0 as [|s l0 IH]; intros d Hnd Hval; simpl.
  - split; [exact Hnd|]. split; [exact Hval|]. intro k; tauto.
  - assert (Hnd' : NoDup (map fst (step d s))).
    { unfold step. destruct (in_dec string_dec (log_consensus s) (map fst d)) as [Hin|Hout].
      - now rewrite dict_set_keys_present.
      - rewrite dict_set_keys_absent by exact Hout.
        apply NoDup_app; [exact Hnd | repeat constructor; intros [] |].
        intros x Hx [<-|[]]. contradiction. }
    assert (Hval' : forall k v, In (k, v) (step d s) -> v = count_consensus k l).
    { intros k v Hin. unfold step in Hin.
      destruct (dict_set_in _ _ _ _ _ Hin) as [[-> ->]|Hold];
        [reflexivity | now apply Hval]. }
    destruct (IH (step d s) Hnd' Hval') as (H1 & H2 & H3).
    split; [exact H1|]. split; [exact H2|].
    intro k. rewrite H3. unfold step.
    destruct (in_dec string_dec (log_consensus s) (map fst d)) as [Hin|Hout].
    + rewrite dict_set_keys_present by exact Hin.
      split; [intros [?|?]; auto | intros [?|[<-|?]]; auto].
    + rewrite dict_set_keys_absent by exact Hout. rewrite in_app_iff. simpl.
      split; [intros [[?|[<-|[]]]|?]; auto | intros [?|[<-|?]]; auto].
Qed.

End Counting.

Lemma list_sum_map_add {A} (f g : A -> nat) (ks : list A) :
  list_sum (map (fun k => f k + g k)%nat ks)
  = (list_sum (map f ks) + list_sum (map g ks))%nat.
Proof. induction ks as [|k ks IH]; simpl; [reflexivity | rewrite IH; lia]. Qed.

Lemma list_sum_indicator_absent (x : string) (ks : list string) :
  ~ In x ks ->
  list_sum (map (fun k => if String.eqb x k then 1 else 0)%nat ks) = 0%nat.
Proof.
  induction ks as [|k ks IH]; simpl; [reflexivity|]. intro Hx.
  destruct (String.eqb_spec x k) as [->|Hne]; [tauto|]. apply IH. tauto.
Qed.

Lemma list_sum_indicator (x : string) (ks : list string) :
  NoDup ks -> In x ks ->
  list_sum (map (fun k => if String.eqb x k then 1 else 0)%nat ks) = 1%nat.
Proof.
  induction 1 as [|k ks Hk Hnd IH]; simpl; [intros []|].
  destruct (String.eqb_spec x k) as [->|Hne].
  - intros _. now rewrite list_sum_indicator_absent.
  - intros [?|Hin]; [congruence | now apply IH].
Qed.

(** Counting by verdict over keys that are distinct and cover every
    verdict of the history counts each search once. *)
Lemma counts_add_up (ks : list string) (l : list SearchLog) :
  NoDup ks ->
  (forall s, In s l -> In (log_consensus s) ks) ->
  list_sum (map (fun k => count_consensus k l) ks) = List.length l.
Proof.
  intro Hnd. induction l as [|s l IH]; intro Hcov.
  - unfold count_consensus. simpl.
    clear. induction ks; simpl; auto.
  - transitivity
      (list_sum (map (fun k => (if String.eqb (log_consensus s) k then 1 else 0)
                               + count_consensus k l)%nat ks)).
    + f_equal. apply map_ext. intro k. unfold count_consensus. simpl.
      destruct (String.eqb (log_consensus s) k); reflexivity.
    + rewrite list_sum_map_add, list_sum_indicator, IH; simpl; auto.
      * intros s' Hs'. apply Hcov. now right.
      * apply Hcov. now left.
Qed.

Lemma count_consensus_pos (s : SearchLog) (l : list SearchLog) :
  In s l -> (0 < count_consensus (log_consensus s) l)%nat.
Proof.
  intro Hin. unfold count_consensus.
  assert (H : In s (filter (fun s0 => String.eqb (log_consensus s0) (log_consensus s)) l)).
  { apply filter_In. split; [exact Hin | apply String.eqb_refl]. }
  destruct (filter _ l); [destruct H | simpl; lia].
Qed.

Lemma last_five_spec {A} (l : list A) :
  (exists older, l = older ++ last_five l) /\
  List.length (last_five l) = Nat.min 5 (List.length l).
Proof.
  unfold last_five. split.
  - exists (firstn (List.length l - 5) l). symmetry. apply firstn_skipn.
  - rewrite length_skipn. lia.
Qed.

(** X17.  Once a search is logged, the statistics of the session count
    every search exactly once: the verdicts in the distribution are
    distinct, each stands with the number of logged searches that ended
    in it (never zero), every logged verdict is there, and the numbers
    add up to [total_searches], the length of the log; the recent
    searches are the last five of the log, or all of it when it is
    shorter. *)
Theorem session_stats_count_every_search (d : SessionData) :
  searches d <> [] ->
  exists dist recent,
    consensus_distribution (get_session_stats d) = Some dist /\
    recent_searches (get_session_stats d) = Some recent /\
    total_searches (get_session_stats d) = List.length (searches d) /\
    NoDup (map fst dist) /\
    (forall k v, In (k, v) dist ->
       v = count_consensus k (searches d) /\ (0 < v)%nat) /\
    (forall s, In s (searches d) ->
       In (log_consensus s, count_consensus (log_consensus s) (searches d)) dist) /\
    list_sum (map snd dist) = total_searches (get_session_stats d) /\
    (exists older, searches d = older ++ recent) /\
    List.length recent = Nat.min 5 (List.length (searches d)).
Proof.
  intro Hne. unfold get_session_stats.
  destruct (searches d) as [|s0 l0] eqn:El; [contradiction|]. rewrite <- El. clear Hne.
  set (l := searches d).
  destruct (distribution_fold l l [] (NoDup_nil _) (fun k v (H : In (k, v) []) => match H with end))
    as (Hnd & Hval & Hkeys).
  eexists. eexists. split; [reflexivity|]. split; [reflexivity|].
  split; [reflexivity|]. split; [exact Hnd|].
  assert (Hcov : forall s, In s l ->
            In (log_consensus s)
               (map fst (fold_left
                  (fun dist search =>
                     dict_set (log_consensus search)
                       (count_consensus (log_consensus search) l) dist) l []))).
  { intros s Hs. apply Hkeys. right. now apply in_map. }
  split; [|split; [|split]].
  - intros k v Hin. pose proof (Hval k v Hin) as ->. split; [reflexivity|].
    assert (Hk : In k (map fst (fold_left
                  (fun dist search =>
                     dict_set (log_consensus search)
                       (count_consensus (log_consensus search) l) dist) l [])))
      by (apply in_map_iff; exists (k, count_consensus k l); auto).
    apply Hkeys in Hk. destruct Hk as [[]|Hk].
    apply in_map_iff in Hk. destruct Hk as (s & <- & Hs).
    now apply count_consensus_pos.
  - intros s Hs. pose proof (Hcov s Hs) as Hk.
    apply in_map_iff in Hk. destruct Hk as ([k v] & Hfst & Hin).
    simpl in Hfst. subst k. now rewrite <- (Hval _ _ Hin).
  - simpl total_searches. rewrite <- (counts_add_up _ l Hnd Hcov).
    rewrite map_map. f_equal. apply map_ext_in. intros [k v] Hin.
    simpl. now apply Hval.
  - apply last_five_spec.
Qed.

End SessionFacts.

(** ** A whole search *)

Module AssistantFacts.

Import Num NumFacts SortFacts LoopFacts ProcessorFacts SentimentFacts.
Import StrMore LocalSummary DataManager MLResearchAssistant.
Local Open Scope string_scope.
Local Open Scope list_scope.

Lemma lstrip_empty_iff (s : string) :
  lstrip s = EmptyString <-> all_chars is_space s = true.
Proof.
  induction s as [|c s IH]; simpl; [tauto|].
  destruct (is_space c); simpl; [exact IH | split; discriminate].
Qed.

Lemma rstrip_empty_iff (s : string) :
  rstrip s = EmptyString <-> all_chars is_space s = true.
Proof.
  induction s as [|c s IH]; simpl; [tauto|].
  destruct (rstrip s) as [|c' r].
  - destruct (is_space c); simpl.
    + split; [intros _; now apply IH | reflexivity].
    + split; discriminate.
  - split; [discriminate|]. intro H. apply andb_prop in H.
    destruct H as [_ H]. apply IH in H. discriminate.
Qed.

Lemma all_chars_rstrip (s : string) :
  all_chars is_space (rstrip s) = true -> all_chars is_space s = true.
Proof.
  induction s as [|c s IH]; simpl; [reflexivity|].
  destruct (rstrip s) as [|c' r] eqn:E.
  - destruct (is_space c) eqn:Ec; simpl.
    + intros _. now apply IH.
    + rewrite Ec. discriminate.
  - simpl. intro H. apply andb_prop in H. destruct H as [-> H]. simpl.
    now apply IH.
Qed.

(** [not q or not q.strip()] holds of the texts made of white space. *)
Lemma blank_iff (q : string) :
  (String.eqb q EmptyString || String.eqb (strip q) EmptyString)%bool = true
  <-> all_chars is_space q = true.
Proof.
  rewrite orb_true_iff. unfold strip. split.
  - intros [H|H]; apply String.eqb_eq in H.
    + now subst q.
    + apply all_chars_rstrip. now apply lstrip_empty_iff.
  - intro H. right. apply String.eqb_eq.
    apply rstrip_empty_iff in H. now rewrite H.
Qed.

Lemma process_papers_perm (sk : Backend) (papers : list loc) (query : string)
    (s : State) :
  exists out s',
    MLPaperProcessor.process_papers sk papers query s = (Ok out, s') /\
    Permutation papers out.
Proof.
  destruct (process_papers_cases sk papers query s)
    as [[-> Hrun] | [[Hne (out & s' & Htry & Hrun)]
                    | [Hne (e & s1 & s' & Htry & Hfb & Hrun)]]].
  - exists [], s. split; [exact Hrun | constructor].
  - exists out, s'. split; [exact Hrun|].
    destruct (process_papers_try_ok sk _ _ _ _ _ Htry)
      as (sims & clusters & s1 & s2 & _ & _ & _ & _ & _ & Hout & _).
    subst out. apply sort_desc_perm.
  - exists papers, s'. split; [exact Hrun | apply Permutation_refl].
Qed.

Section WithWorld.

Variable sk : Backend.
Variable w : World.

Lemma summarize_all_spec (key : option string) (h : heap) (papers : list loc)
    (q : string) (acc : list SummaryEntry) :
  summarize_all w key h papers q acc
  = acc ++ map (fun p => mkSummaryEntry p (summary_or_failure w key h q p)) papers.
Proof.
  revert acc. induction papers as [|p papers IH]; intro acc; simpl.
  - now rewrite app_nil_r.
  - rewrite IH, <- app_assoc. reflexivity.
Qed.

(** A search with a blank question. *)
Lemma search_blank (q : string) (n : Z) (a : Assistant) :
  all_chars is_space q = true ->
  search_and_analyze_ml sk w q n a = (no_results, a).
Proof.
  intro H. apply blank_iff in H. unfold search_and_analyze_ml. now rewrite H.
Qed.

(** A search that finds nothing. *)
Lemma search_nothing (q : string) (n : Z) (a : Assistant) :
  all_chars is_space q <> true ->
  found_papers (fst (search_papers w (strip q) n (st_heap (ml_processor a)))) = [] ->
  search_and_analyze_ml sk w q n a
  = (no_results,
     with_processor a
       (with_heap (ml_processor a)
          (snd (search_papers w (strip q) n (st_heap (ml_processor a)))))).
Proof.
  intros Hq Hf. unfold search_and_analyze_ml.
  destruct (String.eqb q EmptyString || String.eqb (strip q) EmptyString)%bool eqn:E;
    [apply blank_iff in E; contradiction|].
  destruct (search_papers w (strip q) n (st_heap (ml_processor a)))
    as [[[[|p l]|]|e] h1]; simpl in *; try reflexivity; discriminate.
Qed.

(** A search that finds papers: the result and the assistant after it,
    in terms of the run of the processor. *)
Lemma search_found (q : string) (n : Z) (a : Assistant)
    (found out : list loc) (h1 : heap) (s2 : State) :
  all_chars is_space q <> true ->
  search_papers w (strip q) n (st_heap (ml_processor a)) = (Ok (Some found), h1) ->
  found <> [] ->
  MLPaperProcessor.process_papers sk found q (with_heap (ml_processor a) h1)
  = (Ok out, s2) ->
  let entries :=
    map (fun p => mkSummaryEntry p
                    (summary_or_failure w (summarizer_key a) (st_heap s2) q p))
        out in
  let results :=
    mkResults (Some q) entries
      (Some (MLSummarizationService.generate_ml_consensus sk (st_heap s2) out q))
      (Some (insights_of s2 out)) (Some (List.length out)) in
  search_and_analyze_ml sk w q n a
  = (results,
     mkAssistant s2 (summarizer_key a)
       (save_session (clock w) results [] (data_manager a))
       out (map entry_summary entries)
       (Some (mkChatbot out (map entry_summary entries) []
                (if truthy (summarizer_key a) then summarizer_key a
                 else env_gemini_key w)))).
Proof.
  intros Hq Hf Hne Hrun entries results. unfold search_and_analyze_ml.
  destruct (String.eqb q EmptyString || String.eqb (strip q) EmptyString)%bool eqn:E;
    [apply blank_iff in E; contradiction|].
  rewrite Hf. destruct found as [|p found]; [contradiction|].
  cbn [ml_processor with_processor]. rewrite Hrun.
  rewrite summarize_all_spec. cbn [app]. fold entries.
  destruct (process_papers_perm sk (p :: found) q (with_heap (ml_processor a) h1))
    as (out' & s' & Hrun' & Hperm).
  rewrite Hrun in Hrun'. inversion Hrun'; subst out' s'.
  destruct out as [|o out];
    [apply Permutation_sym, Permutation_nil in Hperm; discriminate|].
  reflexivity.
Qed.

(** X18.  A search comes back empty-handed exactly when the question is
    blank (empty or white space only) or the scholarly API gave no
    paper (it raised, answered [None] or an empty list); with papers
    found, no later failure empties the result.  A blank question
    leaves the assistant as it was, the API is not even asked; and an
    empty-handed search logs nothing and keeps the papers, summaries
    and chatbot of the search before. *)
Theorem search_comes_back_empty_iff (q : string) (n : Z) (a : Assistant) :
  (fst (search_and_analyze_ml sk w q n a) = no_results <->
   all_chars is_space q = true \/
   found_papers (fst (search_papers w (strip q) n (st_heap (ml_processor a)))) = [])
  /\
  (all_chars is_space q = true -> snd (search_and_analyze_ml sk w q n a) = a)
  /\
  (fst (search_and_analyze_ml sk w q n a) = no_results ->
   data_manager (snd (search_and_analyze_ml sk w q n a)) = data_manager a /\
   current_papers (snd (search_and_analyze_ml sk w q n a)) = current_papers a /\
   current_summaries (snd (search_and_analyze_ml sk w q n a)) = current_summaries a /\
   chatbot (snd (search_and_analyze_ml sk w q n a)) = chatbot a /\
   papers_data (ml_processor (snd (search_and_analyze_ml sk w q n a)))
   = papers_data (ml_processor a)).
Proof.
  destruct (all_chars is_space q) eqn:Eq.
  - rewrite (search_blank q n a Eq). simpl. repeat split; auto.
  - assert (Hq : all_chars is_space q <> true) by (rewrite Eq; discriminate).
    destruct (found_papers (fst (search_papers w (strip q) n
                                   (st_heap (ml_processor a))))) as [|p l] eqn:Ef.
    + rewrite (search_nothing q n a Hq Ef). simpl.
      split; [split; auto|]. split; [discriminate|]. intros _. repeat split.
    + destruct (search_papers w (strip q) n (st_heap (ml_processor a)))
        as [fetched h1] eqn:Es.
      destruct fetched as [[found|]|e]; simpl in Ef; try discriminate. subst found.
      destruct (process_papers_perm sk (p :: l) q (with_heap (ml_processor a) h1))
        as (out & s2 & Hrun & Hperm).
      rewrite (search_found q n a (p :: l) out h1 s2 Hq Es ltac:(discriminate) Hrun).
      simpl. split; [|split]; try discriminate.
      split; [discriminate | intros [?|?]; discriminate].
Qed.

(** X19.  A search that finds papers reports each of them once: the
    entries of the result carry a permutation of the papers found (the
    order of the processor), one summary each, also for a paper whose
    summary raised; [total_found] is their number; the question is
    reported as typed, not stripped; and the assistant remembers the
    same papers and summaries, and hands them to a new chatbot with an
    empty history. *)
Theorem search_reports_every_paper_once (q : string) (n : Z) (a : Assistant)
    (found : list loc) (h1 : heap) :
  all_chars is_space q <> true ->
  search_papers w (strip q) n (st_heap (ml_processor a)) = (Ok (Some found), h1) ->
  found <> [] ->
  exists r a',
    search_and_analyze_ml sk w q n a = (r, a') /\
    Permutation found (map entry_paper (res_papers r)) /\
    List.length (res_papers r) = List.length found /\
    res_total_found r = Some (List.length found) /\
    res_question r = Some q /\
    (forall e, In e (res_papers r) ->
       entry_summary e
       = summary_or_failure w (summarizer_key a) (st_heap (ml_processor a')) q
           (entry_paper e)) /\
    current_papers a' = map entry_paper (res_papers r) /\
    current_summaries a' = map entry_summary (res_papers r) /\
    chatbot a'
    = Some (mkChatbot (current_papers a') (current_summaries a') []
              (if truthy (summarizer_key a) then summarizer_key a
               else env_gemini_key w)).
Proof.
  intros Hq Hf Hne.
  destruct (process_papers_perm sk found q (with_heap (ml_processor a) h1))
    as (out & s2 & Hrun & Hperm).
  eexists. eexists. split; [exact (search_found q n a found out h1 s2 Hq Hf Hne Hrun)|].
  cbn [res_papers res_total_found res_question current_papers current_summaries
       chatbot ml_processor].
  assert (Hmap : map entry_paper
            (map (fun p => mkSummaryEntry p
                    (summary_or_failure w (summarizer_key a) (st_heap s2) q p)) out)
          = out) by (rewrite map_map; simpl; apply map_id).
  rewrite Hmap, length_map.
  split; [exact Hperm|].
  split; [symmetry; now apply Permutation_length|].
  split; [f_equal; symmetry; now apply Permutation_length|].
  split; [reflexivity|].
  split; [|repeat split].
  intros e He. apply in_map_iff in He. destruct He as (p & <- & _). reflexivity.
Qed.

(** X20.  A search that finds papers is logged once: the history of the
    session grows by one entry at its end, with the question as typed,
    the number of papers found and the verdict and confidence of the
    consensus that the result reports, so the count of searches goes up
    by one; and the chat history kept in the session is emptied. *)
Theorem finished_search_is_logged_once (q : string) (n : Z) (a : Assistant)
    (found : list loc) (h1 : heap) :
  all_chars is_space q <> true ->
  search_papers w (strip q) n (st_heap (ml_processor a)) = (Ok (Some found), h1) ->
  found <> [] ->
  exists r a' meter entry,
    search_and_analyze_ml sk w q n a = (r, a') /\
    res_consensus_meter r = Some meter /\
    searches (data_manager a') = searches (data_manager a) ++ [entry] /\
    log_timestamp entry = clock w /\
    log_question entry = q /\
    log_num_papers entry = List.length found /\
    log_consensus entry = consensus meter /\
    log_ml_confidence entry = confidence meter /\
    chat_history (data_manager a') = [] /\
    session_ml_insights (data_manager a') = res_ml_insights r /\
    total_searches (get_session_stats (data_manager a'))
    = S (List.length (searches (data_manager a))).
Proof.
  intros Hq Hf Hne.
  destruct (process_papers_perm sk found q (with_heap (ml_processor a) h1))
    as (out & s2 & Hrun & Hperm).
  eexists. eexists. eexists. eexists.
  split; [exact (search_found q n a found out h1 s2 Hq Hf Hne Hrun)|].
  cbn [res_consensus_meter data_manager save_session searches res_question
       res_papers log_timestamp log_question log_num_papers log_consensus
       log_ml_confidence chat_history session_ml_insights res_ml_insights].
  split; [reflexivity|]. split; [reflexivity|].
  split; [reflexivity|]. split; [reflexivity|].
  split; [rewrite length_map; symmetry; now apply Permutation_length|].
  split; [reflexivity|]. split; [reflexivity|].
  split; [reflexivity|]. split; [reflexivity|].
  unfold get_session_stats. cbn [searches].
  destruct (searches (data_manager a) ++ _) as [|s0 l0] eqn:E.
  - apply app_eq_nil in E. destruct E as [_ E]. discriminate.
  - cbn [total_searches]. rewrite <- E, length_app. simpl. lia.
Qed.

Lemma ratio_in_unit_interval (c m : nat) :
  (c <= m)%nat -> (0 < m)%nat ->
  0 <= MLSummarizationService.of_nat c / MLSummarizationService.of_nat m <= 1.
Proof.
  intros Hc Hm. unfold MLSummarizationService.of_nat.
  assert (Hpos : 0 < inject_Z (Z.of_nat m))
    by (change 0 with (inject_Z 0); rewrite <- Zlt_Qlt; lia).
  split.
  - apply Qle_shift_div_l; [exact Hpos|]. rewrite Qmult_0_l.
    change 0 with (inject_Z 0). rewrite <- Zle_Qle. lia.
  - apply Qle_shift_div_r; [exact Hpos|]. rewrite Qmult_1_l.
    rewrite <- Zle_Qle. lia.
Qed.

(** X21.  The insights of a search that finds papers are within their
    ranges: the ratio of recent papers is between 0 and 1, the number
    of high-confidence papers is at most the number found, and the
    clusters reported are those of the processor as the search leaves
    it. *)
Theorem search_insights_are_bounded (q : string) (n : Z) (a : Assistant)
    (found : list loc) (h1 : heap) :
  all_chars is_space q <> true ->
  search_papers w (strip q) n (st_heap (ml_processor a)) = (Ok (Some found), h1) ->
  found <> [] ->
  exists r a' ins,
    search_and_analyze_ml sk w q n a = (r, a') /\
    res_ml_insights r = Some ins /\
    0 <= recent_papers_ratio ins <= 1 /\
    (high_confidence_count ins <= List.length found)%nat /\
    paper_clusters ins = ClusterView.get_paper_clusters (ml_processor a').
Proof.
  intros Hq Hf Hne.
  destruct (process_papers_perm sk found q (with_heap (ml_processor a) h1))
    as (out & s2 & Hrun & Hperm).
  pose proof (Permutation_length Hperm) as Hlen.
  eexists. eexists. eexists.
  split; [exact (search_found q n a found out h1 s2 Hq Hf Hne Hrun)|].
  cbn [res_ml_insights]. split; [reflexivity|].
  cbn [insights_of recent_papers_ratio high_confidence_count paper_clusters
       ml_processor].
  split; [|split; [|reflexivity]].
  - apply ratio_in_unit_interval; [apply count_le_length|].
    rewrite <- Hlen. destruct found; [contradiction | simpl; lia].
  - rewrite Hlen. apply count_le_length.
Qed.

End WithWorld.

End AssistantFacts.

(** ** The further statements at concrete inputs *)

Module MoreWitnesses.

Import Config PaperModel SpecWords Num Examples MoreExamples.
Import MLPaperProcessor MLSummarizationService ClusterView Wording.
Import StrMore LocalSummary DataManager MLResearchAssistant.
Local Open Scope string_scope.
Local Open Scope list_scope.

Lemma steady_similarities_in_unit_interval : similarities_in_unit_interval steady.
Proof.
  intros X Y m H. simpl in H. inversion H; subst m. clear H.
  induction X as [|row X IH]; simpl; constructor; [|exact IH].
  constructor; [|constructor]. split; discriminate.
Qed.

Lemma library_counts_nonneg (p : loc) (c : Z) :
  In p [0; 1; 2]%nat -> citation_count (st_heap fresh p) = Some c -> (0 <= c)%Z.
Proof.
  intros [<-|[<-|[<-|[]]]] H; simpl in H; inversion H; lia.
Qed.

Lemma scored_confidence_nonneg (p : loc) :
  In p [0; 1; 2]%nat -> 0 <= ml_summary_confidence (scored p).
Proof. intros [<-|[<-|[<-|[]]]]; discriminate. Qed.

Lemma clusters_after_normal_run_witness :
  kmeans_labels_in_range toy /\
  [0; 1; 2]%nat <> [] /\
  fst (process_papers_try toy [0; 1; 2]%nat "sleep" fresh) = Ok [2; 1; 0]%nat /\
  papers_data (snd (process_papers toy [0; 1; 2]%nat "sleep" fresh)) = [2; 1; 0]%nat /\
  (List.length (get_paper_clusters
                  (snd (process_papers toy [0; 1; 2]%nat "sleep" fresh))) <= 3)%nat.
Proof.
  assert (Hne : [0; 1; 2]%nat <> []) by discriminate.
  assert (Hfst : fst (process_papers_try toy [0; 1; 2]%nat "sleep" fresh)
                 = Ok [2; 1; 0]%nat) by (vm_compute; reflexivity).
  split; [exact Witnesses.toy_kmeans_labels_in_range|].
  split; [exact Hne|]. split; [exact Hfst|].
  pose proof (surjective_pairing
                (process_papers_try toy [0; 1; 2]%nat "sleep" fresh)) as Hrun.
  rewrite Hfst in Hrun.
  pose proof (ClusterRunFacts.clusters_after_normal_run
                toy Witnesses.toy_kmeans_labels_in_range
                [0; 1; 2]%nat "sleep" fresh _ _ Hne Hrun) as (H1 & _ & H3 & _).
  split; [exact H1 | exact H3].
Defined.

Lemma clusters_stale_after_fallback_witness :
  fst (process_papers_try empty_vocabulary [0; 5]%nat "sleep" fresh)
  = Raise ValueError /\
  get_paper_clusters (snd (process_papers empty_vocabulary [0; 5]%nat "sleep" fresh))
  = [].
Proof.
  assert (Hfst : fst (process_papers_try empty_vocabulary [0; 5]%nat "sleep" fresh)
                 = Raise ValueError) by (vm_compute; reflexivity).
  split; [exact Hfst|].
  pose proof (surjective_pairing
                (process_papers_try empty_vocabulary [0; 5]%nat "sleep" fresh))
    as Hrun.
  rewrite Hfst in Hrun.
  refine (proj2 (ClusterRunFacts.clusters_stale_after_fallback
                   empty_vocabulary [0; 5]%nat "sleep" fresh
                   (or_intror (ex_intro _ _ (ex_intro _ _ Hrun)))) _).
  reflexivity.
Defined.

Lemma explanation_wording_ignores_confidence_witness :
  exists pos neg e,
    sentiment_loop toy scored [0; 1; 2]%nat "does sleep help" [] [] = Ok (pos, neg) /\
    explanation (generate_ml_consensus toy scored [0; 1; 2]%nat "does sleep help")
    = Some e /\
    begins_with
      (first_sentence toy 3 (positive_percentage pos neg)
         (avg_confidence scored [0; 1; 2]%nat)) e.
Proof.
  assert (Hne : [0; 1; 2]%nat <> []) by discriminate.
  destruct (sentiment_loop toy scored [0; 1; 2]%nat "does sleep help" [] [])
    as [[pos neg]|e] eqn:Hrun; [|vm_compute in Hrun; discriminate].
  destruct (proj1 (ConsensusExtras.explanation_wording_ignores_confidence
                     toy scored [0; 1; 2]%nat "does sleep help" pos neg Hne Hrun))
    as (e & He & Hb).
  exists pos, neg, e. split; [reflexivity|]. split; [exact He | exact Hb].
Defined.

Lemma percentage_within_0_100_witness :
  exists pos neg,
    sentiment_loop toy scored [0; 1; 2]%nat "does sleep help" [] [] = Ok (pos, neg) /\
    0 <= positive_percentage pos neg /\ positive_percentage pos neg <= 100.
Proof.
  assert (Hne : [0; 1; 2]%nat <> []) by discriminate.
  destruct (sentiment_loop toy scored [0; 1; 2]%nat "does sleep help" [] [])
    as [[pos neg]|e] eqn:Hrun; [|vm_compute in Hrun; discriminate].
  exists pos, neg. split; [reflexivity|].
  exact (proj1 (ConsensusExtras.percentage_within_0_100
                  toy scored [0; 1; 2]%nat "does sleep help" pos neg Hne
                  scored_confidence_nonneg Hrun)).
Defined.

Lemma fallback_run_gives_mixed_or_error_witness :
  [0; 1]%nat <> [] /\
  fst (process_papers_try empty_vocabulary [0; 1]%nat "sleep" fresh)
  = Raise ValueError /\
  fst (process_papers empty_vocabulary [0; 1]%nat "sleep" fresh) = Ok [0; 1]%nat.
Proof.
  assert (Hne : [0; 1]%nat <> []) by discriminate.
  assert (Hfst : fst (process_papers_try empty_vocabulary [0; 1]%nat "sleep" fresh)
                 = Raise ValueError) by (vm_compute; reflexivity).
  split; [exact Hne|]. split; [exact Hfst|].
  pose proof (surjective_pairing
                (process_papers_try empty_vocabulary [0; 1]%nat "sleep" fresh))
    as Hrun.
  rewrite Hfst in Hrun.
  exact (proj1 (PipelineFacts.fallback_run_gives_mixed_or_error
                  empty_vocabulary [0; 1]%nat "sleep" fresh _ _ Hne Hrun)).
Defined.

Lemma fallback_run_summaries_are_limited_witness :
  fst (process_papers_try empty_vocabulary [0; 5]%nat "sleep" fresh)
  = Raise ValueError /\
  In 5%nat [0; 5]%nat /\
  exists summary,
    _ml_local_summary (format_2f desk)
      (st_heap (snd (process_papers empty_vocabulary [0; 5]%nat "sleep" fresh)) 5%nat)
      "sleep" = Ok summary /\
    evidence_strength summary = "Limited" /\
    relevance summary = "Medium".
Proof.
  assert (Hfst : fst (process_papers_try empty_vocabulary [0; 5]%nat "sleep" fresh)
                 = Raise ValueError) by (vm_compute; reflexivity).
  assert (Hin : In 5%nat [0; 5]%nat) by (simpl; auto).
  split; [exact Hfst|]. split; [exact Hin|].
  pose proof (surjective_pairing
                (process_papers_try empty_vocabulary [0; 5]%nat "sleep" fresh))
    as Hrun.
  rewrite Hfst in Hrun.
  exact (PipelineFacts.fallback_run_summaries_are_limited
           empty_vocabulary (format_2f desk) [0; 5]%nat "sleep" fresh _ _ Hrun
           5%nat Hin).
Defined.

Lemma processed_papers_give_a_percentage_witness :
  similarities_in_unit_interval steady /\
  exists out reported,
    fst (process_papers steady [0; 1; 2]%nat "sleep" fresh) = Ok out /\
    percentage
      (generate_ml_consensus steady
         (st_heap (snd (process_papers steady [0; 1; 2]%nat "sleep" fresh)))
         out "sleep") = Some reported /\
    0 <= reported /\ reported <= 100.
Proof.
  split; [exact steady_similarities_in_unit_interval|].
  destruct (fst (process_papers steady [0; 1; 2]%nat "sleep" fresh))
    as [out|e] eqn:Hfst; [|vm_compute in Hfst; discriminate].
  pose proof (surjective_pairing
                (process_papers steady [0; 1; 2]%nat "sleep" fresh)) as Hrun.
  rewrite Hfst in Hrun.
  destruct (percentage
              (generate_ml_consensus steady
                 (st_heap (snd (process_papers steady [0; 1; 2]%nat "sleep" fresh)))
                 out "sleep")) as [reported|] eqn:Hrep.
  - exists out, reported. split; [reflexivity|]. split; [exact Hrep|].
    exact (PipelineFacts.processed_papers_give_a_percentage
             steady steady_similarities_in_unit_interval
             [0; 1; 2]%nat "sleep" fresh library_counts_nonneg _ _ Hrun _ Hrep).
  - exfalso. revert Hrep.
    assert (Hout : out = [0; 1; 2]%nat)
      by (vm_compute in Hfst; inversion Hfst; reflexivity).
    subst out. vm_compute. discriminate.
Defined.

End MoreWitnesses.

Module AssistantWitnesses.

Import Examples MoreExamples.
Import StrMore DataManager MLResearchAssistant.
Local Open Scope string_scope.
Local Open Scope list_scope.

Lemma sleep_is_not_blank : all_chars is_space "sleep" <> true.
Proof. discriminate. Qed.

Lemma session_stats_count_every_search_witness :
  searches three_searches <> [] /\
  exists dist,
    consensus_distribution (get_session_stats three_searches) = Some dist /\
    list_sum (map snd dist) = 3%nat.
Proof.
  assert (Hne : searches three_searches <> []) by discriminate.
  split; [exact Hne|].
  destruct (SessionFacts.session_stats_count_every_search three_searches Hne)
    as (dist & recent & H1 & _ & H3 & _ & _ & _ & Hsum & _).
  exists dist. split; [exact H1|]. rewrite Hsum, H3. reflexivity.
Defined.

Lemma search_reports_every_paper_once_witness :
  all_chars is_space "sleep" <> true /\
  exists r a',
    search_and_analyze_ml toy desk "sleep" 10 newcomer = (r, a') /\
    Permutation [0; 1; 5]%nat (map entry_paper (res_papers r)) /\
    res_total_found r = Some 3%nat.
Proof.
  split; [exact sleep_is_not_blank|].
  destruct (AssistantFacts.search_reports_every_paper_once
              toy desk "sleep" 10 newcomer [0; 1; 5]%nat
              (st_heap (ml_processor newcomer))
              sleep_is_not_blank eq_refl ltac:(discriminate))
    as (r & a' & Hrun & Hperm & _ & Htotal & _).
  exists r, a'. split; [exact Hrun|]. split; [exact Hperm | exact Htotal].
Defined.

Lemma finished_search_is_logged_once_witness :
  exists r a' entry,
    search_and_analyze_ml toy desk "sleep" 10 newcomer = (r, a') /\
    searches (data_manager a') = [entry] /\
    log_question entry = "sleep" /\
    log_num_papers entry = 3%nat /\
    total_searches (get_session_stats (data_manager a')) = 1%nat.
Proof.
  destruct (AssistantFacts.finished_search_is_logged_once
              toy desk "sleep" 10 newcomer [0; 1; 5]%nat
              (st_heap (ml_processor newcomer))
              sleep_is_not_blank eq_refl ltac:(discriminate))
    as (r & a' & meter & entry & Hrun & _ & Hlog & _ & Hq & Hn & _ & _ & _ & _ & Ht).
  exists r, a', entry. split; [exact Hrun|]. split; [exact Hlog|].
  split; [exact Hq|]. split; [exact Hn | exact Ht].
Defined.

Lemma search_insights_are_bounded_witness :
  exists r a' ins,
    search_and_analyze_ml toy desk "sleep" 10 newcomer = (r, a') /\
    res_ml_insights r = Some ins /\
    0 <= recent_papers_ratio ins <= 1 /\
    (high_confidence_count ins <= 3)%nat.
Proof.
  destruct (AssistantFacts.search_insights_are_bounded
              toy desk "sleep" 10 newcomer [0; 1; 5]%nat
              (st_heap (ml_processor newcomer))
              sleep_is_not_blank eq_refl ltac:(discriminate))
    as (r & a' & ins & Hrun & Hins & Hratio & Hcount & _).
  exists r, a', ins. split; [exact Hrun|]. split; [exact Hins|].
  split; [exact Hratio | exact Hcount].
Defined.

End AssistantWitnesses.
